(** * CareSync: adherence and access-authorization engine

    A shallow embedding of the three Express controllers of the backend
    (medication, caregiver and adherence controller) together with the
    statements that relate them to the written specification.

    Conventions of the embedding.
    - Primary keys and foreign keys are opaque identifiers compared with
      [===]; they are strings, the form they have in [req.params] and
      [req.query].
    - A Sequelize table is the list of its rows in storage order.
      [findOne] returns the first row satisfying the [where] clause and an
      instance [update] rewrites the row that was found.
    - A [Date] is its time value, milliseconds since the epoch in [Z], or
      an Invalid Date; the time zone of the server is a parameter.
    - A JavaScript number that takes part in a division is a double
      (a primitive float of the kernel).
    - Every handler takes the store and returns the response together
      with the store it leaves behind. *)

From Stdlib Require Import ZArith List String Ascii Bool Lia QArith Qround.
From Stdlib Require Import Sorted Permutation.
From Stdlib Require Floats Uint63 DecimalString.
Import ListNotations.

Open Scope string_scope.
Open Scope Z_scope.

(** ** JavaScript values *)

Module Js.

(** [s || d] on a string that may be [undefined]: the empty string is
    falsy as well. *)
Definition str_or (s : option string) (d : string) : string :=
  match s with
  | Some v => if (v =? EmptyString)%string then d else v
  | None => d
  end.

(** Truthiness of an optional string ([patientId && ...]). *)
Definition truthy (s : option string) : bool :=
  match s with
  | Some v => negb (v =? EmptyString)%string
  | None => false
  end.

(** [n || d] on an integer column that may be [null]: [0] is falsy. *)
Definition num_or (n : option Z) (d : Z) : Z :=
  match n with
  | Some v => if v =? 0 then d else v
  | None => d
  end.

(** [x || d] on a value whose only falsy form is [undefined]
    (a Date, an object). *)
Definition val_or {A : Type} (x : option A) (d : A) : A :=
  match x with
  | Some v => v
  | None => d
  end.

(** [arr.includes(x)] on an array of strings. *)
Definition includes (arr : list string) (x : string) : bool :=
  existsb (fun y => (y =? x)%string) arr.

(** [!!x] on an object reference or [null]. *)
Definition notnot {A : Type} (x : option A) : bool :=
  match x with
  | Some _ => true
  | None => false
  end.

(** Numeric coercion of a nullable integer in a relational
    comparison: [null] counts as [0]. *)
Definition to_number (n : option Z) : Z :=
  match n with
  | Some v => v
  | None => 0
  end.

(** [ToIntegerOrInfinity] on an exact rational: truncation toward zero.
    It serves the estimate of the next dose, where the quotient 24 / times
    and its product are kept exact; the doubles of the code can end a
    millisecond lower. *)
Definition to_integer (q : Q) : Z :=
  if Qle_bool 0 q then Qfloor q else Qceiling q.

(** *** Doubles *)

(** The double an integer converts to: the integer itself below 2^53,
    the nearest double (ties to even) beyond. *)
Definition of_Z (z : Z) : PrimFloat.float :=
  if Z.abs z <? 2 ^ 53 then
    let x := PrimFloat.of_uint63 (Uint63.of_Z (Z.abs z)) in
    if z <? 0 then PrimFloat.opp x else x
  else FloatOps.SF2Prim (SpecFloat.binary_normalize FloatOps.prec FloatOps.emax z 0 false).

(** [ToIntegerOrInfinity] on a double that is finite: the integer part of
    m * 2^e, truncated toward zero.  [None]: NaN or an infinity. *)
Definition truncate (x : PrimFloat.float) : option Z :=
  match FloatOps.Prim2SF x with
  | SpecFloat.S754_zero _ => Some 0
  | SpecFloat.S754_finite s m e =>
      let a := Z.shiftl (Zpos m) e in
      Some (if s then - a else a)
  | _ => None
  end.

(** *** Query strings *)

(** The value of a decimal digit, by its character code. *)
Definition digit (c : ascii) : option Z :=
  let code := Z.of_N (N_of_ascii c) in
  if (48 <=? code) && (code <=? 57) then Some (code - 48) else None.

Fixpoint digits (acc : Z) (s : string) : option Z :=
  match s with
  | EmptyString => Some acc
  | String c rest =>
      match digit c with
      | Some d => digits (10 * acc + d) rest
      | None => None
      end
  end.

(** The integer a string of decimal digits denotes; [None] for the empty
    string and for a string with any other character. *)
Definition decimal (s : string) : option Z :=
  match s with
  | EmptyString => None
  | _ => digits 0 s
  end.

(** A numeric query parameter that the code converts both with
    [parseInt] and by numeric coercion ([-], [*], [/]).  The two
    conversions agree on a string of decimal digits whose value is below
    2^53 (both give that integer), and on the default, which is a number
    already; they differ on other strings ("2.5", "1e1", "0x10", " 7"),
    which are outside the model ([None]). *)
Definition queryInteger (q : option string) (dflt : Z) : option Z :=
  match q with
  | None => Some dflt
  | Some s =>
      match decimal s with
      | Some n => if n <? 2 ^ 53 then Some n else None
      | None => None
      end
  end.

(** [`${n}`] on a count. *)
Definition nat_to_string (n : nat) : string :=
  DecimalString.NilZero.string_of_uint (Nat.to_uint n).

End Js.

(** ** Models *)

Module User.
Record t := mk {
  id : string;
  role : string;
  email : string;
  firstName : string;
  lastName : string
}.
End User.

Module CaregiverPatient.
Record t := mk {
  id : string;
  caregiverId : string;
  patientId : string;
  relationship : string;
  permissions : list (string * bool);
  isVerified : bool;
  isActive : bool
}.

Definition set_isVerified (b : bool) (r : t) : t :=
  mk (id r) (caregiverId r) (patientId r) (relationship r)
     (permissions r) b (isActive r).

Definition set_isActive (b : bool) (r : t) : t :=
  mk (id r) (caregiverId r) (patientId r) (relationship r)
     (permissions r) (isVerified r) b.
End CaregiverPatient.

Module Medication.
Record t := mk {
  id : string;
  userId : string;
  name : string;
  dosage : string;
  dosageUnit : string;
  timesPerDay : option Z;
  totalQuantity : option Z;
  remainingQuantity : option Z;
  isActive : bool
}.

(** The body of a PUT: every attribute may be present or absent.
    Sequelize ignores an attempt to set the primary key of a stored row. *)
Record patch := mkPatch {
  p_userId : option string;
  p_name : option string;
  p_dosage : option string;
  p_dosageUnit : option string;
  p_timesPerDay : option (option Z);
  p_totalQuantity : option (option Z);
  p_remainingQuantity : option (option Z);
  p_isActive : option bool
}.

Definition update (p : patch) (m : t) : t :=
  mk (id m)
     (Js.val_or (p_userId p) (userId m))
     (Js.val_or (p_name p) (name m))
     (Js.val_or (p_dosage p) (dosage m))
     (Js.val_or (p_dosageUnit p) (dosageUnit m))
     (Js.val_or (p_timesPerDay p) (timesPerDay m))
     (Js.val_or (p_totalQuantity p) (totalQuantity m))
     (Js.val_or (p_remainingQuantity p) (remainingQuantity m))
     (Js.val_or (p_isActive p) (isActive m)).

Definition set_isActive (b : bool) (m : t) : t :=
  mk (id m) (userId m) (name m) (dosage m) (dosageUnit m)
     (timesPerDay m) (totalQuantity m) (remainingQuantity m) b.

Definition set_remainingQuantity (q : option Z) (m : t) : t :=
  mk (id m) (userId m) (name m) (dosage m) (dosageUnit m)
     (timesPerDay m) (totalQuantity m) q (isActive m).

(** [med.decrement('remainingQuantity', { by: 1 })]: the statement
    [SET remainingQuantity = remainingQuantity - 1]; a null column
    stays null. *)
Definition decrement (m : t) : t :=
  set_remainingQuantity (option_map (fun q => q - 1) (remainingQuantity m)) m.
(** What the model fills in for an attribute that [create] is not
    given.  The model declarations are not part of the sources at hand,
    so the column defaults are a parameter. *)
Record defaults := mkDefaults {
  d_timesPerDay : option Z;
  d_totalQuantity : option Z;
  d_remainingQuantity : option Z;
  d_isActive : bool
}.

(** The body of a POST.  A nullable attribute is absent ([None]),
    [null] ([Some None]) or a value. *)
Record createBody := mkCreateBody {
  c_id : option string;
  c_userId : option string;
  c_name : string;
  c_dosage : string;
  c_dosageUnit : string;
  c_timesPerDay : option (option Z);
  c_totalQuantity : option (option Z);
  c_remainingQuantity : option (option Z);
  c_isActive : option bool
}.
End Medication.

Module Adherence.
(** The attributes the controllers hand to [create]; an attribute the
    request left out is [None]. *)
Record t := mk {
  id : string;
  userId : string;
  medicationId : option string;
  status : option string;
  takenAt : option Z;
  scheduledTime : option Z
}.

Record patch := mkPatch {
  p_userId : option string;
  p_medicationId : option string;
  p_status : option string;
  p_takenAt : option Z;
  p_scheduledTime : option Z
}.

Definition opt_or {A : Type} (x y : option A) : option A :=
  match x with
  | Some _ => x
  | None => y
  end.

Definition update (p : patch) (r : t) : t :=
  mk (id r)
     (Js.val_or (p_userId p) (userId r))
     (opt_or (p_medicationId p) (medicationId r))
     (opt_or (p_status p) (status r))
     (opt_or (p_takenAt p) (takenAt r))
     (opt_or (p_scheduledTime p) (scheduledTime r)).
End Adherence.

Module Notification.
Record t := mk {
  id : string;
  userId : string;
  caregiverId : string;
  type : string;
  title : string;
  message : string;
  isRead : bool;
  priority : string
}.
End Notification.

(** ** The store *)

Record DB := mkDB {
  users : list User.t;
  caregiverPatients : list CaregiverPatient.t;
  medications : list Medication.t;
  adherences : list Adherence.t;
  notifications : list Notification.t
}.

Definition set_caregiverPatients (l : list CaregiverPatient.t) (db : DB) : DB :=
  mkDB (users db) l (medications db) (adherences db) (notifications db).

Definition set_medications (l : list Medication.t) (db : DB) : DB :=
  mkDB (users db) (caregiverPatients db) l (adherences db) (notifications db).

Definition set_adherences (l : list Adherence.t) (db : DB) : DB :=
  mkDB (users db) (caregiverPatients db) (medications db) l (notifications db).

Definition set_notifications (l : list Notification.t) (db : DB) : DB :=
  mkDB (users db) (caregiverPatients db) (medications db) (adherences db) l.

(** [instance.update]: rewrite the row [findOne] returned, that is the
    first row the [where] clause selects. *)
Fixpoint update_first {A : Type} (p : A -> bool) (f : A -> A) (l : list A) : list A :=
  match l with
  | [] => []
  | x :: rest => if p x then f x :: rest else x :: update_first p f rest
  end.

(** ** Responses *)

Record Response (A : Type) := mkResponse {
  status : nat;
  success : bool;
  message : option string;
  data : option A
}.
Arguments mkResponse {A}.
Arguments status {A}.
Arguments success {A}.
Arguments message {A}.
Arguments data {A}.

Definition fail_with {A : Type} (code : nat) (msg : string) : Response A :=
  mkResponse code false (Some msg) None.

(** ** Dates

    A [Date] holds a time value, milliseconds since the epoch, or NaN (an
    Invalid Date).  The methods that read or set local calendar fields go
    through the time zone of the server. *)

Module JsDate.

Definition msPerHour : Z := 3600000.
Definition msPerDay : Z := 86400000.
Definition maxTime : Z := 8640000000000000.

(** A Date; [None] is an Invalid Date. *)
Definition t : Type := option Z.

(** [TimeClip]: what [new Date(tv)] holds for an integral [tv]. *)
Definition TimeClip (tv : Z) : t :=
  if Z.abs tv <=? maxTime then Some tv else None.

(** The time zone of the server.  [offsetAt tv] is the offset from UTC, in
    milliseconds, in force at the instant [tv] ([LocalTZA(tv, true)]);
    [offsetOfLocal l] is the offset by which the local time value [l] is
    read back as an instant ([LocalTZA(l, false)], which settles a local
    time that a change of offset skips or repeats). *)
Record Zone := mkZone {
  offsetAt : Z -> Z;
  offsetOfLocal : Z -> Z
}.

(** A zone without daylight saving: one offset at all times. *)
Definition fixedOffset (tz : Z) : Zone := mkZone (fun _ => tz) (fun _ => tz).

Definition LocalTime (zone : Zone) (tv : Z) : Z := tv + offsetAt zone tv.
Definition UTC (zone : Zone) (l : Z) : Z := l - offsetOfLocal zone l.
Definition Day (tv : Z) : Z := tv / msPerDay.
Definition TimeWithinDay (tv : Z) : Z := tv mod msPerDay.

(** Calendar day (days since the epoch) and time of day on a clock that
    is [tz] milliseconds ahead of UTC. *)
Definition localDay (tz t : Z) : Z := (t + tz) / msPerDay.
Definition localMs (tz t : Z) : Z := (t + tz) mod msPerDay.

(** [d.setDate(d.getDate() + n)]: the local date moved by [n] days at the
    same local time of day, read back as an instant.  [n] is what
    [parseInt] returned, [None] for NaN; the result is invalid when [d]
    is, when [n] is NaN and when it leaves the range of time values. *)
Definition addDays (zone : Zone) (n : option Z) (d : t) : t :=
  match d, n with
  | Some tv, Some n =>
      let l := LocalTime zone tv in
      TimeClip (UTC zone ((Day l + n) * msPerDay + TimeWithinDay l))
  | _, _ => None
  end.

(** [d.setHours(h, 0, 0, 0)]: the local day of [d] at local hour [h],
    where [h] is the integer part of the argument ([None]: the argument
    is not finite); hours beyond 23 run into the next day. *)
Definition setHours (zone : Zone) (h : option Z) (d : t) : t :=
  match d, h with
  | Some tv, Some h =>
      TimeClip (UTC zone (Day (LocalTime zone tv) * msPerDay + h * msPerHour))
  | _, _ => None
  end.

(** [new Date(d.getTime() + ms)]. *)
Definition plus (d : t) (ms : Z) : t :=
  match d with
  | Some tv => TimeClip (tv + ms)
  | None => None
  end.

(** [a <= b] on two Dates: false when either is invalid. *)
Definition leb (a b : t) : bool :=
  match a, b with
  | Some x, Some y => x <=? y
  | _, _ => false
  end.

(** [d.toISOString().split('T')[0]]: the UTC calendar day, kept as its
    day number. *)
Definition isoDay (tv : Z) : Z := tv / msPerDay.

End JsDate.

(** ** Loops *)

(** [for (...; cond; ...) body] on a loop state; the fuel bounds the
    number of evaluations of the condition, and [None] is a loop that
    has not finished within it. *)
Fixpoint for_loop {S : Type} (fuel : nat) (cond : S -> bool)
  (body : S -> option S) (s : S) : option S :=
  match fuel with
  | O => None
  | Datatypes.S fuel' =>
      if cond s then
        match body s with
        | Some s' => for_loop fuel' cond body s'
        | None => None
        end
      else Some s
  end.

(** [arr.forEach(f)] with a callback that acts on a state. *)
Fixpoint forEach {A S : Type} (f : A -> S -> option S) (arr : list A) (s : S)
  : option S :=
  match arr with
  | [] => Some s
  | x :: rest =>
      match f x s with
      | Some s' => forEach f rest s'
      | None => None
      end
  end.

(** [arr.sort((a, b) => key a - key b)]: a stable sort on an integer key. *)
Fixpoint insert_by {A : Type} (key : A -> Z) (x : A) (l : list A) : list A :=
  match l with
  | [] => [x]
  | y :: rest => if key y <=? key x then y :: insert_by key x rest else x :: l
  end.

Definition sort_by {A : Type} (key : A -> Z) (l : list A) : list A :=
  fold_left (fun acc x => insert_by key x acc) l [].

(** ** MedicationController *)

Module MedicationController.

(** Helper to validate access to patient data. *)
Definition _validateAccess (db : DB) (user : User.t) (targetUserId : string) : bool :=
  if (User.id user =? targetUserId)%string then true
  else if Js.includes ["admin"; "healthcareprovider"] (User.role user) then true
  else if (User.role user =? "caregiver")%string then
    let relation :=
      find (fun r =>
              (CaregiverPatient.caregiverId r =? User.id user)%string
              && (CaregiverPatient.patientId r =? targetUserId)%string
              && Bool.eqb (CaregiverPatient.isActive r) true
              && Bool.eqb (CaregiverPatient.isVerified r) true)
           (caregiverPatients db) in
    Js.notnot relation
  else false.

(** The guard every read handler opens with:
    [patientId && !(await this._validateAccess(req, targetUserId))]. *)
Definition denied (db : DB) (user : User.t) (patientId : option string) : bool :=
  let targetUserId := Js.str_or patientId (User.id user) in
  Js.truthy patientId && negb (_validateAccess db user targetUserId).

(** [Medication.findAll({ where: { userId, isActive: true } })]. *)
Definition activeMedications (db : DB) (targetUserId : string) : list Medication.t :=
  filter (fun m => (Medication.userId m =? targetUserId)%string
                   && Bool.eqb (Medication.isActive m) true)
         (medications db).

(** [Medication.findOne({ where: { id, userId: req.user.id } })]. *)
Definition ownedBy (id : string) (user : User.t) (m : Medication.t) : bool :=
  (Medication.id m =? id)%string && (Medication.userId m =? User.id user)%string.

Definition updateMedication (user : User.t) (id : string) (body : Medication.patch)
  (db : DB) : Response Medication.t * DB :=
  match find (ownedBy id user) (medications db) with
  | None => (fail_with 404 "Medication not found", db)
  | Some medication =>
      let medication' := Medication.update body medication in
      (mkResponse 200 true None (Some medication'),
       set_medications
         (update_first (ownedBy id user) (Medication.update body) (medications db)) db)
  end.

Definition deleteMedication (user : User.t) (id : string) (db : DB)
  : Response unit * DB :=
  match find (ownedBy id user) (medications db) with
  | None => (fail_with 404 "Medication not found", db)
  | Some medication =>
      (mkResponse 200 true (Some "Medication deactivated") None,
       set_medications
         (update_first (ownedBy id user) (Medication.set_isActive false)
            (medications db)) db)
  end.

(** The callback of [medications.filter] in [getRefillNeeded]. *)
Definition needsRefill (med : Medication.t) : bool :=
  let dailyDose := Js.num_or (Medication.timesPerDay med) 1 in
  let threshold := dailyDose * 7 in
  Js.num_or (Medication.remainingQuantity med) 0 <=? threshold.

Definition getRefillNeeded (user : User.t) (patientId : option string) (db : DB)
  : Response (list Medication.t * nat) :=
  let targetUserId := Js.str_or patientId (User.id user) in
  if denied db user patientId then fail_with 403 "Access denied"
  else
    let medications := activeMedications db targetUserId in
    let medicationsNeedingRefill := filter needsRefill medications in
    mkResponse 200 true None
      (Some (medicationsNeedingRefill, List.length medicationsNeedingRefill)).

Record UpcomingDose := mkUpcomingDose {
  medicationId : string;
  medicationName : string;
  doseDosage : string;
  scheduledTime : Z;
  isRefillDue : bool
}.

(** The callback of [medications.forEach] in [getUpcomingDoses];
    [Date] truncates the time value it is given to whole milliseconds.
    The comparison [nextDose <= limitTime] fails when either Date is
    invalid, so a dose that is pushed has a time value. *)
Definition pushUpcoming (now : Z) (limitTime : JsDate.t) (med : Medication.t)
  (upcomingDoses : list UpcomingDose) : option (list UpcomingDose) :=
  let intervalHours := (24 / inject_Z (Js.num_or (Medication.timesPerDay med) 1))%Q in
  let nextDose :=
    JsDate.TimeClip
      (Js.to_integer (inject_Z now + intervalHours * inject_Z (60 * 60 * 1000))%Q) in
  match nextDose with
  | Some scheduled =>
      if JsDate.leb nextDose limitTime then
        Some (upcomingDoses ++
          [mkUpcomingDose (Medication.id med) (Medication.name med)
             (Medication.dosage med ++ " " ++ Medication.dosageUnit med)
             scheduled
             (Js.to_number (Medication.remainingQuantity med) <? 10)])%list
      else Some upcomingDoses
  | None => Some upcomingDoses
  end.

Definition getUpcomingDoses (user : User.t) (hours : option Z)
  (patientId : option string) (now : Z) (db : DB)
  : Response (list UpcomingDose) :=
  let hours := Js.val_or hours 24 in
  let targetUserId := Js.str_or patientId (User.id user) in
  if denied db user patientId then fail_with 403 "Access denied"
  else
    let medications := activeMedications db targetUserId in
    let limitTime := JsDate.TimeClip (now + hours * 60 * 60 * 1000) in
    match forEach (pushUpcoming now limitTime) medications [] with
    | Some upcomingDoses =>
        mkResponse 200 true None (Some (sort_by scheduledTime upcomingDoses))
    | None => fail_with 500 "loop did not finish"
    end.

(** [remainingQuantity: { [Op.lte]: 10 }] in a [where] clause: a null
    column satisfies no comparison. *)
Definition lowStockRow (m : Medication.t) : bool :=
  match Medication.remainingQuantity m with
  | Some q => q <=? 10
  | None => false
  end.

Definition getMedicationStats (user : User.t) (patientId : option string) (db : DB)
  : Response (nat * nat) :=
  let targetUserId := Js.str_or patientId (User.id user) in
  if denied db user patientId then fail_with 403 "Access denied"
  else
    let total := List.length (activeMedications db targetUserId) in
    let lowStock := List.length (filter lowStockRow (activeMedications db targetUserId)) in
    mkResponse 200 true None (Some (total, lowStock)).

(** An entry of the calendar.  The virtual id [`${med.id}-${dayStr}-${i}`]
    is kept as its three components. *)
Record ScheduleEvent := mkScheduleEvent {
  ev_id : string * Z * Z;
  ev_title : string;
  ev_start : JsDate.t;
  ev_end : JsDate.t;
  ev_medicationId : string;
  ev_dosage : string;
  ev_status : string
}.

(** The body of the loop over [i]; [d] is the day of the outer loop.
    The hour is computed on doubles and [setHours] takes its integer
    part. *)
Definition pushDose (zone : JsDate.Zone) (med : Medication.t) (d : JsDate.t)
  (dayStr : Z) (interval : PrimFloat.float) (st : Z * list ScheduleEvent)
  : option (Z * list ScheduleEvent) :=
  let '(i, schedule) := st in
  let hour := PrimFloat.add (Js.of_Z 8) (PrimFloat.mul (Js.of_Z i) interval) in
  let doseTime := JsDate.setHours zone (Js.truncate hour) d in
  Some (i + 1,
        schedule ++
        [mkScheduleEvent (Medication.id med, dayStr, i)
           ("Take " ++ Medication.name med)
           doseTime
           (JsDate.plus doseTime (30 * 60000))
           (Medication.id med)
           (Medication.dosage med ++ " " ++ Medication.dosageUnit med)
           "scheduled"])%list.

(** The callback of [medications.forEach] in [generateSchedule]. *)
Definition pushMedication (zone : JsDate.Zone) (d : JsDate.t) (dayStr : Z)
  (med : Medication.t) (schedule : list ScheduleEvent)
  : option (list ScheduleEvent) :=
  let times := Js.num_or (Medication.timesPerDay med) 1 in
  let interval := PrimFloat.div (Js.of_Z 24) (Js.of_Z times) in
  option_map snd
    (for_loop (S (Z.to_nat times))
       (fun st => fst st <? times)
       (pushDose zone med d dayStr interval)
       (0, schedule)).

(** The body of the loop over the days.  The test [d <= end] has passed
    when it runs, so [d] has a time value. *)
Definition pushDay (zone : JsDate.Zone) (medications : list Medication.t)
  (st : JsDate.t * list ScheduleEvent) : option (JsDate.t * list ScheduleEvent) :=
  let '(d, schedule) := st in
  match d with
  | Some tv =>
      let dayStr := JsDate.isoDay tv in
      match forEach (pushMedication zone d dayStr) medications schedule with
      | Some schedule' => Some (JsDate.addDays zone (Some 1) d, schedule')
      | None => None
      end
  | None => None
  end.

(** Generate schedule for calendar view.  [days] is what [parseInt]
    returns for the query string, [Some None] when that is NaN;
    [startDate] is the Date the query string parses to, [None] when the
    string is absent or empty.  The fuel of the loop over the days is two
    more than the number of days asked for; when [end] is an Invalid Date
    the test fails at once. *)
Definition generateSchedule (zone : JsDate.Zone) (user : User.t)
  (days : option (option Z)) (startDate : option JsDate.t)
  (patientId : option string) (now : Z) (db : DB)
  : Response (list ScheduleEvent) :=
  let days := Js.val_or days (Some 7) in
  let targetUserId := Js.str_or patientId (User.id user) in
  if denied db user patientId then fail_with 403 "Access denied"
  else
    let start := Js.val_or startDate (JsDate.TimeClip now) in
    let end_ := JsDate.addDays zone days start in
    let medications := activeMedications db targetUserId in
    let fuel :=
      match end_ with
      | Some _ => S (S (Z.to_nat (Js.val_or days 0 + 1)))
      | None => 1%nat
      end in
    match for_loop fuel
            (fun st => JsDate.leb (fst st) end_)
            (pushDay zone medications)
            (start, []) with
    | Some (_, schedule) => mkResponse 200 true None (Some schedule)
    | None => fail_with 500 "loop did not finish"
    end.

(** Get a single medication by ID. *)
Definition getMedication (user : User.t) (id : string) (patientId : option string)
  (db : DB) : Response Medication.t :=
  let targetUserId := Js.str_or patientId (User.id user) in
  if denied db user patientId then fail_with 403 "Access denied"
  else
    match find (fun m => (Medication.id m =? id)%string
                         && (Medication.userId m =? targetUserId)%string)
               (medications db) with
    | None => fail_with 404 "Medication not found"
    | Some medication => mkResponse 200 true None (Some medication)
    end.

(** Create a new medication:
    [{ ...req.body, userId: req.user.id, remainingQuantity: ... }],
    stored under the key the body names or else the key [newId] the
    store assigns. *)
Definition createMedication (dflt : Medication.defaults) (user : User.t)
  (body : Medication.createBody) (newId : string) (db : DB)
  : Response Medication.t * DB :=
  let remainingQuantity :=
    match Medication.c_remainingQuantity body with
    | Some q => Some q
    | None => Medication.c_totalQuantity body
    end in
  let medication :=
    Medication.mk
      (Js.val_or (Medication.c_id body) newId)
      (User.id user)
      (Medication.c_name body)
      (Medication.c_dosage body)
      (Medication.c_dosageUnit body)
      (Js.val_or (Medication.c_timesPerDay body) (Medication.d_timesPerDay dflt))
      (Js.val_or (Medication.c_totalQuantity body) (Medication.d_totalQuantity dflt))
      (Js.val_or remainingQuantity (Medication.d_remainingQuantity dflt))
      (Js.val_or (Medication.c_isActive body) (Medication.d_isActive dflt)) in
  (mkResponse 201 true None (Some medication),
   set_medications (medications db ++ [medication])%list db).

(** Refill a medication; [quantity] is the integer [parseInt] reads from
    the body. *)
Definition refillMedication (user : User.t) (id : string) (quantity : Z) (db : DB)
  : Response Medication.t * DB :=
  match find (ownedBy id user) (medications db) with
  | None => (fail_with 404 "Medication not found", db)
  | Some medication =>
      let newQuantity :=
        Js.num_or (Medication.remainingQuantity medication) 0 + quantity in
      (mkResponse 200 true None
         (Some (Medication.set_remainingQuantity (Some newQuantity) medication)),
       set_medications
         (update_first (ownedBy id user)
            (Medication.set_remainingQuantity (Some newQuantity))
            (medications db)) db)
  end.

End MedicationController.

(** ** CaregiverController *)

Module CaregiverController.

(** The [where] clause shared by [acceptInvitation] and
    [declineInvitation]: a pending invitation addressed to the caller. *)
Definition pendingFor (id : string) (user : User.t) (r : CaregiverPatient.t) : bool :=
  (CaregiverPatient.id r =? id)%string
  && (CaregiverPatient.caregiverId r =? User.id user)%string
  && Bool.eqb (CaregiverPatient.isVerified r) false
  && Bool.eqb (CaregiverPatient.isActive r) true.

Definition acceptInvitation (user : User.t) (id : string) (db : DB)
  : Response CaregiverPatient.t * DB :=
  match find (pendingFor id user) (caregiverPatients db) with
  | None => (fail_with 404 "Invitation not found", db)
  | Some relationship =>
      (mkResponse 200 true (Some "Invitation accepted successfully")
         (Some (CaregiverPatient.set_isVerified true relationship)),
       set_caregiverPatients
         (update_first (pendingFor id user) (CaregiverPatient.set_isVerified true)
            (caregiverPatients db)) db)
  end.

Definition declineInvitation (user : User.t) (id : string) (db : DB)
  : Response CaregiverPatient.t * DB :=
  match find (pendingFor id user) (caregiverPatients db) with
  | None => (fail_with 404 "Invitation not found", db)
  | Some relationship =>
      (mkResponse 200 true (Some "Invitation declined successfully") None,
       set_caregiverPatients
         (update_first (pendingFor id user) (CaregiverPatient.set_isActive false)
            (caregiverPatients db)) db)
  end.

Record InviteBody := mkInviteBody {
  inv_email : string;
  inv_relationship : option string;
  inv_permissions : option (list (string * bool))
}.

(** [newId] and [newNotificationId] are the keys the store gives to the
    two rows it creates. *)
Definition inviteCaregiver (user : User.t) (body : InviteBody)
  (newId newNotificationId : string) (db : DB)
  : Response CaregiverPatient.t * DB :=
  match find (fun u => (User.email u =? inv_email body)%string) (users db) with
  | None => (fail_with 404 "User not found. Please ask them to register first.", db)
  | Some caregiverUser =>
      if (User.id caregiverUser =? User.id user)%string
      then (fail_with 400 "You cannot invite yourself.", db)
      else
        match find (fun r =>
                      (CaregiverPatient.caregiverId r =? User.id caregiverUser)%string
                      && (CaregiverPatient.patientId r =? User.id user)%string
                      && Bool.eqb (CaregiverPatient.isActive r) true)
                   (caregiverPatients db) with
        | Some existing => (fail_with 409 "Caregiver already connected.", db)
        | None =>
            let link :=
              CaregiverPatient.mk newId (User.id caregiverUser) (User.id user)
                (Js.str_or (inv_relationship body) "other")
                (Js.val_or (inv_permissions body) [("viewMedications", true)])
                false
                true in
            let notification :=
              Notification.mk newNotificationId (User.id user)
                (User.id caregiverUser) "caregiveralert"
                "New Caregiver Invitation"
                (User.firstName user ++ " " ++ User.lastName user
                 ++ " has invited you to be their caregiver.")
                false "high" in
            (mkResponse 201 true (Some "Invitation sent successfully") None,
             set_notifications (notifications db ++ [notification])%list
               (set_caregiverPatients (caregiverPatients db ++ [link])%list db))
        end
  end.

(** [id] is a relationship id or, failing that, a caregiver id. *)
Definition removeCaregiver (user : User.t) (id : string) (db : DB)
  : Response CaregiverPatient.t * DB :=
  let byPk := fun r => (CaregiverPatient.id r =? id)%string in
  let byCaregiver := fun r =>
    (CaregiverPatient.caregiverId r =? id)%string
    && (CaregiverPatient.patientId r =? User.id user)%string in
  match find byPk (caregiverPatients db) with
  | Some link =>
      (mkResponse 200 true (Some "Caregiver removed successfully") None,
       set_caregiverPatients
         (update_first byPk (CaregiverPatient.set_isActive false)
            (caregiverPatients db)) db)
  | None =>
      match find byCaregiver (caregiverPatients db) with
      | Some link =>
          (mkResponse 200 true (Some "Caregiver removed successfully") None,
           set_caregiverPatients
             (update_first byCaregiver (CaregiverPatient.set_isActive false)
                (caregiverPatients db)) db)
      | None => (fail_with 404 "Relationship not found", db)
      end
  end.

(** The requests that write the relationship table. *)
Inductive request :=
| Invite (user : User.t) (body : InviteBody) (newId newNotificationId : string)
| Accept (user : User.t) (id : string)
| Decline (user : User.t) (id : string)
| Remove (user : User.t) (id : string).

Definition handle (rq : request) (db : DB) : DB :=
  match rq with
  | Invite user body newId newNotificationId =>
      snd (inviteCaregiver user body newId newNotificationId db)
  | Accept user id => snd (acceptInvitation user id db)
  | Decline user id => snd (declineInvitation user id db)
  | Remove user id => snd (removeCaregiver user id db)
  end.

(** The store after a sequence of requests, served one after the other. *)
Definition serve (rqs : list request) (db : DB) : DB :=
  fold_left (fun db rq => handle rq db) rqs db.

(** [arr.map(f)] with a callback that may throw. *)
Fixpoint map_throwing {A B : Type} (f : A -> option B) (l : list A) : option (list B) :=
  match l with
  | [] => Some []
  | x :: rest =>
      match f x, map_throwing f rest with
      | Some y, Some ys => Some (y :: ys)
      | _, _ => None
      end
  end.

(** [include: [{ model: User, as: ... }]]: the user a relationship
    points to, [null] when there is none. *)
Definition userByPk (id : string) (db : DB) : option User.t :=
  find (fun u => (User.id u =? id)%string) (users db).

(** The attributes of an included user.  The columns [phone] and
    [profilePicture] of the users table are not carried by [User.t];
    the handlers take them as functions of the row. *)
Record UserView := mkUserView {
  uv_id : string;
  uv_firstName : string;
  uv_lastName : string;
  uv_email : string;
  uv_phone : option string
}.

Definition viewOf (phone : User.t -> option string) (u : User.t) : UserView :=
  mkUserView (User.id u) (User.firstName u) (User.lastName u) (User.email u) (phone u).

Record PendingInvitation := mkPendingInvitation {
  pi_relationship : CaregiverPatient.t;
  pi_patient : UserView;
  pi_patientName : string;
  pi_patientEmail : string
}.

(** The rows [getPendingInvitations] selects. *)
Definition pendingOf (user : User.t) (r : CaregiverPatient.t) : bool :=
  (CaregiverPatient.caregiverId r =? User.id user)%string
  && Bool.eqb (CaregiverPatient.isVerified r) false
  && Bool.eqb (CaregiverPatient.isActive r) true.

(** Get pending invitations for the logged-in caregiver.  [None]: the
    handler throws ([rel.patient] is [null]). *)
Definition getPendingInvitations (phone : User.t -> option string) (user : User.t)
  (db : DB) : option (Response (list PendingInvitation)) :=
  let relationships := filter (pendingOf user) (caregiverPatients db) in
  match map_throwing
          (fun rel =>
             match userByPk (CaregiverPatient.patientId rel) db with
             | Some patient =>
                 Some (mkPendingInvitation rel (viewOf phone patient)
                         (User.firstName patient ++ " " ++ User.lastName patient)
                         (User.email patient))
             | None => None
             end)
          relationships with
  | Some invitations => Some (mkResponse 200 true None (Some invitations))
  | None => None
  end.

Record PatientEntry := mkPatientEntry {
  pe_id : string;
  pe_patientId : string;
  pe_relationship : string;
  pe_status : string;
  pe_firstName : string;
  pe_lastName : string;
  pe_email : string;
  pe_phone : option string
}.

(** The rows [getPatients] selects. *)
Definition patientOf (user : User.t) (r : CaregiverPatient.t) : bool :=
  (CaregiverPatient.caregiverId r =? User.id user)%string
  && Bool.eqb (CaregiverPatient.isVerified r) true
  && Bool.eqb (CaregiverPatient.isActive r) true.

Definition getPatients (phone : User.t -> option string) (user : User.t) (db : DB)
  : option (Response (list PatientEntry)) :=
  let relationships := filter (patientOf user) (caregiverPatients db) in
  match map_throwing
          (fun rel =>
             match userByPk (CaregiverPatient.patientId rel) db with
             | Some patient =>
                 Some (mkPatientEntry
                         (CaregiverPatient.id rel)
                         (User.id patient)
                         (CaregiverPatient.relationship rel)
                         (if CaregiverPatient.isVerified rel then "Active" else "Pending")
                         (User.firstName patient)
                         (User.lastName patient)
                         (User.email patient)
                         (phone patient))
             | None => None
             end)
          relationships with
  | Some patients => Some (mkResponse 200 true None (Some patients))
  | None => None
  end.

Record CaregiverEntry := mkCaregiverEntry {
  ce_caregiver : UserView;
  ce_profilePicture : option string;
  ce_relationshipId : string;
  ce_relationshipType : string;
  ce_permissions : list (string * bool);
  ce_status : string
}.

(** Get all caregivers for the current patient. *)
Definition getCaregivers (phone profilePicture : User.t -> option string)
  (user : User.t) (db : DB) : option (Response (list CaregiverEntry)) :=
  let relationships :=
    filter (fun r => (CaregiverPatient.patientId r =? User.id user)%string
                     && Bool.eqb (CaregiverPatient.isActive r) true)
           (caregiverPatients db) in
  match map_throwing
          (fun rel =>
             match userByPk (CaregiverPatient.caregiverId rel) db with
             | Some caregiver =>
                 Some (mkCaregiverEntry
                         (viewOf phone caregiver)
                         (profilePicture caregiver)
                         (CaregiverPatient.id rel)
                         (CaregiverPatient.relationship rel)
                         (CaregiverPatient.permissions rel)
                         (if CaregiverPatient.isVerified rel then "Active" else "Pending"))
             | None => None
             end)
          relationships with
  | Some caregivers => Some (mkResponse 200 true None (Some caregivers))
  | None => None
  end.

End CaregiverController.

(** ** AdherenceController *)

Module AdherenceController.

(** Helper to validate if the requesting user has access to the target
    patient's data. *)
Definition _validateAccess (db : DB) (requestingUser : User.t) (targetUserId : string)
  : bool :=
  if (User.id requestingUser =? targetUserId)%string then true
  else if Js.includes ["admin"; "healthcareprovider"] (User.role requestingUser)
  then true
  else if (User.role requestingUser =? "caregiver")%string then
    let relation :=
      find (fun r =>
              (CaregiverPatient.caregiverId r =? User.id requestingUser)%string
              && (CaregiverPatient.patientId r =? targetUserId)%string
              && Bool.eqb (CaregiverPatient.isActive r) true
              && Bool.eqb (CaregiverPatient.isVerified r) true)
           (caregiverPatients db) in
    Js.notnot relation
  else false.

Record RecordBody := mkRecordBody {
  rb_medicationId : option string;
  rb_status : option string;
  rb_takenAt : option Z;
  rb_scheduledTime : option Z
}.

(** [Medication.findByPk(medicationId)]. *)
Definition medicationByPk (medicationId : option string) (db : DB)
  : option Medication.t :=
  match medicationId with
  | Some k => find (fun m => (Medication.id m =? k)%string) (medications db)
  | None => None
  end.

(** [newId] is the key the store gives to the created row; [now1] and
    [now2] are the two readings of the clock. *)
Definition recordAdherence (user : User.t) (body : RecordBody) (newId : string)
  (now1 now2 : Z) (db : DB) : Response Adherence.t * DB :=
  let intake :=
    Adherence.mk newId (User.id user) (rb_medicationId body)
      (Some (Js.str_or (rb_status body) "taken"))
      (Some (Js.val_or (rb_takenAt body) now1))
      (Some (Js.val_or (rb_scheduledTime body) now2)) in
  let db1 := set_adherences (adherences db ++ [intake])%list db in
  let db2 :=
    match rb_status body with
    | Some status =>
        if (status =? "taken")%string then
          match rb_medicationId body, medicationByPk (rb_medicationId body) db1 with
          | Some k, Some med =>
              set_medications
                (update_first (fun m => (Medication.id m =? k)%string)
                   Medication.decrement (medications db1)) db1
          | _, _ => db1
          end
        else db1
    | None => db1
    end in
  (mkResponse 201 true (Some "Adherence recorded successfully") (Some intake), db2).

Definition updateAdherenceRecord (user : User.t) (id : string)
  (updates : Adherence.patch) (db : DB) : Response Adherence.t * DB :=
  let byPk := fun r => (Adherence.id r =? id)%string in
  match find byPk (adherences db) with
  | None => (fail_with 404 "Adherence record not found", db)
  | Some record =>
      if negb (Adherence.userId record =? User.id user)%string
      then (fail_with 403 "Access denied", db)
      else
        (mkResponse 200 true (Some "Adherence record updated")
           (Some (Adherence.update updates record)),
         set_adherences
           (update_first byPk (Adherence.update updates) (adherences db)) db)
  end.

(** An element of [req.body.records]: any attribute may be present. *)
Record BulkItem := mkBulkItem {
  bi_id : option string;
  bi_userId : option string;
  bi_medicationId : option string;
  bi_status : option string;
  bi_takenAt : option Z;
  bi_scheduledTime : option Z
}.

(** [arr.map(f)] with the position of each element, which selects the
    clock reading and the store key of that element. *)
Fixpoint mapi {A B : Type} (f : nat -> A -> B) (n : nat) (l : list A) : list B :=
  match l with
  | [] => []
  | x :: rest => f n x :: mapi f (S n) rest
  end.

(** The callback of [records.map]:
    [{ ...record, userId: req.user.id, takenAt: record.takenAt || new Date() }],
    stored under the key the payload names or else the key the store
    assigns. *)
Definition toAdherence (user : User.t) (keys : nat -> string) (clock : nat -> Z)
  (n : nat) (record : BulkItem) : Adherence.t :=
  Adherence.mk (Js.val_or (bi_id record) (keys n))
    (User.id user)
    (bi_medicationId record)
    (bi_status record)
    (Some (Js.val_or (bi_takenAt record) (clock n)))
    (bi_scheduledTime record).

(** The primary key of the table: [Adherence.bulkCreate] is one INSERT,
    which the store rejects as a whole when a new row repeats the key of
    a stored row or of another new row. *)
Fixpoint distinct (l : list string) : bool :=
  match l with
  | [] => true
  | x :: rest => negb (existsb (fun y => (y =? x)%string) rest) && distinct rest
  end.

Definition insertable (stored new : list Adherence.t) : bool :=
  distinct (map Adherence.id new)
  && forallb (fun r =>
                negb (existsb (fun x => (Adherence.id x =? Adherence.id r)%string) stored))
       new.

(** [records] is [None] when the body carries no array; [err] is the
    message of the error the store raises when it rejects the INSERT (the
    [catch] block answers 500 with it). *)
Definition bulkRecordAdherence (err : string) (user : User.t)
  (records : option (list BulkItem)) (keys : nat -> string) (clock : nat -> Z)
  (db : DB) : Response (list Adherence.t) * DB :=
  match records with
  | None => (fail_with 400 "Records array is required", db)
  | Some [] => (fail_with 400 "Records array is required", db)
  | Some records =>
      let adherenceRecords := mapi (toAdherence user keys clock) 0 records in
      if insertable (adherences db) adherenceRecords then
        let created := adherenceRecords in
        (mkResponse 201 true
           (Some (Js.nat_to_string (List.length created) ++ " records created"))
           (Some created),
         set_adherences (adherences db ++ created)%list db)
      else (fail_with 500 err, db)
  end.

(** [include: [{ model: Medication, attributes: [...] }]]. *)
Record MedicationView := mkMedicationView {
  mv_id : string;
  mv_name : string;
  mv_dosage : string;
  mv_dosageUnit : string
}.

Definition includeMedication (r : Adherence.t) (db : DB) : option MedicationView :=
  option_map
    (fun m => mkMedicationView (Medication.id m) (Medication.name m)
                (Medication.dosage m) (Medication.dosageUnit m))
    (medicationByPk (Adherence.medicationId r) db).

(** Get single adherence record: the record is found first, then access
    to its owner is validated. *)
Definition getAdherenceRecord (user : User.t) (id : string) (db : DB)
  : Response (Adherence.t * option MedicationView) :=
  match find (fun r => (Adherence.id r =? id)%string) (adherences db) with
  | None => fail_with 404 "Adherence record not found"
  | Some record =>
      if negb (_validateAccess db user (Adherence.userId record))
      then fail_with 403 "Access denied."
      else mkResponse 200 true None (Some (record, includeMedication record db))
  end.

(** [takenAt: { [Op.between]: [lo, hi] }]: both ends included; a null
    column satisfies no comparison. *)
Definition between (lo hi : Z) (t : option Z) : bool :=
  match t with
  | Some v => (lo <=? v) && (v <=? hi)
  | None => false
  end.

(** [r.status === s]. *)
Definition hasStatus (s : string) (r : Adherence.t) : bool :=
  match Adherence.status r with
  | Some v => (v =? s)%string
  | None => false
  end.

Record Stats := mkStats {
  st_rate : Z;
  st_total : nat;
  st_taken : nat;
  st_missed : nat;
  st_skipped : nat;
  st_period : string
}.

(** [total > 0 ? Math.round((taken / total) * 100) : 0].  The rounded
    quotient is computed on doubles; it enters as the function
    [roundPercent] of the two counts. *)
Definition rateOf (roundPercent : nat -> nat -> Z) (taken total : nat) : Z :=
  if (0 <? total)%nat then roundPercent taken total else 0.

(** Get adherence statistics.  [startDate] and [endDate] are the parsed
    query strings, [None] when absent or empty. *)
Definition getAdherenceStats (roundPercent : nat -> nat -> Z) (user : User.t)
  (startDate endDate : option Z) (period patientId : option string) (now : Z)
  (db : DB) : Response Stats :=
  let period := Js.val_or period "month" in
  let targetUserId := Js.str_or patientId (User.id user) in
  if negb (_validateAccess db user targetUserId)
  then fail_with 403 "Access denied to patient data."
  else
    let window :=
      match startDate, endDate with
      | Some lo, Some hi => (lo, hi)
      | _, _ => (now - 30 * 24 * 60 * 60 * 1000, now)
      end in
    let adherenceRecords :=
      filter (fun r => (Adherence.userId r =? targetUserId)%string
                       && between (fst window) (snd window) (Adherence.takenAt r))
             (adherences db) in
    let total := List.length adherenceRecords in
    let taken := List.length (filter (hasStatus "taken") adherenceRecords) in
    let missed := List.length (filter (hasStatus "missed") adherenceRecords) in
    let skipped := List.length (filter (hasStatus "skipped") adherenceRecords) in
    let rate := rateOf roundPercent taken total in
    mkResponse 200 true None (Some (mkStats rate total taken missed skipped period)).

(** A day of the trend: the object the [reduce] callback keeps under
    the key [date]. *)
Record Bucket := mkBucket {
  b_date : Z;
  b_taken : nat;
  b_missed : nat;
  b_total : nat
}.

(** The accumulator of [reduce] is an object keyed by date; it is kept
    as the list of its values in insertion order, which is the order
    [Object.values] returns them in.  [touch date f acc] applies [f] to
    the entry under [date], created empty when it is missing. *)
Fixpoint touch (date : Z) (f : Bucket -> Bucket) (acc : list Bucket) : list Bucket :=
  match acc with
  | [] => [f (mkBucket date 0 0 0)]
  | b :: rest =>
      if b_date b =? date then f b :: rest else b :: touch date f rest
  end.

(** [new Date(record.takenAt).toISOString().split('T')[0]], as a day
    number; [new Date(null)] is the epoch. *)
Definition dateOf (record : Adherence.t) : Z :=
  JsDate.isoDay (Js.to_number (Adherence.takenAt record)).

(** The callback of [records.reduce]. *)
Definition countRecord (acc : list Bucket) (record : Adherence.t) : list Bucket :=
  touch (dateOf record)
    (fun b =>
       mkBucket (b_date b)
         (if hasStatus "taken" record then S (b_taken b) else b_taken b)
         (if hasStatus "missed" record then S (b_missed b) else b_missed b)
         (S (b_total b)))
    acc.

Record Trend := mkTrend {
  t_date : Z;
  t_taken : nat;
  t_missed : nat;
  t_total : nat;
  t_rate : Z
}.

(** [takenAt: { [Op.gte]: startDate }]. *)
Definition since (startDate : Z) (t : option Z) : bool :=
  match t with
  | Some v => startDate <=? v
  | None => false
  end.

(** Get adherence trends over time.  [days] is what [parseInt] returns
    for the query string, [Some None] when that is NaN.
    [order: [['takenAt', 'ASC']]] keeps records with the same takenAt in
    storage order.  When the start of the window is an Invalid Date the
    query hands it to the store, and what the store answers is not in the
    sources: the model has no answer ([None]). *)
Definition getAdherenceTrends (roundPercent : nat -> nat -> Z) (zone : JsDate.Zone)
  (user : User.t) (days : option (option Z)) (patientId : option string)
  (now : Z) (db : DB) : option (Response (list Trend)) :=
  let days := Js.val_or days (Some 30) in
  let targetUserId := Js.str_or patientId (User.id user) in
  if negb (_validateAccess db user targetUserId)
  then Some (fail_with 403 "Access denied.")
  else
    match JsDate.addDays zone (option_map Z.opp days) (JsDate.TimeClip now) with
    | None => None
    | Some startDate =>
        let records :=
          sort_by (fun r => Js.to_number (Adherence.takenAt r))
            (filter (fun r => (Adherence.userId r =? targetUserId)%string
                              && since startDate (Adherence.takenAt r))
                    (adherences db)) in
        let trends := fold_left countRecord records [] in
        let trendsArray :=
          map (fun day =>
                 mkTrend (b_date day) (b_taken day) (b_missed day) (b_total day)
                   (rateOf roundPercent (b_taken day) (b_total day)))
              trends in
        Some (mkResponse 200 true None (Some trendsArray))
    end.

Record Pagination := mkPagination {
  currentPage : Z;
  totalPages : Z;
  totalItems : nat;
  itemsPerPage : Z
}.

(** The [where] clause of [getAdherenceRecords]. *)
Definition recordsClause (targetUserId : string) (startDate endDate : option Z)
  (medicationId : option string) (r : Adherence.t) : bool :=
  (Adherence.userId r =? targetUserId)%string
  && match startDate, endDate with
     | Some lo, Some hi => between lo hi (Adherence.takenAt r)
     | _, _ => true
     end
  && if Js.truthy medicationId then
       match Adherence.medicationId r with
       | Some k => (k =? Js.str_or medicationId EmptyString)%string
       | None => false
       end
     else true.

(** Get adherence records with optional filtering and patient access.
    [order] is the store's [ORDER BY takenAt DESC].  [page] and [limit]
    are the query strings; the code reads each both with [parseInt] (the
    LIMIT, the page and the page size it reports) and by numeric coercion
    (the offset and the number of pages), see [Js.queryInteger].  The model
    answers when both denote integers from 1 on and the product is below
    2^53, so that the offset is that integer as well; for any other request
    that passes the access check it has no answer ([None]: what the store
    does with such a LIMIT or OFFSET is not in the sources).  On counts and
    limits below 2^53 the double [count / limit] is an integer only when
    the exact quotient is one, so [Math.ceil] of it is the ceiling of the
    exact quotient. *)
Definition getAdherenceRecords (order : list Adherence.t -> list Adherence.t)
  (user : User.t) (page limit : option string) (startDate endDate : option Z)
  (medicationId patientId : option string) (db : DB)
  : option (Response (list (Adherence.t * option MedicationView) * Pagination)) :=
  let targetUserId := Js.str_or patientId (User.id user) in
  if negb (_validateAccess db user targetUserId)
  then Some (fail_with 403 "Access denied to patient data.")
  else
    match Js.queryInteger page 1, Js.queryInteger limit 20 with
    | Some page, Some limit =>
        if (1 <=? page) && (1 <=? limit) && (page * limit <? 2 ^ 53) then
          let offset := (page - 1) * limit in
          let matching :=
            filter (recordsClause targetUserId startDate endDate medicationId)
              (adherences db) in
          let count := List.length matching in
          let rows :=
            firstn (Z.to_nat limit) (skipn (Z.to_nat offset) (order matching)) in
          Some (mkResponse 200 true None
                  (Some (map (fun r => (r, includeMedication r db)) rows,
                         mkPagination page
                           (Qceiling (inject_Z (Z.of_nat count) / inject_Z limit))
                           count limit)))
        else None
    | _, _ => None
    end.

Record MedicationAdherence := mkMedicationAdherence {
  ma_medicationId : string;
  ma_records : list (Adherence.t * option MedicationView);
  ma_total : nat;
  ma_taken : nat;
  ma_rate : Z
}.

(** Get adherence stats specific to one medication. *)
Definition getMedicationAdherence (roundPercent : nat -> nat -> Z)
  (order : list Adherence.t -> list Adherence.t) (user : User.t)
  (medicationId : string) (startDate endDate : option Z)
  (patientId : option string) (db : DB) : Response MedicationAdherence :=
  let targetUserId := Js.str_or patientId (User.id user) in
  if negb (_validateAccess db user targetUserId)
  then fail_with 403 "Access denied."
  else
    let records :=
      order
        (filter (fun r =>
                   (Adherence.userId r =? targetUserId)%string
                   && match Adherence.medicationId r with
                      | Some k => (k =? medicationId)%string
                      | None => false
                      end
                   && match startDate, endDate with
                      | Some lo, Some hi => between lo hi (Adherence.takenAt r)
                      | _, _ => true
                      end)
           (adherences db)) in
    let total := List.length records in
    let taken := List.length (filter (hasStatus "taken") records) in
    let rate := rateOf roundPercent taken total in
    mkResponse 200 true None
      (Some (mkMedicationAdherence medicationId
               (map (fun r => (r, includeMedication r db)) records)
               total taken rate)).

End AdherenceController.

(** ** The specification's reading of the operations *)

Module Spec.

(** An active and verified relationship row from caregiver [R] to
    patient [T]. *)
Definition activeVerifiedRow (db : DB) (R : User.t) (T : string) : Prop :=
  exists row,
    In row (caregiverPatients db)
    /\ CaregiverPatient.caregiverId row = User.id R
    /\ CaregiverPatient.patientId row = T
    /\ CaregiverPatient.isActive row = true
    /\ CaregiverPatient.isVerified row = true.

(** The truth table of section 8: self, privileged role, or a
    relationship row. *)
Definition authorize (db : DB) (R : User.t) (T : string) : Prop :=
  User.id R = T
  \/ User.role R = "admin"
  \/ User.role R = "healthcareprovider"
  \/ activeVerifiedRow db R T.

(** The rules of section 4.1: the relationship row counts for a
    requester whose role is caregiver. *)
Definition authorizeByRole (db : DB) (R : User.t) (T : string) : Prop :=
  User.id R = T
  \/ User.role R = "admin"
  \/ User.role R = "healthcareprovider"
  \/ (User.role R = "caregiver" /\ activeVerifiedRow db R T).

(** Section 4.3: the stock of a medication after one dose is taken,
    decremented by one and clamped at zero. *)
Definition stockAfterTaken (R : Z) : Z := Z.max (R - 1) 0.




(** Section 4.5: the single threshold rule. *)
Definition needsRefill (med : Medication.t) : bool :=
  Js.to_number (Medication.remainingQuantity med)
  <=? Z.max (Js.to_number (Medication.timesPerDay med)) 1 * 7.

(** Section 4.2.  The integers [0, n). *)
Definition zrange (n : Z) : list Z := map Z.of_nat (seq 0 (Z.to_nat n)).

(** timesPerDay, 1 when unset or zero. *)
Definition timesPerDay (m : Medication.t) : Z :=
  match Medication.timesPerDay m with
  | None => 1
  | Some k => if k =? 0 then 1 else k
  end.

(** The whole hours of dayStartHour + i * (24 / k) with dayStartHour = 8;
    minutes and seconds are zeroed. *)
Definition hourOf (k i : Z) : Z := 8 + (24 * i) / k.

(** The instant at which the local clock shows calendar day [day],
    [hour] o'clock sharp. *)
Definition atLocal (tz day hour : Z) : Z :=
  day * JsDate.msPerDay + hour * JsDate.msPerHour - tz.

(** The local date of [d] at hour [hourOf k i]; an hour of 24 or more
    advances the calendar date (wrap, not clamp). *)
Definition scheduledTime (tz d k i : Z) : Z :=
  let h := hourOf k i in
  atLocal tz (JsDate.localDay tz d + h / 24) (h mod 24).

Definition entry (tz : Z) (m : Medication.t) (d i : Z)
  : MedicationController.ScheduleEvent :=
  let t := scheduledTime tz d (timesPerDay m) i in
  MedicationController.mkScheduleEvent
    (Medication.id m, JsDate.isoDay d, i)
    ("Take " ++ Medication.name m)
    (Some t)
    (Some (t + 30 * 60 * 1000))
    (Medication.id m)
    (Medication.dosage m ++ " " ++ Medication.dosageUnit m)
    "scheduled".

(** The date [j] days after [start], at the same time of day. *)
Definition dayAfter (j start : Z) : Z := start + j * JsDate.msPerDay.

(** One entry per date, medication and occurrence, in that order; the
    dates run from [start] to [start] plus [days] days, both included. *)
Definition generate (tz : Z) (meds : list Medication.t) (start days : Z)
  : list MedicationController.ScheduleEvent :=
  flat_map
    (fun j =>
       flat_map
         (fun m => map (entry tz m (dayAfter j start)) (zrange (timesPerDay m)))
         meds)
    (zrange (days + 1)).

End Spec.

(** ** Sample data *)

Module Sample.

Definition patient_p1 : User.t :=
  User.mk "p1" "patient" "p1@example.org" "Pat" "One".

Definition patient_u1 : User.t :=
  User.mk "u1" "patient" "u1@example.org" "Una" "One".

Definition caregiver_c1 : User.t :=
  User.mk "c1" "caregiver" "c1@example.org" "Cara" "Giver".

Definition admin_a1 : User.t :=
  User.mk "a1" "admin" "a1@example.org" "Ada" "Min".

(** A relationship row held by a user whose role is patient. *)
Definition db_patient_as_caregiver : DB :=
  mkDB []
    [CaregiverPatient.mk "r1" "u1" "p1" "family" [("viewMedications", true)] true true]
    [] [] [].

Definition med (stock : Z) (times : Z) : Medication.t :=
  Medication.mk "m1" "p1" "Aspirin" "100" "mg" (Some times) (Some 30) (Some stock) true.

(** Patient p1 owns medication m1; caregiver c1 holds a verified
    relationship to p1; one intake record a1 of p1 exists. *)
Definition db_stock (stock : Z) : DB :=
  mkDB [patient_p1; caregiver_c1; admin_a1]
    [CaregiverPatient.mk "r1" "c1" "p1" "family" [("viewMedications", true)] true true]
    [med stock 2]
    [Adherence.mk "a1" "p1" (Some "m1") (Some "missed") (Some 1000) (Some 1000)]
    [].

Definition taken_m1 : AdherenceController.RecordBody :=
  AdherenceController.mkRecordBody (Some "m1") (Some "taken") None None.

Definition unspecified_m1 : AdherenceController.RecordBody :=
  AdherenceController.mkRecordBody (Some "m1") None None None.

Definition bulk_taken_m1 : AdherenceController.BulkItem :=
  AdherenceController.mkBulkItem None (Some "someone-else") (Some "m1")
    (Some "taken") None None.

(** Caregiver c1 has a pending invitation r1 from p1; the relationship
    r0 between c2 and p1 was closed; c3 is registered and not connected. *)
Definition caregiver_c3 : User.t :=
  User.mk "c3" "caregiver" "c3@example.org" "Cleo" "Three".

Definition pending_r1 : CaregiverPatient.t :=
  CaregiverPatient.mk "r1" "c1" "p1" "family" [("viewMedications", true)] false true.

Definition closed_r0 : CaregiverPatient.t :=
  CaregiverPatient.mk "r0" "c2" "p1" "friend" [("viewMedications", true)] true false.

Definition db_invited : DB :=
  mkDB [patient_p1; caregiver_c1; caregiver_c3] [closed_r0; pending_r1] [] [] [].

Definition invite_c3 : CaregiverController.InviteBody :=
  CaregiverController.mkInviteBody "c3@example.org" None None.

Definition keys (n : nat) : string := "k".

(** Medication m1 of p1 is the first row under its key; m2 belongs to
    someone else. *)
Definition db_two_meds (stock : Z) : DB :=
  mkDB [patient_p1; caregiver_c1; admin_a1]
    [CaregiverPatient.mk "r1" "c1" "p1" "family" [("viewMedications", true)] true true]
    [med stock 2;
     Medication.mk "m2" "u1" "Ibuprofen" "200" "mg" (Some 3) (Some 20) None true]
    [] [].

Definition column_defaults : Medication.defaults :=
  Medication.mkDefaults (Some 1) None None true.

Definition create_m9 : Medication.createBody :=
  Medication.mkCreateBody None (Some "someone-else") "Zinc" "10" "mg"
    (Some (Some 2)) (Some (Some 60)) None None.

Definition no_phone (u : User.t) : option string := None.
Definition clock (n : nat) : Z := 5000.

(** A zone with daylight saving: UTC until 2024-03-31T01:00Z, one hour
    ahead from then on.  The local hour from 01:00 to 02:00 of that day
    is skipped and read with the offset before the change. *)
Definition springForward : Z := 1711846800000.

Definition zone_dst : JsDate.Zone :=
  JsDate.mkZone
    (fun tv => if tv <? springForward then 0 else 3600000)
    (fun l => if l <? springForward + 3600000 then 0 else 3600000).

(** Medication m1 taken 692 times a day. *)
Definition db_692 : DB := mkDB [patient_p1] [] [med 5 692] [] [].

End Sample.

(** ** Notions used in the statements *)

(** Ascending order of an integer key. *)
Definition key_le {A : Type} (key : A -> Z) (a b : A) : Prop := key a <= key b.

(** The dose [getUpcomingDoses] estimates for a medication. *)
Definition upcomingOf (now : Z) (med : Medication.t) : MedicationController.UpcomingDose :=
  MedicationController.mkUpcomingDose (Medication.id med) (Medication.name med)
    (Medication.dosage med ++ " " ++ Medication.dosageUnit med)
    (Js.to_integer
       (inject_Z now
        + (24 / inject_Z (Js.num_or (Medication.timesPerDay med) 1))
          * inject_Z (60 * 60 * 1000))%Q)
    (Js.to_number (Medication.remainingQuantity med) <? 10).

(** A day of the trend has at least one record, and its taken and
    missed records are among them. *)
Definition bucket_ok (b : AdherenceController.Bucket) : Prop :=
  (1 <= AdherenceController.b_total b)%nat
  /\ (AdherenceController.b_taken b + AdherenceController.b_missed b
      <= AdherenceController.b_total b)%nat.

(** The (caregiver, patient) pairs of the active relationship rows. *)
Definition activePairs (rows : list CaregiverPatient.t) : list (string * string) :=
  map (fun r => (CaregiverPatient.caregiverId r, CaregiverPatient.patientId r))
    (filter CaregiverPatient.isActive rows).

Definition pairOf (r : CaregiverPatient.t) : string * string :=
  (CaregiverPatient.caregiverId r, CaregiverPatient.patientId r).

(** The hour of occurrence [i] of a medication taken [times] times a
    day, as the generator computes it: [8 + (i * (24 / times))] on
    doubles. *)
Definition hourOfDose (times i : Z) : PrimFloat.float :=
  PrimFloat.add (Js.of_Z 8)
    (PrimFloat.mul (Js.of_Z i) (PrimFloat.div (Js.of_Z 24) (Js.of_Z times))).

(** The entry the generator pushes for medication [m] and occurrence [i]
    while its day variable holds the time value [tv]. *)
Definition entryOf (zone : JsDate.Zone) (m : Medication.t) (tv i : Z)
  : MedicationController.ScheduleEvent :=
  let doseTime :=
    JsDate.setHours zone
      (Js.truncate (hourOfDose (Js.num_or (Medication.timesPerDay m) 1) i))
      (Some tv) in
  MedicationController.mkScheduleEvent
    (Medication.id m, JsDate.isoDay tv, i)
    ("Take " ++ Medication.name m)
    doseTime
    (JsDate.plus doseTime (30 * 60000))
    (Medication.id m)
    (Medication.dosage m ++ " " ++ Medication.dosageUnit m)
    "scheduled".

(** A zone that keeps the offset [tz] at all times. *)
Definition fixedZone (zone : JsDate.Zone) (tz : Z) : Prop :=
  forall x, JsDate.offsetAt zone x = tz /\ JsDate.offsetOfLocal zone x = tz.

(** The dates from [start] over [days] days, with two days to spare on
    either side, are within the range of time values. *)
Definition inRange (start days : Z) : Prop :=
  Z.abs start + (Z.abs days + 2) * JsDate.msPerDay <= JsDate.maxTime.

(** [p] holds of the [n] integers from [i] on. *)
Fixpoint all_from (n : nat) (i : Z) (p : Z -> bool) : bool :=
  match n with
  | O => true
  | S n' => p i && all_from n' (i + 1) p
  end.

(** For every occurrence of a medication taken [k] times a day the
    integer part of the hour computed on doubles is the integer part of
    the exact hour. *)
Definition hours_agree (k : Z) : bool :=
  all_from (Z.to_nat k) 0
    (fun i =>
       match Js.truncate (hourOfDose k i) with
       | Some h => h =? Spec.hourOf k i
       | None => false
       end).

(** The keys under which the store is asked to insert a batch: the key a
    record of the payload names, or else the key the store assigns. *)
Definition bulkKeys (keys : nat -> string) (rs : list AdherenceController.BulkItem)
  : list string :=
  AdherenceController.mapi
    (fun k item => Js.val_or (AdherenceController.bi_id item) (keys k)) 0 rs.

(** The new keys are pairwise distinct and none is the key of a stored
    record. *)
Definition freshKeys (stored : list Adherence.t) (ks : list string) : Prop :=
  NoDup ks /\ Forall (fun k => ~ In k (map Adherence.id stored)) ks.

(** An attribute after an update: the value the body supplies, or else
    the value it had. *)
Definition supplied {A : Type} (given : option A) (old new : A) : Prop :=
  match given with
  | Some v => new = v
  | None => new = old
  end.

Definition suppliedOpt {A : Type} (given : option A) (old new : option A) : Prop :=
  match given with
  | Some v => new = Some v
  | None => new = old
  end.

(** * Properties *)

(** ** Lists and lookups *)

Lemma notnot_find {A : Type} (p : A -> bool) (l : list A) :
  Js.notnot (find p l) = true <-> exists x, In x l /\ p x = true.
Proof.
  split.
  - destruct (find p l) as [x|] eqn:E; simpl; [|discriminate].
    intros _. exists x. now apply find_some in E.
  - intros [x [Hin Hp]].
    destruct (find p l) as [y|] eqn:E; simpl; [reflexivity|].
    apply (find_none _ _ E) in Hin. congruence.
Qed.

Lemma includes_two (a b x : string) :
  Js.includes [a; b] x = true <-> x = a \/ x = b.
Proof.
  unfold Js.includes. simpl.
  rewrite !orb_true_iff, !String.eqb_eq. intuition congruence.
Qed.

Lemma relation_clause (db : DB) (R : User.t) (T : string) :
  (exists r, In r (caregiverPatients db)
     /\ (CaregiverPatient.caregiverId r =? User.id R)%string
        && (CaregiverPatient.patientId r =? T)%string
        && Bool.eqb (CaregiverPatient.isActive r) true
        && Bool.eqb (CaregiverPatient.isVerified r) true = true)
  <-> Spec.activeVerifiedRow db R T.
Proof.
  unfold Spec.activeVerifiedRow.
  split; intros [r [Hin H]]; exists r; split; try assumption.
  - rewrite !andb_true_iff, !String.eqb_eq, !Bool.eqb_true_iff in H. tauto.
  - rewrite !andb_true_iff, !String.eqb_eq, !Bool.eqb_true_iff. tauto.
Qed.

Lemma adherence_validateAccess_iff (db : DB) (R : User.t) (T : string) :
  AdherenceController._validateAccess db R T = true <-> Spec.authorizeByRole db R T.
Proof.
  unfold AdherenceController._validateAccess, Spec.authorizeByRole.
  destruct (String.eqb_spec (User.id R) T) as [Hid|Hid].
  { split; auto. }
  destruct (Js.includes ["admin"; "healthcareprovider"] (User.role R)) eqn:Hinc.
  { apply includes_two in Hinc. split; auto. intros _. tauto. }
  assert (Hrole : ~ (User.role R = "admin" \/ User.role R = "healthcareprovider")).
  { intro H. apply includes_two in H. congruence. }
  destruct (String.eqb_spec (User.role R) "caregiver") as [Hcg|Hcg].
  - rewrite notnot_find, relation_clause. tauto.
  - split; [discriminate|]. tauto.
Qed.

Lemma bool_table (b : bool) (P : Prop) :
  (b = true <-> P) -> (b = true <-> P) /\ (b = false <-> ~ P).
Proof.
  intros H. split; [exact H|].
  destruct b; split.
  - discriminate.
  - intros Hn. exfalso. apply Hn, H. reflexivity.
  - intros _ HP. apply H in HP. discriminate.
  - reflexivity.
Qed.

Lemma validateAccess_same (db : DB) (R : User.t) (T : string) :
  MedicationController._validateAccess db R T
  = AdherenceController._validateAccess db R T.
Proof. reflexivity. Qed.

(** ** C1: the access gate *)

(** C1, the claim as written fails: a requester whose role is patient and
    who holds an active, verified relationship row to the target is
    denied, although the claimed right-hand side holds. *)
Lemma validateAccess_ignores_row_of_non_caregiver :
  AdherenceController._validateAccess
    Sample.db_patient_as_caregiver Sample.patient_u1 "p1" = false
  /\ MedicationController._validateAccess
       Sample.db_patient_as_caregiver Sample.patient_u1 "p1" = false
  /\ Spec.authorize Sample.db_patient_as_caregiver Sample.patient_u1 "p1".
Proof.
  split; [reflexivity|]. split; [reflexivity|].
  unfold Spec.authorize, Spec.activeVerifiedRow.
  right. right. right.
  eexists. split; [left; reflexivity|].
  simpl. auto.
Qed.

(** C1, amended: for every requester R and target T both copies of
    [_validateAccess] return true if and only if R.id = T, or R.role is
    admin or healthcareprovider, or R.role is caregiver and an active,
    verified CaregiverPatient row from R.id to T exists; in every other
    case they return false. *)
Theorem validateAccess_truth_table (db : DB) (R : User.t) (T : string) :
  (AdherenceController._validateAccess db R T = true <-> Spec.authorizeByRole db R T)
  /\ (AdherenceController._validateAccess db R T = false <-> ~ Spec.authorizeByRole db R T)
  /\ (MedicationController._validateAccess db R T = true <-> Spec.authorizeByRole db R T)
  /\ (MedicationController._validateAccess db R T = false <-> ~ Spec.authorizeByRole db R T).
Proof.
  pose proof (adherence_validateAccess_iff db R T) as HA.
  pose proof (adherence_validateAccess_iff db R T) as HM.
  rewrite <- validateAccess_same in HM.
  destruct (bool_table _ _ HA) as [A1 A2].
  destruct (bool_table _ _ HM) as [M1 M2].
  repeat split; tauto.
Qed.

(** ** Rewriting the row a lookup found *)

Section UpdateFirst.
Context {A : Type} (p : A -> bool) (f : A -> A).

Lemma update_first_not_found (l : list A) :
  find p l = None -> update_first p f l = l.
Proof.
  induction l as [|x l IH]; simpl; [reflexivity|].
  destruct (p x); [discriminate|].
  intros H. now rewrite IH.
Qed.

Lemma find_update_first (l : list A) :
  (forall x, p (f x) = p x) ->
  find p (update_first p f l) = option_map f (find p l).
Proof.
  intros Hp. induction l as [|x l IH]; simpl; [reflexivity|].
  destruct (p x) eqn:E; simpl.
  - now rewrite Hp, E.
  - now rewrite E.
Qed.

Lemma update_first_keeps (l : list A) (x : A) :
  In x l -> p x = false -> In x (update_first p f l).
Proof.
  induction l as [|y l IH]; simpl; [tauto|].
  intros [->|Hin] Hx.
  - rewrite Hx. now left.
  - destruct (p y); [now right|]. right. now apply IH.
Qed.

Lemma update_first_fixed (l : list A) (x : A) :
  In x l -> f x = x -> In x (update_first p f l).
Proof.
  induction l as [|y l IH]; simpl; [tauto|].
  intros Hin Hx.
  destruct (p y) eqn:E.
  - destruct Hin as [->|Hin]; [left; exact Hx | now right].
  - destruct Hin as [->|Hin]; [now left | right; now apply IH].
Qed.

Lemma update_first_found (l : list A) (r : A) :
  find p l = Some r -> In (f r) (update_first p f l).
Proof.
  induction l as [|y l IH]; simpl; [discriminate|].
  destruct (p y) eqn:E.
  - intros H. injection H as <-. now left.
  - intros H. right. now apply IH.
Qed.

Lemma find_none_all (l : list A) :
  (forall x, In x l -> p x = false) -> find p l = None.
Proof.
  induction l as [|y l IH]; simpl; [reflexivity|].
  intros H. rewrite (H y (or_introl eq_refl)). apply IH.
  intros x Hx. apply H. now right.
Qed.

(** With a primary key, the rewritten row is the only row under its key. *)
Lemma update_first_same_key {K : Type} (key : A -> K) (l : list A) (r : A) :
  NoDup (map key l) ->
  (forall x, key (f x) = key x) ->
  find p l = Some r ->
  forall y, In y (update_first p f l) -> key y = key r -> y = f r.
Proof.
  intros Hnd Hkey. induction l as [|x l IH]; simpl; [discriminate|].
  inversion Hnd as [|? ? Hnot Hnd']; subst.
  destruct (p x) eqn:E.
  - intros H. injection H as <-. intros y [<-|Hin] Hy; [reflexivity|].
    exfalso. apply Hnot. rewrite <- Hy. now apply in_map.
  - intros H y [<-|Hin] Hy.
    + exfalso. apply Hnot. rewrite Hy. apply in_map.
      apply find_some in H. tauto.
    + now apply IH.
Qed.

Lemma update_first_length (l : list A) :
  List.length (update_first p f l) = List.length l.
Proof.
  induction l as [|x l IH]; simpl; [reflexivity|].
  destruct (p x); simpl; congruence.
Qed.

End UpdateFirst.

(** ** The adherence ledger *)

Lemma medication_decrement_id (m : Medication.t) (k : string) :
  (Medication.id (Medication.decrement m) =? k)%string = (Medication.id m =? k)%string.
Proof. reflexivity. Qed.

(** The record [recordAdherence] creates, whatever the request holds. *)
Lemma recordAdherence_creates (user : User.t) (body : AdherenceController.RecordBody)
  (newId : string) (now1 now2 : Z) (db : DB) :
  adherences (snd (AdherenceController.recordAdherence user body newId now1 now2 db))
  = (adherences db ++
     [Adherence.mk newId (User.id user) (AdherenceController.rb_medicationId body)
        (Some (Js.str_or (AdherenceController.rb_status body) "taken"))
        (Some (Js.val_or (AdherenceController.rb_takenAt body) now1))
        (Some (Js.val_or (AdherenceController.rb_scheduledTime body) now2))])%list.
Proof.
  unfold AdherenceController.recordAdherence. simpl.
  destruct (AdherenceController.rb_status body) as [s|]; [|reflexivity].
  destruct (s =? "taken")%string; [|reflexivity].
  destruct (AdherenceController.rb_medicationId body) as [k|]; [|reflexivity].
  destruct (AdherenceController.medicationByPk (Some k) _); reflexivity.
Qed.

(** The stock after a request whose status is literally "taken". *)
Lemma recordAdherence_taken_stock (user : User.t) (body : AdherenceController.RecordBody)
  (newId : string) (now1 now2 : Z) (db : DB) (k : string) :
  AdherenceController.rb_status body = Some "taken" ->
  AdherenceController.rb_medicationId body = Some k ->
  medications (snd (AdherenceController.recordAdherence user body newId now1 now2 db))
  = update_first (fun m => (Medication.id m =? k)%string) Medication.decrement
      (medications db).
Proof.
  intros Hs Hk. unfold AdherenceController.recordAdherence. rewrite Hs, Hk. simpl.
  destruct (find _ (medications db)) eqn:E; simpl; [reflexivity|].
  symmetry. now apply update_first_not_found.
Qed.

(** ** C2: the stock after a dose is taken *)

(** C2, the claim as written fails: a dose taken from a medication whose
    stock is 0 leaves the stock at -1, where the claim promises
    max(0 - 1, 0) = 0. *)
Lemma recordAdherence_stock_goes_negative :
  option_map Medication.remainingQuantity
    (AdherenceController.medicationByPk (Some "m1")
       (snd (AdherenceController.recordAdherence Sample.patient_p1 Sample.taken_m1
               "a2" 7 8 (Sample.db_stock 0))))
  = Some (Some (-1))
  /\ Spec.stockAfterTaken 0 = 0.
Proof. split; reflexivity. Qed.

(** C2, amended: for every recordIntake call whose supplied status is
    'taken' on a stored medication whose remainingQuantity is R, the
    medication's remainingQuantity afterwards equals R - 1; this is
    max(R - 1, 0) exactly when R >= 1, and it is negative when R <= 0:
    the decrement is not clamped. *)
Theorem recordAdherence_taken_decrements (user : User.t)
  (body : AdherenceController.RecordBody) (newId : string) (now1 now2 : Z)
  (db : DB) (k : string) (med : Medication.t) (R : Z) :
  AdherenceController.rb_status body = Some "taken" ->
  AdherenceController.rb_medicationId body = Some k ->
  AdherenceController.medicationByPk (Some k) db = Some med ->
  Medication.remainingQuantity med = Some R ->
  AdherenceController.medicationByPk (Some k)
    (snd (AdherenceController.recordAdherence user body newId now1 now2 db))
  = Some (Medication.set_remainingQuantity (Some (R - 1)) med)
  /\ (R - 1 = Spec.stockAfterTaken R <-> 1 <= R)
  /\ (R <= 0 -> R - 1 < 0).
Proof.
  intros Hs Hk Hmed HR. split; [|unfold Spec.stockAfterTaken; lia].
  unfold AdherenceController.medicationByPk in *.
  rewrite (recordAdherence_taken_stock user body newId now1 now2 db k Hs Hk).
  rewrite find_update_first by (intros x; apply medication_decrement_id).
  rewrite Hmed. simpl. unfold Medication.decrement. now rewrite HR.
Qed.

Lemma recordAdherence_taken_decrements_witness :
  AdherenceController.medicationByPk (Some "m1")
    (snd (AdherenceController.recordAdherence Sample.patient_p1 Sample.taken_m1
            "a2" 7 8 (Sample.db_stock 5)))
  = Some (Sample.med 4 2).
Proof.
  exact (proj1 (recordAdherence_taken_decrements Sample.patient_p1 Sample.taken_m1
                  "a2" 7 8 (Sample.db_stock 5) "m1" (Sample.med 5 2) 5
                  eq_refl eq_refl eq_refl eq_refl)).
Defined.

(** ** C3: the record and the decrement *)

(** A request that leaves the status out, or sends the empty string,
    stores a record whose status is "taken" and leaves every stock as it
    was. *)
Lemma recordAdherence_defaulted_status (user : User.t) (medicationId : option string)
  (takenAt scheduledTime : option Z) (newId : string) (now1 now2 : Z) (db : DB) :
  let stored :=
    Adherence.mk newId (User.id user) medicationId (Some "taken")
      (Some (Js.val_or takenAt now1)) (Some (Js.val_or scheduledTime now2)) in
  let absent := AdherenceController.mkRecordBody medicationId None takenAt scheduledTime in
  let empty := AdherenceController.mkRecordBody medicationId (Some EmptyString) takenAt scheduledTime in
  snd (AdherenceController.recordAdherence user absent newId now1 now2 db)
  = set_adherences (adherences db ++ [stored])%list db
  /\ snd (AdherenceController.recordAdherence user empty newId now1 now2 db)
     = set_adherences (adherences db ++ [stored])%list db.
Proof. split; reflexivity. Qed.

(** C3, at the failing input: patient p1 reports medication m1 (stock 5)
    without a status.  The stored record says "taken", the stock is
    still 5; the same request with the status spelled out leaves 4. *)
Theorem recordAdherence_default_taken_keeps_stock :
  let out :=
    AdherenceController.recordAdherence Sample.patient_p1 Sample.unspecified_m1
      "a2" 7 8 (Sample.db_stock 5) in
  let spelled :=
    AdherenceController.recordAdherence Sample.patient_p1 Sample.taken_m1
      "a2" 7 8 (Sample.db_stock 5) in
  option_map Adherence.status (data (fst out)) = Some (Some "taken")
  /\ adherences (snd out) = adherences (snd spelled)
  /\ medications (snd out) = [Sample.med 5 2]
  /\ medications (snd spelled) = [Sample.med 4 2].
Proof. repeat split; reflexivity. Qed.

(** ** The bulk endpoint *)

Lemma mapi_length {A B : Type} (f : nat -> A -> B) (l : list A) (n : nat) :
  List.length (AdherenceController.mapi f n l) = List.length l.
Proof.
  revert n. induction l as [|x l IH]; intros n; simpl; [reflexivity|].
  now rewrite IH.
Qed.

Lemma mapi_Forall {A B : Type} (P : B -> Prop) (f : nat -> A -> B) (l : list A) :
  (forall n x, P (f n x)) -> forall n, Forall P (AdherenceController.mapi f n l).
Proof.
  intros H. induction l as [|x l IH]; intros n; simpl; constructor; auto.
Qed.


Lemma map_mapi {A B C : Type} (g : B -> C) (f : nat -> A -> B) (l : list A) :
  forall n, map g (AdherenceController.mapi f n l)
            = AdherenceController.mapi (fun k x => g (f k x)) n l.
Proof.
  induction l as [|x l IH]; intros n; simpl; [reflexivity|]. now rewrite IH.
Qed.

Lemma distinct_NoDup (l : list string) :
  AdherenceController.distinct l = true <-> NoDup l.
Proof.
  induction l as [|x l IH]; simpl.
  - split; [constructor|reflexivity].
  - rewrite andb_true_iff, negb_true_iff, IH. split.
    + intros [Hx Hl]. constructor; [|exact Hl].
      intro Hin. assert (E : existsb (fun y => (y =? x)%string) l = true).
      { apply existsb_exists. exists x. split; [exact Hin|apply String.eqb_refl]. }
      congruence.
    + intros H. inversion H as [|? ? Hnot Hl]; subst. split; [|exact Hl].
      destruct (existsb _ l) eqn:E; [|reflexivity].
      apply existsb_exists in E. destruct E as [y [Hy E]].
      apply String.eqb_eq in E. subst. contradiction.
Qed.

(** The INSERT goes through exactly when the new keys are pairwise
    distinct and none of them is the key of a stored row. *)
Lemma insertable_fresh (stored new : list Adherence.t) :
  AdherenceController.insertable stored new = true
  <-> freshKeys stored (map Adherence.id new).
Proof.
  unfold AdherenceController.insertable, freshKeys.
  rewrite andb_true_iff, distinct_NoDup, forallb_forall, Forall_forall.
  split; intros [Hd Hf]; (split; [exact Hd|]).
  - intros k Hk Hin. apply in_map_iff in Hk. destruct Hk as [r [<- Hr]].
    apply in_map_iff in Hin. destruct Hin as [x [Hx Hin]].
    specialize (Hf r Hr). apply negb_true_iff in Hf.
    assert (E : existsb (fun x => (Adherence.id x =? Adherence.id r)%string) stored = true).
    { apply existsb_exists. exists x. split; [exact Hin|]. now apply String.eqb_eq. }
    congruence.
  - intros r Hr. apply negb_true_iff.
    destruct (existsb _ stored) eqn:E; [|reflexivity].
    apply existsb_exists in E. destruct E as [x [Hin E]]. apply String.eqb_eq in E.
    exfalso. apply (Hf (Adherence.id r)); [now apply in_map|].
    rewrite <- E. now apply in_map.
Qed.

Lemma bulkKeys_ids (user : User.t) (keys : nat -> string) (clock : nat -> Z)
  (rs : list AdherenceController.BulkItem) :
  map Adherence.id
    (AdherenceController.mapi (AdherenceController.toAdherence user keys clock) 0 rs)
  = bulkKeys keys rs.
Proof. unfold bulkKeys. now rewrite map_mapi. Qed.

(** What a batch that is an array with at least one element answers. *)
Lemma bulkRecordAdherence_accepts (err : string) (user : User.t)
  (r : AdherenceController.BulkItem) (rs : list AdherenceController.BulkItem)
  (keys : nat -> string) (clock : nat -> Z) (db : DB) :
  let created :=
    AdherenceController.mapi (AdherenceController.toAdherence user keys clock) 0
      (r :: rs) in
  AdherenceController.bulkRecordAdherence err user (Some (r :: rs)) keys clock db
  = if AdherenceController.insertable (adherences db) created
    then (mkResponse 201 true
            (Some (Js.nat_to_string (List.length created) ++ " records created"))
            (Some created),
          set_adherences (adherences db ++ created)%list db)
    else (fail_with 500 err, db).
Proof. reflexivity. Qed.

(** ** C4: the batch is all or nothing *)



(** A batch whose payload names the key of a stored record is rejected
    whole: the second record is not stored either. *)
Example bulkRecordAdherence_rejected_whole :
  let taken := AdherenceController.mkBulkItem (Some "a1") None (Some "m1")
                 (Some "taken") None None in
  AdherenceController.bulkRecordAdherence "rejected" Sample.patient_p1
    (Some [Sample.bulk_taken_m1; taken]) Sample.keys Sample.clock (Sample.db_stock 5)
  = (fail_with 500 "rejected", Sample.db_stock 5).
Proof. reflexivity. Qed.

(** ** C9: the owner of a bulk record *)

(** C9: for every bulkRecord call, every created adherence record's
    userId is the requester's own id, whatever userId the submitted
    records carry; the created records are exactly the rows added to the
    store, so no row owned by another user is added.  When the answer is
    201 there is one created record for every submitted one, and the
    answer is 201 whenever the batch is a non-empty array whose keys the
    store accepts. *)
Theorem bulkRecordAdherence_userId_is_requester (err : string) (user : User.t)
  (records : option (list AdherenceController.BulkItem))
  (keys : nat -> string) (clock : nat -> Z) (db : DB) :
  let out := AdherenceController.bulkRecordAdherence err user records keys clock db in
  let created := Js.val_or (data (fst out)) [] in
  Forall (fun r => Adherence.userId r = User.id user) created
  /\ adherences (snd out) = (adherences db ++ created)%list
  /\ (status (fst out) = 201%nat ->
      List.length created = List.length (Js.val_or records []))
  /\ (forall rs,
        records = Some rs -> rs <> [] ->
        freshKeys (adherences db) (bulkKeys keys rs) ->
        status (fst out) = 201%nat /\ List.length created = List.length rs).
Proof.
  destruct records as [[|r rs]|].
  - simpl. split; [constructor|]. split; [now rewrite app_nil_r|].
    split; [discriminate|].
    intros rs' Hrs Hne _. injection Hrs as <-. now destruct Hne.
  - cbv zeta. rewrite bulkRecordAdherence_accepts. cbv zeta.
    set (created := AdherenceController.mapi _ 0 (r :: rs)).
    pose proof (insertable_fresh (adherences db) created) as Hfresh.
    unfold created at 2 in Hfresh. rewrite bulkKeys_ids in Hfresh.
    destruct (AdherenceController.insertable (adherences db) created) eqn:E;
      cbn [fst snd data status Js.val_or fail_with adherences set_adherences].
    + split; [apply mapi_Forall; reflexivity|]. split; [reflexivity|].
      split; [intros _; apply mapi_length|].
      intros rs' Hrs _ _. injection Hrs as <-. split; [reflexivity|apply mapi_length].
    + split; [constructor|]. split; [now rewrite app_nil_r|].
      split; [discriminate|].
      intros rs' Hrs _ Hf. injection Hrs as <-. apply Hfresh in Hf. congruence.
  - simpl. split; [constructor|]. split; [now rewrite app_nil_r|].
    split; [discriminate|].
    intros rs' Hrs. discriminate Hrs.
Qed.

(** The payload's own userId is overridden: the sample item names
    another user and is stored under the requester p1. *)
Example bulkRecordAdherence_overrides_payload_userId :
  AdherenceController.bi_userId Sample.bulk_taken_m1 = Some "someone-else"
  /\ option_map (map Adherence.userId)
       (data (fst (AdherenceController.bulkRecordAdherence "rejected" Sample.patient_p1
                     (Some [Sample.bulk_taken_m1]) Sample.keys Sample.clock
                     (Sample.db_stock 5))))
     = Some ["p1"].
Proof. split; reflexivity. Qed.

(** ** C8: only the owner edits an adherence record *)

Lemma adherence_update_id (updates : Adherence.patch) (r : Adherence.t) (id : string) :
  (Adherence.id (Adherence.update updates r) =? id)%string = (Adherence.id r =? id)%string.
Proof. reflexivity. Qed.

(** C8: for every updateRecord(id, updates, requester) call, the update
    is applied (answer 200; the stored record takes every attribute the
    updates supply and keeps the others, its key and the other records
    stay as they are) if and only if an adherence record with that id
    exists and its userId equals the requester's id; in every other case
    the answer is 404 or 403 and the store, the record included, is left
    unchanged.  The relationship table plays no part: a caregiver with an
    active, verified relationship to the owner is denied like anyone
    else. *)
Theorem updateAdherenceRecord_owner_only (user : User.t) (id : string)
  (updates : Adherence.patch) (db : DB) :
  let out := AdherenceController.updateAdherenceRecord user id updates db in
  let byPk := fun r => (Adherence.id r =? id)%string in
  (exists record stored,
      find byPk (adherences db) = Some record
      /\ Adherence.userId record = User.id user
      /\ status (fst out) = 200%nat
      /\ data (fst out) = Some stored
      /\ find byPk (adherences (snd out)) = Some stored
      /\ Adherence.id stored = Adherence.id record
      /\ supplied (Adherence.p_userId updates) (Adherence.userId record)
           (Adherence.userId stored)
      /\ suppliedOpt (Adherence.p_medicationId updates) (Adherence.medicationId record)
           (Adherence.medicationId stored)
      /\ suppliedOpt (Adherence.p_status updates) (Adherence.status record)
           (Adherence.status stored)
      /\ suppliedOpt (Adherence.p_takenAt updates) (Adherence.takenAt record)
           (Adherence.takenAt stored)
      /\ suppliedOpt (Adherence.p_scheduledTime updates) (Adherence.scheduledTime record)
           (Adherence.scheduledTime stored)
      /\ adherences (snd out) = update_first byPk (fun _ => stored) (adherences db)
      /\ users (snd out) = users db
      /\ caregiverPatients (snd out) = caregiverPatients db
      /\ medications (snd out) = medications db)
  \/ ((forall record,
         find byPk (adherences db) = Some record ->
         Adherence.userId record <> User.id user)
      /\ (status (fst out) = 404%nat \/ status (fst out) = 403%nat)
      /\ data (fst out) = None
      /\ snd out = db).
Proof.
  unfold AdherenceController.updateAdherenceRecord.
  destruct (find _ (adherences db)) as [record|] eqn:E.
  - destruct (String.eqb_spec (Adherence.userId record) (User.id user)) as [Ho|Ho];
      simpl.
    + left. exists record, (Adherence.update updates record).
      split; [reflexivity|]. split; [exact Ho|]. split; [reflexivity|].
      split; [reflexivity|]. split.
      { rewrite find_update_first by (intros x; apply adherence_update_id).
        now rewrite E. }
      split; [reflexivity|].
      split; [unfold supplied; simpl; now destruct (Adherence.p_userId updates)|].
      split; [unfold suppliedOpt; simpl; now destruct (Adherence.p_medicationId updates)|].
      split; [unfold suppliedOpt; simpl; now destruct (Adherence.p_status updates)|].
      split; [unfold suppliedOpt; simpl; now destruct (Adherence.p_takenAt updates)|].
      split; [unfold suppliedOpt; simpl; now destruct (Adherence.p_scheduledTime updates)|].
      split; [|auto].
      clear Ho. revert E. induction (adherences db) as [|x l IH]; simpl; [discriminate|].
      destruct (Adherence.id x =? id)%string.
      * intros H. now injection H as ->.
      * intros H. f_equal. now apply IH.
    + right. repeat split; auto.
      intros r Hr. injection Hr as <-. exact Ho.
  - right. simpl. repeat split; auto. intros r Hr. discriminate.
Qed.

Lemma updateAdherenceRecord_owner_only_witness :
  let updates := Adherence.mkPatch None None (Some "taken") None None in
  option_map Adherence.status
    (find (fun r => (Adherence.id r =? "a1")%string)
       (adherences (snd (AdherenceController.updateAdherenceRecord
                           Sample.patient_p1 "a1" updates (Sample.db_stock 5)))))
  = Some (Some "taken")
  /\ AdherenceController.updateAdherenceRecord Sample.caregiver_c1 "a1" updates
       (Sample.db_stock 5)
     = (fail_with 403 "Access denied", Sample.db_stock 5).
Proof.
  intros updates. split; [|reflexivity].
  destruct (updateAdherenceRecord_owner_only Sample.patient_p1 "a1" updates
              (Sample.db_stock 5))
    as [(record & stored & _ & _ & _ & _ & Hfound & _ & _ & _ & Hstatus & _)
       |(Hother & _)].
  - rewrite Hfound. simpl. f_equal. exact Hstatus.
  - exfalso. exact (Hother _ eq_refl eq_refl).
Defined.

(** Caregiver c1 may read the records of p1 and still cannot edit one;
    p1 can. *)
Example updateAdherenceRecord_caregiver_denied :
  let updates := Adherence.mkPatch None None (Some "taken") None None in
  AdherenceController._validateAccess (Sample.db_stock 5) Sample.caregiver_c1 "p1" = true
  /\ AdherenceController.updateAdherenceRecord Sample.caregiver_c1 "a1" updates
       (Sample.db_stock 5)
     = (fail_with 403 "Access denied", Sample.db_stock 5)
  /\ option_map Adherence.status
       (find (fun r => (Adherence.id r =? "a1")%string)
          (adherences (snd (AdherenceController.updateAdherenceRecord
                              Sample.patient_p1 "a1" updates (Sample.db_stock 5)))))
     = Some (Some "taken").
Proof. repeat split; reflexivity. Qed.

(** ** C10: only the owner changes a medication *)

(** C10: updateMedication and deleteMedication look the medication up by
    the pair (id, requester.id).  For every requester who owns no
    medication with the given id (whatever the role, admin and
    healthcareprovider included) both operations answer 404 NotFound and
    leave the store, and with it every medication row, unchanged. *)
Theorem medication_write_owner_only (user : User.t) (id : string)
  (body : Medication.patch) (db : DB) :
  (forall m, In m (medications db) ->
             Medication.id m = id -> Medication.userId m <> User.id user) ->
  MedicationController.updateMedication user id body db
  = (fail_with 404 "Medication not found", db)
  /\ MedicationController.deleteMedication user id db
     = (fail_with 404 "Medication not found", db).
Proof.
  intros Hown.
  assert (E : find (MedicationController.ownedBy id user) (medications db) = None).
  { destruct (find _ (medications db)) as [m|] eqn:E; [|reflexivity].
    apply find_some in E. destruct E as [Hin Hp].
    unfold MedicationController.ownedBy in Hp.
    rewrite andb_true_iff, !String.eqb_eq in Hp.
    destruct Hp as [Hid Hu]. destruct (Hown m Hin Hid Hu). }
  unfold MedicationController.updateMedication, MedicationController.deleteMedication.
  now rewrite E.
Qed.

Lemma medication_write_owner_only_witness :
  MedicationController._validateAccess (Sample.db_stock 5) Sample.admin_a1 "p1" = true
  /\ MedicationController.updateMedication Sample.admin_a1 "m1"
       (Medication.mkPatch None None None None None None (Some (Some 0)) None)
       (Sample.db_stock 5)
     = (fail_with 404 "Medication not found", Sample.db_stock 5)
  /\ MedicationController.deleteMedication Sample.admin_a1 "m1" (Sample.db_stock 5)
     = (fail_with 404 "Medication not found", Sample.db_stock 5).
Proof.
  split; [reflexivity|].
  apply (medication_write_owner_only Sample.admin_a1 "m1").
  intros m [<-|[]] _. simpl. discriminate.
Defined.

(** ** The relationship lifecycle *)

Lemma closed_row_set_inactive (r : CaregiverPatient.t) :
  CaregiverPatient.isActive r = false -> CaregiverPatient.set_isActive false r = r.
Proof. destruct r; simpl; intros ->; reflexivity. Qed.

Lemma closed_row_not_pending (id : string) (user : User.t) (r : CaregiverPatient.t) :
  CaregiverPatient.isActive r = false \/ CaregiverPatient.isVerified r = true ->
  CaregiverController.pendingFor id user r = false.
Proof.
  unfold CaregiverController.pendingFor.
  intros [->| ->]; simpl; now rewrite ?andb_false_r.
Qed.

Lemma pendingFor_inv (id : string) (user : User.t) (r : CaregiverPatient.t) :
  CaregiverController.pendingFor id user r = true ->
  CaregiverPatient.id r = id
  /\ CaregiverPatient.caregiverId r = User.id user
  /\ CaregiverPatient.isVerified r = false
  /\ CaregiverPatient.isActive r = true.
Proof.
  unfold CaregiverController.pendingFor.
  rewrite !andb_true_iff, !String.eqb_eq, !Bool.eqb_true_iff.
  destruct (CaregiverPatient.isVerified r); simpl; intuition congruence.
Qed.

(** A request on an id under which no row is pending answers 404 and
    leaves the store as it is. *)
Lemma no_pending_row_404 (user : User.t) (id : string) (db : DB) :
  (forall r, In r (caregiverPatients db) -> CaregiverPatient.id r = id ->
             CaregiverPatient.isActive r = false
             \/ CaregiverPatient.isVerified r = true) ->
  CaregiverController.acceptInvitation user id db
  = (fail_with 404 "Invitation not found", db)
  /\ CaregiverController.declineInvitation user id db
     = (fail_with 404 "Invitation not found", db).
Proof.
  intros H.
  assert (E : find (CaregiverController.pendingFor id user) (caregiverPatients db) = None).
  { apply find_none_all. intros r Hin.
    destruct (CaregiverController.pendingFor id user r) eqn:Hp; [|reflexivity].
    apply pendingFor_inv in Hp. destruct Hp as (Hid & _ & Hv & Ha).
    destruct (H r Hin Hid); congruence. }
  unfold CaregiverController.acceptInvitation, CaregiverController.declineInvitation.
  now rewrite E.
Qed.

(** No request rewrites or drops a closed row. *)
Lemma handle_keeps_closed (rq : CaregiverController.request) (db : DB)
  (r : CaregiverPatient.t) :
  In r (caregiverPatients db) -> CaregiverPatient.isActive r = false ->
  In r (caregiverPatients (CaregiverController.handle rq db)).
Proof.
  intros Hin Hc.
  destruct rq as [user body newId nid | user id | user id | user id]; simpl.
  - unfold CaregiverController.inviteCaregiver.
    destruct (find _ (users db)) as [cu|]; simpl; [|exact Hin].
    destruct (User.id cu =? User.id user)%string; simpl; [exact Hin|].
    destruct (find _ (caregiverPatients db)); simpl; [exact Hin|].
    apply in_or_app. now left.
  - unfold CaregiverController.acceptInvitation.
    destruct (find _ (caregiverPatients db)); simpl; [|exact Hin].
    apply update_first_keeps; [exact Hin|].
    apply closed_row_not_pending. now left.
  - unfold CaregiverController.declineInvitation.
    destruct (find _ (caregiverPatients db)); simpl; [|exact Hin].
    apply update_first_keeps; [exact Hin|].
    apply closed_row_not_pending. now left.
  - unfold CaregiverController.removeCaregiver.
    destruct (find _ (caregiverPatients db)); simpl.
    + apply update_first_fixed; [exact Hin|]. now apply closed_row_set_inactive.
    + destruct (find _ (caregiverPatients db)); simpl; [|exact Hin].
      apply update_first_fixed; [exact Hin|]. now apply closed_row_set_inactive.
Qed.

Lemma serve_keeps_closed (rqs : list CaregiverController.request) :
  forall (db : DB) (r : CaregiverPatient.t),
    In r (caregiverPatients db) -> CaregiverPatient.isActive r = false ->
    In r (caregiverPatients (CaregiverController.serve rqs db)).
Proof.
  induction rqs as [|rq rqs IH]; intros db r Hin Hc; simpl; [exact Hin|].
  apply IH; [|exact Hc]. now apply handle_keeps_closed.
Qed.

(** What an invitation leaves behind. *)
Lemma inviteCaregiver_outcome (user : User.t) (body : CaregiverController.InviteBody)
  (newId nid : string) (db : DB) :
  let out := CaregiverController.inviteCaregiver user body newId nid db in
  (status (fst out) = 201%nat
   /\ exists link,
        caregiverPatients (snd out) = (caregiverPatients db ++ [link])%list
        /\ CaregiverPatient.id link = newId
        /\ CaregiverPatient.patientId link = User.id user
        /\ CaregiverPatient.isVerified link = false
        /\ CaregiverPatient.isActive link = true)
  \/ (status (fst out) <> 201%nat /\ snd out = db).
Proof.
  unfold CaregiverController.inviteCaregiver.
  destruct (find _ (users db)) as [cu|]; simpl; [|right; split; [discriminate|reflexivity]].
  destruct (User.id cu =? User.id user)%string; simpl;
    [right; split; [discriminate|reflexivity]|].
  destruct (find _ (caregiverPatients db)); simpl;
    [right; split; [discriminate|reflexivity]|].
  left. split; [reflexivity|]. eexists. repeat split.
Qed.

(** ** C7: invite, accept, decline *)

(** C7: the lifecycle of a relationship row, every part under no other
    condition than its own.  (1) An invitation that is sent (201) adds
    one row with isVerified = false and isActive = true, and any other
    outcome leaves the store unchanged.  (2) Accepting a pending
    invitation answers 200 and sets isVerified = true on that row,
    isActive staying true; declining it answers 200 and sets isActive =
    false.  (3) In a table with a primary key, an accept or a decline, by
    anyone, on the id of a row that is inactive or already accepted
    answers 404 NotFound and leaves the store unchanged; this is so in
    particular for a second attempt on the row just accepted or just
    declined.  (4) A closed row is never reopened: after any sequence of
    invite, accept, decline and remove requests a row that was inactive,
    the row just declined included, is still there, unchanged. *)
Theorem relationship_lifecycle (db : DB) (patient caregiver other : User.t)
  (body : CaregiverController.InviteBody) (newId nid id : string)
  (rqs : list CaregiverController.request) :
  let invited := CaregiverController.inviteCaregiver patient body newId nid db in
  let accepted := CaregiverController.acceptInvitation caregiver id db in
  let declined := CaregiverController.declineInvitation caregiver id db in
  let notFound := fail_with 404 "Invitation not found" in
  ((status (fst invited) = 201%nat
    /\ exists link,
         caregiverPatients (snd invited) = (caregiverPatients db ++ [link])%list
         /\ CaregiverPatient.id link = newId
         /\ CaregiverPatient.patientId link = User.id patient
         /\ CaregiverPatient.isVerified link = false
         /\ CaregiverPatient.isActive link = true)
   \/ (status (fst invited) <> 201%nat /\ snd invited = db))
  /\ (forall r,
        find (CaregiverController.pendingFor id caregiver) (caregiverPatients db) = Some r ->
        (status (fst accepted) = 200%nat
         /\ In (CaregiverPatient.set_isVerified true r) (caregiverPatients (snd accepted))
         /\ CaregiverPatient.isVerified (CaregiverPatient.set_isVerified true r) = true
         /\ CaregiverPatient.isActive (CaregiverPatient.set_isVerified true r) = true)
        /\ (status (fst declined) = 200%nat
            /\ In (CaregiverPatient.set_isActive false r) (caregiverPatients (snd declined))
            /\ CaregiverPatient.isActive (CaregiverPatient.set_isActive false r) = false)
        /\ In (CaregiverPatient.set_isActive false r)
             (caregiverPatients (CaregiverController.serve rqs (snd declined)))
        /\ (NoDup (map CaregiverPatient.id (caregiverPatients db)) ->
            CaregiverController.acceptInvitation other id (snd accepted)
            = (notFound, snd accepted)
            /\ CaregiverController.declineInvitation other id (snd accepted)
               = (notFound, snd accepted)
            /\ CaregiverController.acceptInvitation other id (snd declined)
               = (notFound, snd declined)
            /\ CaregiverController.declineInvitation other id (snd declined)
               = (notFound, snd declined)))
  /\ (forall x,
        In x (caregiverPatients db) ->
        CaregiverPatient.isActive x = false \/ CaregiverPatient.isVerified x = true ->
        NoDup (map CaregiverPatient.id (caregiverPatients db)) ->
        CaregiverController.acceptInvitation other (CaregiverPatient.id x) db
        = (notFound, db)
        /\ CaregiverController.declineInvitation other (CaregiverPatient.id x) db
           = (notFound, db))
  /\ (forall closed,
        In closed (caregiverPatients db) ->
        CaregiverPatient.isActive closed = false ->
        In closed (caregiverPatients (CaregiverController.serve rqs db))).
Proof.
  intros invited accepted declined notFound.
  split; [apply inviteCaregiver_outcome|].
  split; [|split].
  - intros r Hfind.
    pose proof (find_some _ _ Hfind) as [Hr Hp].
    apply pendingFor_inv in Hp. destruct Hp as (Hid & Hcg & Hv & Ha).
    assert (Eacc : caregiverPatients (snd accepted)
                   = update_first (CaregiverController.pendingFor id caregiver)
                       (CaregiverPatient.set_isVerified true) (caregiverPatients db)).
    { unfold accepted, CaregiverController.acceptInvitation. now rewrite Hfind. }
    assert (Edec : caregiverPatients (snd declined)
                   = update_first (CaregiverController.pendingFor id caregiver)
                       (CaregiverPatient.set_isActive false) (caregiverPatients db)).
    { unfold declined, CaregiverController.declineInvitation. now rewrite Hfind. }
    assert (HinDec : In (CaregiverPatient.set_isActive false r)
                        (caregiverPatients (snd declined))).
    { rewrite Edec. now apply update_first_found. }
    split.
    { repeat split.
      - unfold accepted, CaregiverController.acceptInvitation. now rewrite Hfind.
      - rewrite Eacc. now apply update_first_found.
      - exact Ha. }
    split.
    { repeat split.
      - unfold declined, CaregiverController.declineInvitation. now rewrite Hfind.
      - exact HinDec. }
    split; [now apply serve_keeps_closed|].
    intros Hnd.
    assert (Hacc404 : CaregiverController.acceptInvitation other id (snd accepted)
                      = (notFound, snd accepted)
                      /\ CaregiverController.declineInvitation other id (snd accepted)
                         = (notFound, snd accepted)).
    { apply no_pending_row_404. intros y Hy Hyid. right.
      rewrite Eacc in Hy.
      assert (y = CaregiverPatient.set_isVerified true r) as ->; [|reflexivity].
      eapply update_first_same_key with (key := CaregiverPatient.id);
        eauto; congruence. }
    assert (Hdec404 : CaregiverController.acceptInvitation other id (snd declined)
                      = (notFound, snd declined)
                      /\ CaregiverController.declineInvitation other id (snd declined)
                         = (notFound, snd declined)).
    { apply no_pending_row_404. intros y Hy Hyid. left.
      rewrite Edec in Hy.
      assert (y = CaregiverPatient.set_isActive false r) as ->; [|reflexivity].
      eapply update_first_same_key with (key := CaregiverPatient.id);
        eauto; congruence. }
    tauto.
  - intros x Hx Hclosed Hnd.
    apply no_pending_row_404. intros y Hy Hyid.
    assert (y = x) as ->; [|exact Hclosed].
    clear -Hx Hy Hyid Hnd.
    induction (caregiverPatients db) as [|z l IH]; [destruct Hx|].
    simpl in Hnd. inversion Hnd as [|? ? Hnot Hnd']; subst.
    destruct Hx as [->|Hx], Hy as [->|Hy]; auto.
    + exfalso. apply Hnot. rewrite <- Hyid. now apply in_map.
    + exfalso. apply Hnot. rewrite Hyid. now apply in_map.
  - intros closed Hin Hc. now apply serve_keeps_closed.
Qed.

Lemma relationship_lifecycle_witness :
  let db1 := snd (CaregiverController.acceptInvitation
                    Sample.caregiver_c1 "r1" Sample.db_invited) in
  let db2 := snd (CaregiverController.declineInvitation
                    Sample.caregiver_c1 "r1" Sample.db_invited) in
  let rqs :=
    [CaregiverController.Remove Sample.patient_p1 "r0";
     CaregiverController.Invite Sample.patient_p1 Sample.invite_c3 "r2" "n1";
     CaregiverController.Accept Sample.caregiver_c3 "r2"] in
  status (fst (CaregiverController.inviteCaregiver Sample.patient_p1
                 Sample.invite_c3 "r2" "n1" Sample.db_invited)) = 201%nat
  /\ CaregiverController.acceptInvitation Sample.caregiver_c1 "r1" db1
     = (fail_with 404 "Invitation not found", db1)
  /\ CaregiverController.declineInvitation Sample.caregiver_c1 "r1" db2
     = (fail_with 404 "Invitation not found", db2)
  /\ CaregiverController.acceptInvitation Sample.caregiver_c1 "r0" Sample.db_invited
     = (fail_with 404 "Invitation not found", Sample.db_invited)
  /\ In Sample.closed_r0
       (caregiverPatients (CaregiverController.serve rqs Sample.db_invited)).
Proof.
  intros db1 db2 rqs.
  assert (Hnd : NoDup (map CaregiverPatient.id (caregiverPatients Sample.db_invited))).
  { simpl. repeat constructor; simpl; intuition discriminate. }
  pose proof (relationship_lifecycle Sample.db_invited Sample.patient_p1
                Sample.caregiver_c1 Sample.caregiver_c1 Sample.invite_c3
                "r2" "n1" "r1" rqs) as H.
  cbv zeta in H.
  destruct H as (_ & Hpending & Hclosed404 & Hkept).
  destruct (Hpending Sample.pending_r1 eq_refl) as (_ & _ & _ & Hsecond).
  destruct (Hsecond Hnd) as (Hacc & _ & _ & Hdec).
  destruct (Hclosed404 Sample.closed_r0 (or_introl eq_refl) (or_introl eq_refl) Hnd)
    as [Hr0 _].
  split; [reflexivity|].
  split; [exact Hacc|]. split; [exact Hdec|]. split; [exact Hr0|].
  exact (Hkept Sample.closed_r0 (or_introl eq_refl) eq_refl).
Defined.

(** The lifecycle on a table that holds nothing but the pending
    invitation r1: it is accepted, and a second accept answers 404. *)
Example relationship_lifecycle_single_row :
  let db := mkDB [Sample.patient_p1; Sample.caregiver_c1] [Sample.pending_r1] [] [] [] in
  let accepted := CaregiverController.acceptInvitation Sample.caregiver_c1 "r1" db in
  status (fst accepted) = 200%nat
  /\ caregiverPatients (snd accepted)
     = [CaregiverPatient.set_isVerified true Sample.pending_r1]
  /\ CaregiverController.acceptInvitation Sample.caregiver_c1 "r1" (snd accepted)
     = (fail_with 404 "Invitation not found", snd accepted).
Proof. repeat split; reflexivity. Qed.

(** ** Stock thresholds *)

Lemma needsRefill_is_spec (med : Medication.t) :
  (forall k, Medication.timesPerDay med = Some k -> 0 <= k) ->
  MedicationController.needsRefill med = Spec.needsRefill med.
Proof.
  unfold MedicationController.needsRefill, Spec.needsRefill, Js.num_or, Js.to_number.
  intros Hk.
  destruct (Medication.remainingQuantity med) as [q|];
    destruct (Medication.timesPerDay med) as [k|];
    try specialize (Hk k eq_refl);
    repeat match goal with
           | |- context [?a =? 0] => destruct (Z.eqb_spec a 0)
           end; subst; f_equal; lia.
Qed.

Lemma forEach_pushUpcoming (P : MedicationController.UpcomingDose -> Prop)
  (now : Z) (limitTime : JsDate.t) (meds : list Medication.t) :
  (forall m t, In m meds ->
     P (MedicationController.mkUpcomingDose (Medication.id m) (Medication.name m)
          (Medication.dosage m ++ " " ++ Medication.dosageUnit m) t
          (Js.to_number (Medication.remainingQuantity m) <? 10))) ->
  forall acc, Forall P acc ->
    exists doses,
      forEach (MedicationController.pushUpcoming now limitTime) meds acc = Some doses
      /\ Forall P doses.
Proof.
  induction meds as [|m meds IH]; intros HP acc Hacc; simpl.
  - now exists acc.
  - unfold MedicationController.pushUpcoming at 1.
    destruct (JsDate.TimeClip _) as [scheduled|];
      [destruct (JsDate.leb _ _)|].
    + apply IH; [intros; apply HP; now right|].
      apply Forall_app. split; [exact Hacc|].
      constructor; [|constructor]. apply HP. now left.
    + apply IH; [intros; apply HP; now right | exact Hacc].
    + apply IH; [intros; apply HP; now right | exact Hacc].
Qed.

Lemma insert_by_Forall {A : Type} (P : A -> Prop) (key : A -> Z) (x : A) (l : list A) :
  P x -> Forall P l -> Forall P (insert_by key x l).
Proof.
  intros Hx. induction l as [|y l IH]; simpl; intros Hl.
  - now constructor.
  - inversion Hl; subst. destruct (key y <=? key x); constructor; auto.
Qed.

Lemma sort_by_Forall {A : Type} (P : A -> Prop) (key : A -> Z) (l : list A) :
  Forall P l -> Forall P (sort_by key l).
Proof.
  unfold sort_by. assert (H : Forall P (@nil A)) by constructor.
  revert H. generalize (@nil A). induction l as [|x l IH]; intros acc Hacc Hl; simpl.
  - exact Hacc.
  - inversion Hl; subst. apply IH; [|assumption]. now apply insert_by_Forall.
Qed.

Lemma activeMedications_In (db : DB) (target : string) (m : Medication.t) :
  In m (MedicationController.activeMedications db target) -> In m (medications db).
Proof.
  unfold MedicationController.activeMedications. intros H.
  apply filter_In in H. tauto.
Qed.

(** ** C5: one threshold rule *)

(** C5, the claim as written fails: with two doses a day and 12 units
    left the rule remainingQuantity <= max(timesPerDay, 1) * 7 holds and
    the refill-needed filter lists the medication, while the upcoming-dose
    flag is false and the low-stock count is 0. *)
Lemma stock_checks_disagree :
  Spec.needsRefill (Sample.med 12 2) = true
  /\ option_map fst
       (data (MedicationController.getRefillNeeded Sample.patient_p1 None
                (Sample.db_stock 12)))
     = Some [Sample.med 12 2]
  /\ option_map (map MedicationController.isRefillDue)
       (data (MedicationController.getUpcomingDoses Sample.patient_p1 None None 0
                (Sample.db_stock 12)))
     = Some [false]
  /\ option_map snd
       (data (MedicationController.getMedicationStats Sample.patient_p1 None
                (Sample.db_stock 12)))
     = Some 0%nat.
Proof. repeat split; reflexivity. Qed.

(** C5, amended: the refill-needed filter keeps exactly the active
    medications with remainingQuantity <= max(timesPerDay, 1) * 7 (null
    read as 0; timesPerDay never negative), and needsRefill is true
    exactly when that inequality holds.  The other two stock checks use a
    fixed threshold of 10 instead: every upcoming dose carries the flag
    remainingQuantity < 10 of its medication, and the low-stock count is
    the number of active medications with a non-null
    remainingQuantity <= 10. *)
Theorem refill_thresholds (user : User.t) (hours : option Z)
  (patientId : option string) (now : Z) (db : DB) :
  (forall m k, In m (medications db) -> Medication.timesPerDay m = Some k -> 0 <= k) ->
  MedicationController.denied db user patientId = false ->
  let meds :=
    MedicationController.activeMedications db (Js.str_or patientId (User.id user)) in
  let low := fun m =>
    match Medication.remainingQuantity m with
    | Some q => q <=? 10
    | None => false
    end in
  data (MedicationController.getRefillNeeded user patientId db)
  = Some (filter Spec.needsRefill meds, List.length (filter Spec.needsRefill meds))
  /\ Forall (fun m => MedicationController.needsRefill m = true
                      <-> Js.to_number (Medication.remainingQuantity m)
                          <= Z.max (Js.to_number (Medication.timesPerDay m)) 1 * 7)
       (medications db)
  /\ (exists doses,
        data (MedicationController.getUpcomingDoses user hours patientId now db)
        = Some doses
        /\ Forall (fun d => exists m,
                     In m meds
                     /\ MedicationController.medicationId d = Medication.id m
                     /\ MedicationController.isRefillDue d
                        = (Js.to_number (Medication.remainingQuantity m) <? 10))
             doses)
  /\ data (MedicationController.getMedicationStats user patientId db)
     = Some (List.length meds, List.length (filter low meds)).
Proof.
  intros Hk Hacc meds low.
  assert (Hext : filter MedicationController.needsRefill meds
                 = filter Spec.needsRefill meds).
  { apply filter_ext_in. intros m Hm. apply needsRefill_is_spec.
    intros k. apply Hk. eapply activeMedications_In, Hm. }
  split.
  { unfold MedicationController.getRefillNeeded. rewrite Hacc. simpl.
    fold meds. now rewrite Hext. }
  split.
  { apply Forall_forall. intros m Hm.
    rewrite needsRefill_is_spec by (intros k; now apply Hk).
    unfold Spec.needsRefill. apply Z.leb_le. }
  split.
  { unfold MedicationController.getUpcomingDoses. rewrite Hacc. fold meds.
    edestruct (forEach_pushUpcoming
                 (fun d => exists m,
                      In m meds
                      /\ MedicationController.medicationId d = Medication.id m
                      /\ MedicationController.isRefillDue d
                         = (Js.to_number (Medication.remainingQuantity m) <? 10))
                 now (JsDate.TimeClip (now + Js.val_or hours 24 * 60 * 60 * 1000)) meds)
      as [doses [Hd HP]].
    - intros m t Hm. exists m. simpl. auto.
    - constructor.
    - rewrite Hd. simpl. eexists. split; [reflexivity|].
      now apply sort_by_Forall. }
  unfold MedicationController.getMedicationStats. rewrite Hacc. reflexivity.
Qed.

Lemma refill_thresholds_witness :
  MedicationController.denied (Sample.db_stock 10) Sample.caregiver_c1 (Some "p1") = false
  /\ data (MedicationController.getRefillNeeded Sample.caregiver_c1 (Some "p1")
             (Sample.db_stock 10))
     = Some ([Sample.med 10 2], 1%nat)
  /\ data (MedicationController.getMedicationStats Sample.caregiver_c1 (Some "p1")
             (Sample.db_stock 10))
     = Some (1%nat, 1%nat).
Proof.
  split; [reflexivity|].
  assert (Hk : forall m k, In m (medications (Sample.db_stock 10)) ->
                           Medication.timesPerDay m = Some k -> 0 <= k).
  { intros m k [<-|[]] H. injection H as <-. lia. }
  pose proof (refill_thresholds Sample.caregiver_c1 None (Some "p1") 0
                (Sample.db_stock 10) Hk eq_refl) as H.
  cbv zeta in H. destruct H as (Hrefill & _ & _ & Hstats).
  split; [exact Hrefill | exact Hstats].
Defined.

(** ** Counting loops *)

(** A loop whose states follow the trajectory [f] for [n] rounds and
    then fail the test ends in [f n], given more than [n] units of fuel. *)
Lemma for_loop_trajectory {S : Type} (cond : S -> bool) (body : S -> option S)
  (n : nat) :
  forall (f : nat -> S),
    (forall k, (k < n)%nat -> cond (f k) = true /\ body (f k) = Some (f (Datatypes.S k))) ->
    cond (f n) = false ->
    forall fuel, (n < fuel)%nat -> for_loop fuel cond body (f 0%nat) = Some (f n).
Proof.
  induction n as [|n IH]; intros f Hstep Hend fuel Hfuel.
  - destruct fuel as [|fuel]; [lia|]. simpl. now rewrite Hend.
  - destruct fuel as [|fuel]; [lia|]. simpl.
    destruct (Hstep 0%nat ltac:(lia)) as [Hc Hb]. rewrite Hc, Hb.
    apply (IH (fun k => f (Datatypes.S k))); [|exact Hend|lia].
    intros k Hk. apply Hstep. lia.
Qed.

Lemma forEach_app {A B : Type} (g : A -> list B) (f : A -> list B -> option (list B))
  (arr : list A) :
  (forall x acc, In x arr -> f x acc = Some (acc ++ g x)%list) ->
  forall acc, forEach f arr acc = Some (acc ++ flat_map g arr)%list.
Proof.
  induction arr as [|x arr IH]; intros H acc; simpl.
  - now rewrite app_nil_r.
  - rewrite (H x acc (or_introl eq_refl)).
    rewrite IH by (intros; apply H; now right).
    now rewrite <- app_assoc.
Qed.

Lemma zrange_succ (k : nat) :
  map Z.of_nat (seq 0 (S k)) = (map Z.of_nat (seq 0 k) ++ [Z.of_nat k])%list.
Proof. now rewrite seq_S, map_app. Qed.

(** ** Hours *)

Lemma hourOf_bounds (k i : Z) :
  0 <= i < k -> 8 <= Spec.hourOf k i < 32.
Proof.
  intros H. unfold Spec.hourOf.
  assert (0 <= 24 * i / k) by (apply Z.div_pos; lia).
  assert (24 * i / k < 24) by (apply Z.div_lt_upper_bound; lia).
  lia.
Qed.

Lemma atLocal_day (tz day hour : Z) :
  0 <= hour < 24 ->
  JsDate.localDay tz (Spec.atLocal tz day hour) = day
  /\ JsDate.localMs tz (Spec.atLocal tz day hour) = hour * JsDate.msPerHour.
Proof.
  intros H. unfold JsDate.localDay, JsDate.localMs, Spec.atLocal,
    JsDate.msPerDay, JsDate.msPerHour.
  replace (day * 86400000 + hour * 3600000 - tz + tz)
    with (hour * 3600000 + day * 86400000) by lia.
  rewrite Z.div_add, Z.mod_add by lia.
  rewrite Z.div_small, Z.mod_small by lia. lia.
Qed.

Lemma times_is_spec (m : Medication.t) :
  Js.num_or (Medication.timesPerDay m) 1 = Spec.timesPerDay m.
Proof. reflexivity. Qed.

(** ** Hours on doubles *)

Lemma all_from_spec (n : nat) (p : Z -> bool) :
  forall i, all_from n i p = true ->
            forall j, i <= j < i + Z.of_nat n -> p j = true.
Proof.
  induction n as [|n IH]; intros i H j Hj; [lia|].
  simpl in H. apply andb_true_iff in H. destruct H as [Hi Hrest].
  destruct (Z.eq_dec j i) as [->|Hne]; [exact Hi|].
  apply (IH (i + 1) Hrest). lia.
Qed.

Lemma hours_agree_upto_691 : all_from 691 1 hours_agree = true.
Proof. vm_compute. reflexivity. Qed.

(** Up to 691 doses a day the rounding of the doubles never reaches the
    integer part of the hour. *)
Lemma truncate_hourOfDose (k i : Z) :
  0 < k <= 691 -> 0 <= i < k ->
  Js.truncate (hourOfDose k i) = Some (Spec.hourOf k i).
Proof.
  intros Hk Hi.
  pose proof (all_from_spec _ _ _ hours_agree_upto_691 k ltac:(lia)) as H.
  unfold hours_agree in H.
  pose proof (all_from_spec _ _ _ H i ltac:(lia)) as H'. cbv beta in H'.
  destruct (Js.truncate (hourOfDose k i)) as [h|]; [|discriminate].
  apply Z.eqb_eq in H'. now subst.
Qed.

(** ** Dates in a zone that keeps its offset *)

Lemma TimeClip_valid (tv : Z) :
  Z.abs tv <= JsDate.maxTime -> JsDate.TimeClip tv = Some tv.
Proof.
  intros H. unfold JsDate.TimeClip. apply Z.leb_le in H. now rewrite H.
Qed.

Lemma addDays_fixed (zone : JsDate.Zone) (tz n tv : Z) :
  fixedZone zone tz ->
  JsDate.addDays zone (Some n) (Some tv) = JsDate.TimeClip (tv + n * JsDate.msPerDay).
Proof.
  intros Hz. unfold JsDate.addDays, JsDate.LocalTime, JsDate.UTC, JsDate.Day,
    JsDate.TimeWithinDay.
  destruct (Hz tv) as [-> _].
  destruct (Hz ((((tv + tz) / JsDate.msPerDay + n) * JsDate.msPerDay
                 + (tv + tz) mod JsDate.msPerDay))) as [_ ->].
  f_equal. unfold JsDate.msPerDay.
  pose proof (Z.div_mod (tv + tz) 86400000 ltac:(lia)). lia.
Qed.

Lemma setHours_fixed (zone : JsDate.Zone) (tz h tv : Z) :
  fixedZone zone tz ->
  JsDate.setHours zone (Some h) (Some tv)
  = JsDate.TimeClip (JsDate.localDay tz tv * JsDate.msPerDay + h * JsDate.msPerHour - tz).
Proof.
  intros Hz. unfold JsDate.setHours, JsDate.LocalTime, JsDate.UTC, JsDate.Day,
    JsDate.localDay.
  destruct (Hz tv) as [-> _].
  destruct (Hz ((tv + tz) / JsDate.msPerDay * JsDate.msPerDay + h * JsDate.msPerHour))
    as [_ ->].
  reflexivity.
Qed.

Lemma setHours_wraps (tz h d : Z) :
  JsDate.localDay tz d * JsDate.msPerDay + h * JsDate.msPerHour - tz
  = Spec.atLocal tz (JsDate.localDay tz d + h / 24) (h mod 24).
Proof.
  unfold Spec.atLocal, JsDate.msPerDay, JsDate.msPerHour.
  pose proof (Z.div_mod h 24 ltac:(lia)). lia.
Qed.

Lemma localDay_near (tz tv : Z) :
  tv + tz - JsDate.msPerDay < JsDate.localDay tz tv * JsDate.msPerDay <= tv + tz.
Proof.
  unfold JsDate.localDay, JsDate.msPerDay.
  pose proof (Z.div_mod (tv + tz) 86400000 ltac:(lia)).
  pose proof (Z.mod_pos_bound (tv + tz) 86400000 ltac:(lia)). lia.
Qed.

(** ** The schedule generator *)

(** The loop over [i] appends the entries of one medication on one day. *)
Lemma pushMedication_entries (zone : JsDate.Zone) (tv : Z) (m : Medication.t)
  (schedule : list MedicationController.ScheduleEvent) :
  MedicationController.pushMedication zone (Some tv) (JsDate.isoDay tv) m schedule
  = Some (schedule ++ map (entryOf zone m tv) (Spec.zrange (Spec.timesPerDay m)))%list.
Proof.
  unfold MedicationController.pushMedication. rewrite times_is_spec.
  set (times := Spec.timesPerDay m).
  set (f := fun k : nat =>
              (Z.of_nat k,
               (schedule ++ map (entryOf zone m tv) (map Z.of_nat (seq 0 k)))%list)).
  assert (H0 : (0, schedule) = f 0%nat).
  { unfold f. simpl. now rewrite app_nil_r. }
  rewrite H0.
  rewrite (for_loop_trajectory _ _ (Z.to_nat times) f).
  - reflexivity.
  - intros k Hk. unfold f. simpl fst. split; [apply Z.ltb_lt; lia|].
    unfold MedicationController.pushDose.
    rewrite zrange_succ, map_app, app_assoc, Nat2Z.inj_succ.
    reflexivity.
  - unfold f. simpl fst. apply Z.ltb_ge. lia.
  - lia.
Qed.

Lemma pushDay_entries (zone : JsDate.Zone) (meds : list Medication.t) (tv : Z)
  (schedule : list MedicationController.ScheduleEvent) :
  MedicationController.pushDay zone meds (Some tv, schedule)
  = Some (JsDate.addDays zone (Some 1) (Some tv),
          (schedule ++
           flat_map (fun m => map (entryOf zone m tv) (Spec.zrange (Spec.timesPerDay m)))
             meds)%list).
Proof.
  unfold MedicationController.pushDay.
  rewrite (forEach_app
             (fun m => map (entryOf zone m tv) (Spec.zrange (Spec.timesPerDay m)))).
  - reflexivity.
  - intros m acc _. apply pushMedication_entries.
Qed.

(** The entries of the days [start], ..., [start] plus [days] days. *)
Lemma day_loop_entries (zone : JsDate.Zone) (tz : Z) (meds : list Medication.t)
  (start days : Z) (fuel : nat) :
  fixedZone zone tz -> inRange start days ->
  (Z.to_nat (days + 1) < fuel)%nat ->
  option_map snd
    (for_loop fuel
       (fun st => JsDate.leb (fst st) (Some (Spec.dayAfter days start)))
       (MedicationController.pushDay zone meds)
       (Some start, []))
  = Some (flat_map
            (fun j =>
               flat_map
                 (fun m => map (entryOf zone m (Spec.dayAfter j start))
                             (Spec.zrange (Spec.timesPerDay m)))
                 meds)
            (Spec.zrange (days + 1))).
Proof.
  intros Hz Hr Hfuel. unfold inRange, JsDate.msPerDay, JsDate.maxTime in Hr.
  set (g := fun j : Z =>
              flat_map (fun m => map (entryOf zone m (Spec.dayAfter j start))
                                   (Spec.zrange (Spec.timesPerDay m))) meds).
  set (f := fun k : nat =>
              (Some (Spec.dayAfter (Z.of_nat k) start),
               flat_map g (map Z.of_nat (seq 0 k)))).
  assert (H0 : (Some start, @nil MedicationController.ScheduleEvent) = f 0%nat).
  { unfold f, Spec.dayAfter. simpl. do 2 f_equal. lia. }
  rewrite H0.
  rewrite (for_loop_trajectory _ _ (Z.to_nat (days + 1)) f).
  - reflexivity.
  - intros k Hk. unfold f. simpl fst. split.
    + simpl. apply Z.leb_le. unfold Spec.dayAfter, JsDate.msPerDay. lia.
    + rewrite pushDay_entries. f_equal. f_equal.
      * rewrite (addDays_fixed zone tz) by exact Hz.
        rewrite TimeClip_valid
          by (unfold Spec.dayAfter, JsDate.msPerDay, JsDate.maxTime; lia).
        f_equal. unfold Spec.dayAfter. lia.
      * rewrite zrange_succ, flat_map_app. simpl. now rewrite app_nil_r.
  - unfold f. simpl. apply Z.leb_gt.
    unfold Spec.dayAfter, JsDate.msPerDay. lia.
  - exact Hfuel.
Qed.

(** What an allowed request answers in a zone that keeps its offset. *)
Lemma generateSchedule_entries (zone : JsDate.Zone) (tz : Z) (user : User.t)
  (days : option (option Z)) (startDate : option JsDate.t)
  (patientId : option string) (now : Z) (db : DB) (n s : Z) :
  MedicationController.denied db user patientId = false ->
  fixedZone zone tz ->
  Js.val_or days (Some 7) = Some n ->
  Js.val_or startDate (JsDate.TimeClip now) = Some s ->
  inRange s n ->
  MedicationController.generateSchedule zone user days startDate patientId now db
  = mkResponse 200 true None
      (Some (flat_map
               (fun j =>
                  flat_map
                    (fun m => map (entryOf zone m (Spec.dayAfter j s))
                                (Spec.zrange (Spec.timesPerDay m)))
                    (MedicationController.activeMedications db
                       (Js.str_or patientId (User.id user))))
               (Spec.zrange (n + 1)))).
Proof.
  intros Hacc Hz Hn Hs Hr. unfold MedicationController.generateSchedule.
  rewrite Hacc, Hn, Hs. cbn [Js.val_or].
  rewrite (addDays_fixed zone tz) by exact Hz.
  rewrite TimeClip_valid
    by (unfold inRange, JsDate.msPerDay, JsDate.maxTime in *; lia).
  pose proof (day_loop_entries zone tz
                (MedicationController.activeMedications db
                   (Js.str_or patientId (User.id user)))
                s n (S (S (Z.to_nat (n + 1)))) Hz Hr ltac:(lia)) as H.
  destruct (for_loop _ _ _ _) as [[d schedule]|]; simpl in H; [|discriminate].
  now injection H as ->.
Qed.

(** In a zone that keeps its offset, and up to 691 doses a day, the
    entry pushed is the entry of the specification. *)
Lemma entryOf_is_spec (zone : JsDate.Zone) (tz : Z) (m : Medication.t) (tv i : Z) :
  fixedZone zone tz ->
  Spec.timesPerDay m <= 691 ->
  0 <= i < Spec.timesPerDay m ->
  Z.abs tv + 2 * JsDate.msPerDay <= JsDate.maxTime ->
  entryOf zone m tv i = Spec.entry tz m tv i.
Proof.
  intros Hz Hk Hi Hr. unfold entryOf, Spec.entry, Spec.scheduledTime.
  rewrite times_is_spec, truncate_hourOfDose by lia.
  pose proof (hourOf_bounds _ _ Hi) as Hh.
  set (h := Spec.hourOf (Spec.timesPerDay m) i) in *.
  rewrite (setHours_fixed zone tz) by exact Hz.
  rewrite setHours_wraps.
  pose proof (localDay_near tz tv) as Hd.
  pose proof (setHours_wraps tz h tv) as Hw.
  unfold JsDate.msPerDay, JsDate.msPerHour, JsDate.maxTime in *.
  rewrite TimeClip_valid by (unfold JsDate.maxTime; lia).
  unfold JsDate.plus.
  rewrite TimeClip_valid by (unfold JsDate.maxTime; lia).
  reflexivity.
Qed.

Lemma zrange_In (n x : Z) : In x (Spec.zrange n) -> 0 <= x < n.
Proof.
  unfold Spec.zrange. intros H. apply in_map_iff in H.
  destruct H as [k [<- Hk]]. apply in_seq in Hk. lia.
Qed.

Lemma flat_map_ext_In {A B : Type} (f g : A -> list B) (l : list A) :
  (forall x, In x l -> f x = g x) -> flat_map f l = flat_map g l.
Proof.
  induction l as [|x l IH]; intros H; simpl; [reflexivity|].
  rewrite (H x (or_introl eq_refl)), IH; [reflexivity|].
  intros y Hy. apply H. now right.
Qed.

(** ** C6: the schedule *)

(** C6, the claim as written fails: the hour is computed on doubles.
    For a medication taken 692 times a day, occurrence 519 falls at hour
    8 + 519 * (24 / 692) = 26 exactly, that is 02:00 on the following
    date; the doubles give 25.999999999999996, [setHours] takes the
    integer part 25 and the entry is at 01:00. *)
Lemma generateSchedule_rounds_hour_down :
  let m := Sample.med 5 692 in
  option_map
    (fun schedule => option_map MedicationController.ev_start (nth_error schedule 519))
    (data (MedicationController.generateSchedule (JsDate.fixedOffset 0)
             Sample.patient_p1 (Some (Some 0)) (Some (Some 0)) None 0 Sample.db_692))
  = Some (Some (Some (25 * JsDate.msPerHour)))
  /\ MedicationController.ev_start (Spec.entry 0 m 0 519)
     = Some (26 * JsDate.msPerHour)
  /\ Spec.hourOf 692 519 = 26
  /\ (8 + 519 * (24 / 692) == 26)%Q.
Proof.
  split; [vm_compute; reflexivity|].
  split; [vm_compute; reflexivity|].
  split; reflexivity.
Qed.

(** C6, amended: on a server whose time zone keeps one offset, for a
    range of dates within the range of time values and active medications
    taken at most 691 times a day: for every calendar date d from
    rangeStart to rangeEnd = rangeStart + days inclusive, the generator
    emits, for each medication with timesPerDay k (1 when unset or zero)
    and each occurrence i in [0, k), exactly one entry, ordered by date,
    then medication, then occurrence.  Its scheduledTime is the local
    date of d at the whole hour h of 8 + i * (24 / k), minutes, seconds
    and milliseconds zeroed, h lying in [8, 32); when h is 24 or more the
    time is on the following calendar date at hour h - 24 (wrap, not
    clamp).  Its windowEnd is scheduledTime plus 30 minutes.  When k
    divides 24, h is 8 + i * (24 / k) exactly. *)
Theorem generateSchedule_matches_spec (zone : JsDate.Zone) (tz : Z) (user : User.t)
  (days : option (option Z)) (startDate : option JsDate.t)
  (patientId : option string) (now : Z) (db : DB) (n s : Z) :
  MedicationController.denied db user patientId = false ->
  fixedZone zone tz ->
  Js.val_or days (Some 7) = Some n ->
  Js.val_or startDate (JsDate.TimeClip now) = Some s ->
  inRange s n ->
  let meds :=
    MedicationController.activeMedications db (Js.str_or patientId (User.id user)) in
  Forall (fun m => Spec.timesPerDay m <= 691) meds ->
  MedicationController.generateSchedule zone user days startDate patientId now db
  = mkResponse 200 true None (Some (Spec.generate tz meds s n))
  /\ (forall m d i,
        0 <= i < Spec.timesPerDay m ->
        let e := Spec.entry tz m d i in
        let h := Spec.hourOf (Spec.timesPerDay m) i in
        8 <= h < 32
        /\ exists t,
             MedicationController.ev_start e = Some t
             /\ JsDate.localDay tz t = JsDate.localDay tz d + (if h <? 24 then 0 else 1)
             /\ JsDate.localMs tz t = (if h <? 24 then h else h - 24) * JsDate.msPerHour
             /\ MedicationController.ev_end e = Some (t + 30 * 60 * 1000)
             /\ MedicationController.ev_medicationId e = Medication.id m)
  /\ (forall k i, 0 < k -> (k | 24) -> Spec.hourOf k i = 8 + i * (24 / k)).
Proof.
  intros Hacc Hz Hn Hs Hr meds Hk. split; [|split].
  - rewrite (generateSchedule_entries zone tz user days startDate patientId now db n s)
      by assumption.
    fold meds. unfold Spec.generate. do 2 f_equal.
    apply flat_map_ext_In. intros j Hj. apply zrange_In in Hj.
    apply flat_map_ext_In. intros m Hm.
    apply map_ext_in. intros i Hi. apply zrange_In in Hi.
    rewrite Forall_forall in Hk.
    apply entryOf_is_spec; [exact Hz | now apply Hk | exact Hi |].
    unfold inRange, Spec.dayAfter, JsDate.msPerDay, JsDate.maxTime in *. lia.
  - intros m d i Hi e h.
    pose proof (hourOf_bounds _ _ Hi) as Hh. fold h in Hh.
    split; [exact Hh|].
    assert (Hdiv : h / 24 = if h <? 24 then 0 else 1).
    { destruct (Z.ltb_spec h 24).
      - apply Z.div_small. lia.
      - symmetry. apply Z.div_unique with (r := h - 24); lia. }
    assert (Hmod : h mod 24 = if h <? 24 then h else h - 24).
    { destruct (Z.ltb_spec h 24).
      - apply Z.mod_small. lia.
      - symmetry. apply Z.mod_unique with (q := 1); lia. }
    assert (Hr' : 0 <= h mod 24 < 24) by (apply Z.mod_pos_bound; lia).
    destruct (atLocal_day tz (JsDate.localDay tz d + h / 24) (h mod 24) Hr')
      as [Hday Hms].
    exists (Spec.scheduledTime tz d (Spec.timesPerDay m) i).
    split; [reflexivity|].
    unfold Spec.scheduledTime. fold h.
    split; [now rewrite Hday, Hdiv|].
    split; [now rewrite Hms, Hmod|].
    split; reflexivity.
  - intros k i Hk' [c Hc]. unfold Spec.hourOf.
    rewrite Hc, Z.div_mul by lia.
    replace (c * k * i) with (c * i * k) by lia.
    rewrite Z.div_mul by lia. lia.
Qed.

Lemma generateSchedule_matches_spec_witness :
  MedicationController.denied (Sample.db_stock 5) Sample.caregiver_c1 (Some "p1") = false
  /\ option_map (map MedicationController.ev_start)
       (data (MedicationController.generateSchedule (JsDate.fixedOffset 3600000)
                Sample.caregiver_c1 (Some (Some 1)) (Some (Some 7200000)) (Some "p1") 0
                (Sample.db_stock 5)))
     = Some [Some 25200000; Some 68400000; Some 111600000; Some 154800000]
  /\ Spec.hourOf 3 2 = 24.
Proof.
  split; [reflexivity|].
  assert (Hz : fixedZone (JsDate.fixedOffset 3600000) 3600000).
  { intros x. split; reflexivity. }
  assert (Hr : inRange 7200000 1).
  { apply Z.leb_le. reflexivity. }
  assert (Hk : Forall (fun m => Spec.timesPerDay m <= 691)
                 (MedicationController.activeMedications (Sample.db_stock 5)
                    (Js.str_or (Some "p1") (User.id Sample.caregiver_c1)))).
  { simpl. constructor; [|constructor]. apply Z.leb_le. reflexivity. }
  pose proof (generateSchedule_matches_spec (JsDate.fixedOffset 3600000) 3600000
                Sample.caregiver_c1 (Some (Some 1)) (Some (Some 7200000)) (Some "p1") 0
                (Sample.db_stock 5) 1 7200000 eq_refl Hz eq_refl eq_refl Hr Hk)
    as H.
  destruct H as (Hgen & _ & _).
  split; [rewrite Hgen; reflexivity|reflexivity].
Defined.

(** * Further properties of the controllers *)

(** ** Two lookups that find the same row *)

Section SameRow.
Context {A : Type} (p q : A -> bool).

(** When [q] is narrower than [p] and the first row [p] selects passes
    [q], both clauses select that row. *)
Lemma find_narrower (l : list A) (x : A) :
  (forall y, q y = true -> p y = true) ->
  find p l = Some x -> q x = true -> find q l = Some x.
Proof.
  intros Hqp. induction l as [|y l IH]; simpl; [discriminate|].
  destruct (p y) eqn:Ep.
  - intros H Hq. injection H as ->. now rewrite Hq.
  - intros H Hq. destruct (q y) eqn:Eq; [|now apply IH].
    apply Hqp in Eq. congruence.
Qed.

Lemma update_first_narrower (f : A -> A) (l : list A) (x : A) :
  (forall y, q y = true -> p y = true) ->
  find p l = Some x -> q x = true ->
  update_first q f l = update_first p f l.
Proof.
  intros Hqp. induction l as [|y l IH]; simpl; [discriminate|].
  destruct (p y) eqn:Ep.
  - intros H Hq. injection H as ->. now rewrite Hq.
  - intros H Hq. destruct (q y) eqn:Eq.
    + apply Hqp in Eq. congruence.
    + f_equal. now apply IH.
Qed.

(** Rewriting the found row twice is rewriting it once with the
    composition. *)
Lemma update_first_twice (f g : A -> A) (l : list A) :
  (forall y, p (f y) = p y) ->
  update_first p g (update_first p f l) = update_first p (fun y => g (f y)) l.
Proof.
  intros Hp. induction l as [|y l IH]; simpl; [reflexivity|].
  destruct (p y) eqn:Ep; simpl.
  - now rewrite Hp, Ep.
  - now rewrite Ep, IH.
Qed.

Lemma update_first_id (f : A -> A) (l : list A) (x : A) :
  find p l = Some x -> f x = x -> update_first p f l = l.
Proof.
  induction l as [|y l IH]; simpl; [discriminate|].
  destruct (p y) eqn:Ep.
  - intros H Hf. injection H as ->. now rewrite Hf.
  - intros H Hf. f_equal. now apply IH.
Qed.

(** The rows that pass a test [c] which the rewriting can only switch
    on are at least as many afterwards. *)
Lemma update_first_count (c : A -> bool) (f : A -> A) (l : list A) :
  (forall y, c y = true -> c (f y) = true) ->
  (List.length (filter c l) <= List.length (filter c (update_first p f l)))%nat.
Proof.
  intros Hc. induction l as [|y l IH]; simpl; [lia|].
  destruct (p y); simpl.
  - destruct (c y) eqn:Ec.
    + rewrite (Hc y Ec). simpl. lia.
    + destruct (c (f y)); simpl; lia.
  - destruct (c y); simpl; lia.
Qed.

End SameRow.

(** ** Reading and writing medications *)

(** X1: [getMedication] returns a medication only under the id of its
    owner, and only to a requester who asks for their own data or passes
    the access gate; otherwise the answer is 403 or 404 and carries no
    data.  A privileged requester who names no patientId is looking among
    their own medications. *)
Theorem getMedication_scoped (user : User.t) (id : string)
  (patientId : option string) (db : DB) :
  let target := Js.str_or patientId (User.id user) in
  let resp := MedicationController.getMedication user id patientId db in
  (status resp = 200%nat
   /\ (target = User.id user
       \/ MedicationController._validateAccess db user target = true)
   /\ exists m,
        data resp = Some m
        /\ In m (medications db)
        /\ Medication.id m = id
        /\ Medication.userId m = target)
  \/ (status resp = 403%nat
      /\ data resp = None
      /\ Js.truthy patientId = true
      /\ MedicationController._validateAccess db user target = false)
  \/ (status resp = 404%nat
      /\ data resp = None
      /\ Forall (fun m => Medication.id m = id -> Medication.userId m <> target)
           (medications db)).
Proof.
  intros target resp. unfold resp, MedicationController.getMedication.
  fold target. unfold MedicationController.denied. fold target.
  destruct (Js.truthy patientId) eqn:Ht; simpl.
  - destruct (MedicationController._validateAccess db user target) eqn:Hv; simpl.
    + destruct (find _ (medications db)) as [m|] eqn:E; simpl.
      * left. apply find_some in E. destruct E as [Hin Hp].
        rewrite andb_true_iff, !String.eqb_eq in Hp.
        split; [reflexivity|]. split; [now right|]. exists m. tauto.
      * right. right. repeat split. apply Forall_forall. intros m Hin Hid Hu.
        pose proof (find_none _ _ E m Hin) as Hn. simpl in Hn.
        rewrite andb_false_iff, !String.eqb_neq in Hn. tauto.
    + right. left. auto.
  - assert (Hself : target = User.id user).
    { unfold target, Js.str_or. destruct patientId as [v|]; [|reflexivity].
      simpl in Ht. destruct (v =? EmptyString)%string; [reflexivity|discriminate]. }
    destruct (find _ (medications db)) as [m|] eqn:E; simpl.
    + left. apply find_some in E. destruct E as [Hin Hp].
      rewrite andb_true_iff, !String.eqb_eq in Hp.
      split; [reflexivity|]. split; [now left|]. exists m. tauto.
    + right. right. repeat split. apply Forall_forall. intros m Hin Hid Hu.
      pose proof (find_none _ _ E m Hin) as Hn. simpl in Hn.
      rewrite andb_false_iff, !String.eqb_neq in Hn. tauto.
Qed.

Lemma find_app_fresh {A : Type} (p : A -> bool) (l : list A) (x : A) :
  (forall y, In y l -> p y = false) -> p x = true ->
  find p (l ++ [x])%list = Some x.
Proof.
  intros Hl Hx. induction l as [|y l IH]; simpl.
  - now rewrite Hx.
  - rewrite (Hl y (or_introl eq_refl)). apply IH.
    intros z Hz. apply Hl. now right.
Qed.

(** X2: a medication created under a key no stored medication has is
    owned by the requester, whatever userId the body names, and the
    requester reads it back unchanged with [getMedication]; when the body
    gives a totalQuantity and no remainingQuantity the stock starts at the
    total. *)
Theorem createMedication_round_trip (dflt : Medication.defaults) (user : User.t)
  (body : Medication.createBody) (newId : string) (db : DB) :
  Forall (fun x => Medication.id x <> Js.val_or (Medication.c_id body) newId)
    (medications db) ->
  let out := MedicationController.createMedication dflt user body newId db in
  exists m,
    fst out = mkResponse 201 true None (Some m)
    /\ medications (snd out) = (medications db ++ [m])%list
    /\ Medication.userId m = User.id user
    /\ MedicationController.getMedication user (Medication.id m) None (snd out)
       = mkResponse 200 true None (Some m)
    /\ (forall q,
          Medication.c_remainingQuantity body = None ->
          Medication.c_totalQuantity body = Some q ->
          Medication.remainingQuantity m = q /\ Medication.totalQuantity m = q).
Proof.
  intros Hfresh out. unfold out, MedicationController.createMedication.
  eexists. split; [reflexivity|]. split; [reflexivity|]. split; [reflexivity|].
  split.
  - unfold MedicationController.getMedication, MedicationController.denied.
    simpl. rewrite find_app_fresh; [reflexivity| |].
    + intros y Hy. rewrite Forall_forall in Hfresh.
      apply andb_false_iff. left. apply String.eqb_neq. now apply Hfresh.
    + simpl. now rewrite !String.eqb_refl.
  - intros q Hr Ht. simpl. rewrite Hr, Ht. simpl. auto.
Qed.

Lemma createMedication_round_trip_witness :
  let out :=
    MedicationController.createMedication Sample.column_defaults Sample.patient_p1
      Sample.create_m9 "m9" (Sample.db_stock 5) in
  let m9 := Medication.mk "m9" "p1" "Zinc" "10" "mg" (Some 2) (Some 60) (Some 60) true in
  Medication.c_userId Sample.create_m9 = Some "someone-else"
  /\ fst out = mkResponse 201 true None (Some m9)
  /\ MedicationController.getMedication Sample.patient_p1 "m9" None (snd out)
     = mkResponse 200 true None (Some m9).
Proof.
  intros out m9.
  assert (Hfresh : Forall (fun x => Medication.id x <> "m9")
                     (medications (Sample.db_stock 5))).
  { repeat constructor. simpl. discriminate. }
  destruct (createMedication_round_trip Sample.column_defaults Sample.patient_p1
              Sample.create_m9 "m9" (Sample.db_stock 5) Hfresh)
    as (m & Hresp & _ & _ & Hget & _).
  assert (Hm : m = m9).
  { change (fst out) with (mkResponse 201 true None (Some m9)) in Hresp.
    now injection Hresp as <-. }
  subst m. split; [reflexivity|]. split; [reflexivity|exact Hget].
Defined.

Lemma ownedBy_byPk (id : string) (user : User.t) (m : Medication.t) :
  MedicationController.ownedBy id user m = true ->
  (Medication.id m =? id)%string = true.
Proof.
  unfold MedicationController.ownedBy. rewrite andb_true_iff. tauto.
Qed.

(** X3: [refillMedication] adds the quantity to the stock of the
    requester's own medication, a null or zero stock counting as zero and
    the quantity being of either sign, and rewrites no other row; a
    requester who owns no medication with that id gets 404 and the store
    is left unchanged. *)
Theorem refillMedication_adds (user : User.t) (id : string) (quantity : Z) (db : DB) :
  let out := MedicationController.refillMedication user id quantity db in
  (exists med,
      find (MedicationController.ownedBy id user) (medications db) = Some med
      /\ status (fst out) = 200%nat
      /\ find (MedicationController.ownedBy id user) (medications (snd out))
         = Some (Medication.set_remainingQuantity
                   (Some (Js.to_number (Medication.remainingQuantity med) + quantity))
                   med)
      /\ List.length (medications (snd out)) = List.length (medications db)
      /\ Forall (fun m => MedicationController.ownedBy id user m = false ->
                          In m (medications (snd out)))
           (medications db))
  \/ (Forall (fun m => Medication.id m = id -> Medication.userId m <> User.id user)
        (medications db)
      /\ status (fst out) = 404%nat
      /\ snd out = db).
Proof.
  intros out. unfold out, MedicationController.refillMedication.
  destruct (find _ (medications db)) as [med|] eqn:E; simpl.
  - left. exists med. split; [reflexivity|]. split; [reflexivity|].
    split; [|split].
    + rewrite find_update_first by reflexivity. rewrite E. simpl.
      do 3 f_equal. unfold Js.num_or, Js.to_number.
      destruct (Medication.remainingQuantity med) as [q|]; [|reflexivity].
      destruct (Z.eqb_spec q 0); congruence.
    + apply update_first_length.
    + apply Forall_forall. intros m Hin Hp. now apply update_first_keeps.
  - right. split; [|auto]. apply Forall_forall. intros m Hin Hid Hu.
    pose proof (find_none _ _ E m Hin) as Hn.
    unfold MedicationController.ownedBy in Hn.
    rewrite andb_false_iff, !String.eqb_neq in Hn. tauto.
Qed.

(** X4: when a patient reports a dose of their own medication as taken
    and then refills it by one, every medication row is as it was before:
    the refill undoes the decrement exactly, also at a stock of 1 or 0. *)
Theorem refill_undoes_taken (user : User.t) (body : AdherenceController.RecordBody)
  (newId : string) (now1 now2 : Z) (db : DB) (k : string) (med : Medication.t)
  (R : Z) :
  AdherenceController.rb_status body = Some "taken" ->
  AdherenceController.rb_medicationId body = Some k ->
  AdherenceController.medicationByPk (Some k) db = Some med ->
  Medication.userId med = User.id user ->
  Medication.remainingQuantity med = Some R ->
  let db1 := snd (AdherenceController.recordAdherence user body newId now1 now2 db) in
  let out := MedicationController.refillMedication user k 1 db1 in
  status (fst out) = 200%nat
  /\ medications (snd out) = medications db.
Proof.
  intros Hs Hk Hmed Hu HR db1 out.
  set (byPk := fun m : Medication.t => (Medication.id m =? k)%string).
  assert (Hm1 : medications db1 = update_first byPk Medication.decrement (medications db)).
  { unfold db1. now rewrite (recordAdherence_taken_stock _ _ _ _ _ _ k Hs Hk). }
  unfold AdherenceController.medicationByPk in Hmed. fold byPk in Hmed.
  assert (Hf1 : find byPk (medications db1) = Some (Medication.decrement med)).
  { rewrite Hm1, find_update_first by reflexivity. now rewrite Hmed. }
  assert (Hown : MedicationController.ownedBy k user (Medication.decrement med) = true).
  { apply find_some in Hmed. destruct Hmed as [_ Hid]. unfold byPk in Hid.
    unfold MedicationController.ownedBy. simpl. rewrite Hid, Hu.
    now rewrite String.eqb_refl. }
  assert (Hf2 : find (MedicationController.ownedBy k user) (medications db1)
                = Some (Medication.decrement med)).
  { apply (find_narrower byPk); auto. intros y. apply ownedBy_byPk. }
  unfold out, MedicationController.refillMedication. rewrite Hf2. simpl.
  split; [reflexivity|].
  rewrite (update_first_narrower byPk _ _ _ (Medication.decrement med));
    auto; [|intros y; apply ownedBy_byPk].
  rewrite Hm1, update_first_twice by reflexivity.
  apply (update_first_id _ _ _ med Hmed).
  unfold Medication.decrement. rewrite HR. simpl.
  unfold Medication.set_remainingQuantity. simpl.
  destruct med as [i u n d du t tq rq a]. simpl in *. subst rq.
  do 2 f_equal. unfold Js.num_or. destruct (Z.eqb_spec (R - 1) 0); lia.
Qed.

Lemma refill_undoes_taken_witness :
  medications
    (snd (MedicationController.refillMedication Sample.patient_p1 "m1" 1
            (snd (AdherenceController.recordAdherence Sample.patient_p1
                    Sample.taken_m1 "a2" 7 8 (Sample.db_two_meds 1)))))
  = medications (Sample.db_two_meds 1).
Proof.
  exact (proj2 (refill_undoes_taken Sample.patient_p1 Sample.taken_m1 "a2" 7 8
                  (Sample.db_two_meds 1) "m1" (Sample.med 1 2) 1
                  eq_refl eq_refl eq_refl eq_refl eq_refl)).
Defined.

Lemma filter_loses_one {A : Type} (p c : A -> bool) (f : A -> A) (l : list A) (x : A) :
  find p l = Some x -> c x = true -> c (f x) = false ->
  S (List.length (filter c (update_first p f l))) = List.length (filter c l).
Proof.
  induction l as [|y l IH]; simpl; [discriminate|].
  destruct (p y) eqn:Ep.
  - intros H Hc Hf. injection H as ->. simpl. now rewrite Hc, Hf.
  - intros H Hc Hf. simpl. destruct (c y); simpl; rewrite <- (IH H Hc Hf); reflexivity.
Qed.

(** X5: deleting a medication is a soft delete.  After the owner deletes
    an active medication no row has been removed, [getMedication] still
    returns the row, now inactive, the owner's active medications (the
    total of [getMedicationStats], the rows of the schedule and of the
    refill list) are one fewer, and deleting again changes nothing. *)
Theorem deleteMedication_is_soft (user : User.t) (id : string) (db : DB)
  (med : Medication.t) :
  find (MedicationController.ownedBy id user) (medications db) = Some med ->
  Medication.isActive med = true ->
  let out := MedicationController.deleteMedication user id db in
  status (fst out) = 200%nat
  /\ List.length (medications (snd out)) = List.length (medications db)
  /\ MedicationController.getMedication user id None (snd out)
     = mkResponse 200 true None (Some (Medication.set_isActive false med))
  /\ S (List.length (MedicationController.activeMedications (snd out) (User.id user)))
     = List.length (MedicationController.activeMedications db (User.id user))
  /\ MedicationController.deleteMedication user id (snd out) = out.
Proof.
  intros Hfind Hact out.
  assert (Hout : out = (mkResponse 200 true (Some "Medication deactivated") None,
                        set_medications
                          (update_first (MedicationController.ownedBy id user)
                             (Medication.set_isActive false) (medications db)) db)).
  { unfold out, MedicationController.deleteMedication. now rewrite Hfind. }
  assert (Hf' : find (MedicationController.ownedBy id user) (medications (snd out))
                = Some (Medication.set_isActive false med)).
  { rewrite Hout. simpl. rewrite find_update_first by reflexivity. now rewrite Hfind. }
  split; [now rewrite Hout|]. split; [rewrite Hout; apply update_first_length|].
  split; [|split].
  - unfold MedicationController.getMedication, MedicationController.denied. simpl.
    change (find (fun m => (Medication.id m =? id)%string
                           && (Medication.userId m =? User.id user)%string)
              (medications (snd out)))
      with (find (MedicationController.ownedBy id user) (medications (snd out))).
    now rewrite Hf'.
  - rewrite Hout. unfold MedicationController.activeMedications. simpl.
    apply (filter_loses_one _ _ _ _ med Hfind).
    + apply find_some in Hfind. destruct Hfind as [_ Hp].
      unfold MedicationController.ownedBy in Hp. rewrite andb_true_iff in Hp.
      destruct Hp as [_ Hu]. now rewrite Hu, Hact.
    + simpl. now rewrite andb_false_r.
  - unfold MedicationController.deleteMedication at 1. rewrite Hf'.
    rewrite (update_first_id _ (Medication.set_isActive false) _ _ Hf' eq_refl).
    rewrite Hout. reflexivity.
Qed.

Lemma deleteMedication_is_soft_witness :
  let out := MedicationController.deleteMedication Sample.patient_p1 "m1"
               (Sample.db_two_meds 5) in
  List.length (medications (snd out)) = 2%nat
  /\ data (MedicationController.getMedicationStats Sample.patient_p1 None
             (Sample.db_two_meds 5))
     = Some (1%nat, 1%nat)
  /\ data (MedicationController.getMedicationStats Sample.patient_p1 None (snd out))
     = Some (0%nat, 0%nat)
  /\ MedicationController.deleteMedication Sample.patient_p1 "m1" (snd out) = out.
Proof.
  intros out.
  destruct (deleteMedication_is_soft Sample.patient_p1 "m1" (Sample.db_two_meds 5)
              (Sample.med 5 2) eq_refl eq_refl)
    as (_ & Hlen & _ & _ & Hagain).
  split; [exact Hlen|]. split; [reflexivity|]. split; [reflexivity|exact Hagain].
Defined.

(** ** Refill alerts under intake *)

Lemma needsRefill_decrement (m : Medication.t) :
  MedicationController.needsRefill m = true ->
  MedicationController.needsRefill (Medication.decrement m) = true.
Proof.
  unfold MedicationController.needsRefill, Medication.decrement, Js.num_or. simpl.
  destruct (Medication.remainingQuantity m) as [q|]; simpl; [|auto].
  destruct (Medication.timesPerDay m) as [k|];
    repeat match goal with
           | |- context [?a =? 0] => destruct (Z.eqb_spec a 0)
           end; rewrite !Z.leb_le; lia.
Qed.

Lemma filter_filter_and {A : Type} (c1 c2 : A -> bool) (l : list A) :
  filter c2 (filter c1 l) = filter (fun x => c1 x && c2 x) l.
Proof.
  induction l as [|x l IH]; simpl; [reflexivity|].
  destruct (c1 x); simpl; [destruct (c2 x)|]; now rewrite IH.
Qed.

Lemma recordAdherence_medications (user : User.t)
  (body : AdherenceController.RecordBody) (newId : string) (now1 now2 : Z) (db : DB) :
  let db' := snd (AdherenceController.recordAdherence user body newId now1 now2 db) in
  users db' = users db
  /\ caregiverPatients db' = caregiverPatients db
  /\ notifications db' = notifications db
  /\ (medications db' = medications db
      \/ exists k,
           medications db'
           = update_first (fun m => (Medication.id m =? k)%string)
               Medication.decrement (medications db)).
Proof.
  unfold AdherenceController.recordAdherence. simpl.
  destruct (AdherenceController.rb_status body) as [s|]; simpl; [|auto].
  destruct (s =? "taken")%string; simpl; [|auto].
  destruct (AdherenceController.rb_medicationId body) as [k|]; simpl; [|auto].
  destruct (find _ (medications db)); simpl; [|auto].
  repeat split. right. now exists k.
Qed.

(** X6: recording an intake never clears a refill alert: for every
    requester and patient the number of medications [getRefillNeeded]
    reports after a [recordAdherence] call is at least the number it
    reported before, and the call never changes whether the request is
    allowed. *)
Theorem recordAdherence_keeps_refill_alerts (user : User.t)
  (body : AdherenceController.RecordBody) (newId : string) (now1 now2 : Z)
  (db : DB) (reader : User.t) (patientId : option string) :
  let db' := snd (AdherenceController.recordAdherence user body newId now1 now2 db) in
  let before := MedicationController.getRefillNeeded reader patientId db in
  let after := MedicationController.getRefillNeeded reader patientId db' in
  status after = status before
  /\ match data before, data after with
     | Some (_, n), Some (_, n') => (n <= n')%nat
     | None, None => True
     | _, _ => False
     end.
Proof.
  intros db' before after.
  destruct (recordAdherence_medications user body newId now1 now2 db)
    as (Hu & Hc & _ & Hm). fold db' in Hu, Hc, Hm.
  assert (Hden : MedicationController.denied db' reader patientId
                 = MedicationController.denied db reader patientId).
  { unfold MedicationController.denied, MedicationController._validateAccess.
    now rewrite Hc. }
  unfold before, after, MedicationController.getRefillNeeded. rewrite Hden.
  destruct (MedicationController.denied db reader patientId); simpl; [auto|].
  split; [reflexivity|].
  unfold MedicationController.activeMedications.
  rewrite !filter_filter_and.
  destruct Hm as [->|[k ->]]; [lia|].
  apply update_first_count. intros y. simpl.
  rewrite !andb_true_iff. intros [Ha Hn]. split; [exact Ha|].
  now apply needsRefill_decrement.
Qed.

(** ** Sorting *)

Section SortBy.
Context {A : Type} (key : A -> Z).

Lemma insert_by_perm (x : A) (l : list A) : Permutation (insert_by key x l) (x :: l).
Proof.
  induction l as [|y l IH]; simpl; [reflexivity|].
  destruct (key y <=? key x); [|reflexivity].
  rewrite IH. apply perm_swap.
Qed.

Lemma sort_by_perm (l : list A) : Permutation (sort_by key l) l.
Proof.
  unfold sort_by.
  assert (H : forall acc, Permutation (fold_left (fun acc x => insert_by key x acc) l acc)
                            (acc ++ l)%list).
  { induction l as [|x l IH]; intros acc; simpl.
    - now rewrite app_nil_r.
    - rewrite IH, insert_by_perm. simpl. apply Permutation_middle. }
  apply (H []).
Qed.

Lemma insert_by_HdRel (a x : A) (l : list A) :
  key a <= key x -> HdRel (key_le key) a l -> HdRel (key_le key) a (insert_by key x l).
Proof.
  intros Hax Hl. destruct l as [|y l]; simpl.
  - now constructor.
  - inversion Hl; subst. destruct (key y <=? key x); now constructor.
Qed.

Lemma insert_by_sorted (x : A) (l : list A) :
  Sorted (key_le key) l -> Sorted (key_le key) (insert_by key x l).
Proof.
  induction l as [|y l IH]; simpl; intros Hs.
  - repeat constructor.
  - inversion Hs; subst. destruct (Z.leb_spec (key y) (key x)).
    + constructor; [now apply IH|]. now apply insert_by_HdRel.
    + constructor; [exact Hs|]. constructor. unfold key_le. lia.
Qed.

Lemma sort_by_sorted (l : list A) : Sorted (key_le key) (sort_by key l).
Proof.
  unfold sort_by.
  assert (H : forall acc, Sorted (key_le key) acc ->
                          Sorted (key_le key)
                            (fold_left (fun acc x => insert_by key x acc) l acc)).
  { induction l as [|x l IH]; intros acc Hacc; simpl; [exact Hacc|].
    apply IH. now apply insert_by_sorted. }
  apply H. constructor.
Qed.

End SortBy.

(** ** Upcoming doses *)

Lemma TimeClip_Some (tv x : Z) : JsDate.TimeClip tv = Some x -> x = tv.
Proof.
  unfold JsDate.TimeClip. destruct (Z.abs tv <=? JsDate.maxTime); congruence.
Qed.

Lemma leb_TimeClip (a b : Z) :
  JsDate.leb (JsDate.TimeClip a) (JsDate.TimeClip b) = true -> a <= b.
Proof.
  unfold JsDate.leb, JsDate.TimeClip.
  destruct (Z.abs a <=? JsDate.maxTime); [|discriminate].
  destruct (Z.abs b <=? JsDate.maxTime); [|discriminate].
  apply Z.leb_le.
Qed.

Lemma forEach_pushUpcoming_eq (now : Z) (limitTime : JsDate.t)
  (meds : list Medication.t) (acc : list MedicationController.UpcomingDose) :
  forEach (MedicationController.pushUpcoming now limitTime) meds acc
  = Some (acc ++
          flat_map (fun m =>
                      if JsDate.leb
                           (JsDate.TimeClip
                              (MedicationController.scheduledTime (upcomingOf now m)))
                           limitTime
                      then [upcomingOf now m] else [])
            meds)%list.
Proof.
  apply forEach_app. intros m a _.
  unfold MedicationController.pushUpcoming, upcomingOf.
  cbn [MedicationController.scheduledTime].
  destruct (JsDate.TimeClip _) as [scheduled|] eqn:E.
  - apply TimeClip_Some in E. subst scheduled.
    destruct (JsDate.leb _ limitTime); [reflexivity | now rewrite app_nil_r].
  - cbn [JsDate.leb]. now rewrite app_nil_r.
Qed.

Lemma getUpcomingDoses_data (user : User.t) (hours : option Z)
  (patientId : option string) (now : Z) (db : DB) :
  MedicationController.denied db user patientId = false ->
  MedicationController.getUpcomingDoses user hours patientId now db
  = mkResponse 200 true None
      (Some (sort_by MedicationController.scheduledTime
               (flat_map
                  (fun m =>
                     if JsDate.leb
                          (JsDate.TimeClip
                             (MedicationController.scheduledTime (upcomingOf now m)))
                          (JsDate.TimeClip (now + Js.val_or hours 24 * 60 * 60 * 1000))
                     then [upcomingOf now m] else [])
                  (MedicationController.activeMedications db
                     (Js.str_or patientId (User.id user)))))).
Proof.
  intros Hacc. unfold MedicationController.getUpcomingDoses.
  rewrite Hacc, forEach_pushUpcoming_eq. reflexivity.
Qed.

Lemma flat_map_at_most_one {A B : Type} (g : A -> list B) (l : list A) :
  (forall x, (List.length (g x) <= 1)%nat) ->
  (List.length (flat_map g l) <= List.length l)%nat.
Proof.
  intros Hg. induction l as [|x l IH]; simpl; [lia|].
  rewrite length_app. specialize (Hg x). lia.
Qed.

(** X7: the doses [getUpcomingDoses] returns are in ascending order of
    scheduledTime, none is later than now plus the window of [hours]
    hours (24 when the query names none), and there is at most one per
    active medication of the patient, each of them carrying the id, the
    name and the stock flag of such a medication. *)
Theorem getUpcomingDoses_sorted_in_window (user : User.t) (hours : option Z)
  (patientId : option string) (now : Z) (db : DB) :
  MedicationController.denied db user patientId = false ->
  let meds :=
    MedicationController.activeMedications db (Js.str_or patientId (User.id user)) in
  exists doses,
    MedicationController.getUpcomingDoses user hours patientId now db
    = mkResponse 200 true None (Some doses)
    /\ Sorted (key_le MedicationController.scheduledTime) doses
    /\ (List.length doses <= List.length meds)%nat
    /\ Forall (fun d =>
                 MedicationController.scheduledTime d
                 <= now + Js.val_or hours 24 * 60 * 60 * 1000
                 /\ exists m,
                      In m meds
                      /\ MedicationController.medicationId d = Medication.id m
                      /\ MedicationController.medicationName d = Medication.name m
                      /\ MedicationController.isRefillDue d
                         = (Js.to_number (Medication.remainingQuantity m) <? 10))
         doses.
Proof.
  intros Hacc meds. eexists. split; [now apply getUpcomingDoses_data|].
  fold meds. split; [apply sort_by_sorted|]. split.
  - rewrite (Permutation_length (sort_by_perm _ _)).
    apply flat_map_at_most_one. intros m.
    match goal with |- context [if ?c then _ else _] => destruct c end; simpl; lia.
  - apply Forall_forall. intros d Hd.
    apply (Permutation_in _ (sort_by_perm _ _)) in Hd.
    apply in_flat_map in Hd. destruct Hd as [m [Hm Hd]].
    destruct (JsDate.leb _ _) eqn:Hle; [|destruct Hd].
    apply leb_TimeClip in Hle.
    destruct Hd as [<-|[]]. split; [exact Hle|]. exists m. auto.
Qed.

Lemma getUpcomingDoses_sorted_in_window_witness :
  MedicationController.denied (Sample.db_two_meds 5) Sample.patient_p1 None = false
  /\ exists doses,
       MedicationController.getUpcomingDoses Sample.patient_p1 (Some 6) None 1000
         (Sample.db_two_meds 5)
       = mkResponse 200 true None (Some doses)
       /\ (List.length doses <= 1)%nat.
Proof.
  split; [reflexivity|].
  destruct (getUpcomingDoses_sorted_in_window Sample.patient_p1 (Some 6) None 1000
              (Sample.db_two_meds 5) eq_refl)
    as (doses & Hresp & _ & Hlen & _).
  exists doses. split; [exact Hresp | exact Hlen].
Defined.

Lemma to_integer_next_dose (now k : Z) :
  0 <= now -> 0 < k ->
  Js.to_integer (inject_Z now + (24 / inject_Z k) * inject_Z (60 * 60 * 1000))%Q
  = now + 86400000 / k.
Proof.
  intros Hn Hk.
  assert (Hne : ~ (inject_Z k == 0)%Q).
  { intro H. unfold Qeq in H. simpl in H. lia. }
  assert (Hq : (inject_Z now + (24 / inject_Z k) * inject_Z (60 * 60 * 1000)
                == inject_Z (now * k + 86400000) / inject_Z k)%Q).
  { change (inject_Z (60 * 60 * 1000)) with 3600000%Q.
    rewrite inject_Z_plus, inject_Z_mult.
    change (inject_Z 86400000) with 86400000%Q. now field. }
  assert (Hfloor : Qfloor (inject_Z now + (24 / inject_Z k) * inject_Z (60 * 60 * 1000))%Q
                   = now + 86400000 / k).
  { rewrite (Qfloor_comp _ _ Hq), <- Zdiv_Qdiv. now rewrite Z.div_add_l by lia. }
  unfold Js.to_integer.
  match goal with |- context [Qle_bool 0 ?q] => destruct (Qle_bool 0 q) eqn:E end;
    [exact Hfloor|].
  exfalso.
  assert (Hle : (0 <= inject_Z now + (24 / inject_Z k) * inject_Z (60 * 60 * 1000))%Q).
  { rewrite Hq. apply Qle_shift_div_l.
    - change 0%Q with (inject_Z 0). rewrite <- Zlt_Qlt. exact Hk.
    - rewrite Qmult_0_l. change 0%Q with (inject_Z 0). rewrite <- Zle_Qle. nia. }
  apply Qle_bool_iff in Hle. congruence.
Qed.

(** X8: with a window of 24 hours or more (the default) that ends
    within the range of time values, a clock that is not before the epoch
    and no negative timesPerDay, every active medication of the patient
    has exactly one upcoming dose, and every dose lies between now and
    now plus 24 hours. *)
Theorem getUpcomingDoses_lists_every_medication (user : User.t) (hours : option Z)
  (patientId : option string) (now : Z) (db : DB) :
  MedicationController.denied db user patientId = false ->
  0 <= now ->
  24 <= Js.val_or hours 24 ->
  now + Js.val_or hours 24 * 60 * 60 * 1000 <= JsDate.maxTime ->
  Forall (fun m => 0 < Spec.timesPerDay m) (medications db) ->
  let meds :=
    MedicationController.activeMedications db (Js.str_or patientId (User.id user)) in
  exists doses,
    MedicationController.getUpcomingDoses user hours patientId now db
    = mkResponse 200 true None (Some doses)
    /\ Permutation (map MedicationController.medicationId doses)
         (map Medication.id meds)
    /\ Forall (fun d => now <= MedicationController.scheduledTime d <= now + 86400000)
         doses.
Proof.
  intros Hacc Hnow Hh Hmax Hk meds.
  eexists. split; [now apply getUpcomingDoses_data|]. fold meds.
  assert (Hmeds : Forall (fun m => 0 < Spec.timesPerDay m) meds).
  { apply Forall_forall. intros m Hm. rewrite Forall_forall in Hk.
    apply Hk. eapply activeMedications_In, Hm. }
  assert (Ht : forall m, 0 < Spec.timesPerDay m ->
                 MedicationController.scheduledTime (upcomingOf now m)
                 = now + 86400000 / Spec.timesPerDay m).
  { intros m Hm. unfold upcomingOf. cbn [MedicationController.scheduledTime].
    rewrite times_is_spec. now apply to_integer_next_dose. }
  assert (Hq : forall m, 0 < Spec.timesPerDay m ->
                 0 <= 86400000 / Spec.timesPerDay m <= 86400000).
  { intros m Hm. split; [apply Z.div_pos; lia|].
    apply Z.div_le_upper_bound; nia. }
  assert (Hall : flat_map
                   (fun m =>
                      if JsDate.leb
                           (JsDate.TimeClip
                              (MedicationController.scheduledTime (upcomingOf now m)))
                           (JsDate.TimeClip (now + Js.val_or hours 24 * 60 * 60 * 1000))
                      then [upcomingOf now m] else [])
                   meds
                 = map (upcomingOf now) meds).
  { rewrite (TimeClip_valid (now + Js.val_or hours 24 * 60 * 60 * 1000))
      by (unfold JsDate.maxTime in *; lia).
    clearbody meds. induction meds as [|m meds IH]; [reflexivity|].
    inversion Hmeds as [|? ? Hm Hrest]; subst. cbn [flat_map map].
    rewrite (Ht m Hm). specialize (Hq m Hm).
    assert (Hle : now + 86400000 / Spec.timesPerDay m
                  <= now + Js.val_or hours 24 * 60 * 60 * 1000) by lia.
    rewrite (TimeClip_valid (now + 86400000 / Spec.timesPerDay m))
      by (unfold JsDate.maxTime in *; lia).
    cbn [JsDate.leb].
    apply Z.leb_le in Hle. rewrite Hle. cbn [app]. f_equal. now apply IH. }
  rewrite Hall. split.
  - rewrite (Permutation_map _ (sort_by_perm _ _)), map_map. reflexivity.
  - apply Forall_forall. intros d Hd.
    apply (Permutation_in _ (sort_by_perm _ _)) in Hd.
    apply in_map_iff in Hd. destruct Hd as [m [<- Hm]].
    rewrite Forall_forall in Hmeds. specialize (Hmeds m Hm).
    rewrite (Ht m Hmeds). specialize (Hq m Hmeds). lia.
Qed.

Lemma getUpcomingDoses_lists_every_medication_witness :
  option_map (map MedicationController.medicationId)
    (data (MedicationController.getUpcomingDoses Sample.caregiver_c1 None
             (Some "p1") 1000 (Sample.db_two_meds 5)))
  = Some ["m1"].
Proof.
  assert (Hk : Forall (fun m => 0 < Spec.timesPerDay m)
                 (medications (Sample.db_two_meds 5))).
  { repeat constructor. }
  assert (Hnow : 0 <= 1000) by lia.
  assert (Hh : 24 <= Js.val_or None 24) by (simpl; lia).
  assert (Hmax : 1000 + Js.val_or None 24 * 60 * 60 * 1000 <= JsDate.maxTime).
  { apply Z.leb_le. reflexivity. }
  destruct (getUpcomingDoses_lists_every_medication Sample.caregiver_c1 None
              (Some "p1") 1000 (Sample.db_two_meds 5) eq_refl Hnow Hh Hmax Hk)
    as (doses & Hresp & Hperm & _).
  rewrite Hresp. simpl. f_equal.
  now apply Permutation_sym, Permutation_length_1_inv in Hperm.
Defined.

(** ** The size of the schedule and its virtual ids *)

Lemma zrange_length (n : Z) : List.length (Spec.zrange n) = Z.to_nat n.
Proof. unfold Spec.zrange. now rewrite length_map, length_seq. Qed.

Lemma NoDup_map_injective {A B : Type} (f : A -> B) (l : list A) :
  (forall a b, f a = f b -> a = b) -> NoDup l -> NoDup (map f l).
Proof.
  intros Hf. induction 1 as [|x l Hnot Hnd IH]; simpl; constructor; [|exact IH].
  intro Hin. apply in_map_iff in Hin. destruct Hin as [y [Hy Hin]].
  apply Hf in Hy. now subst.
Qed.

Lemma zrange_NoDup (n : Z) : NoDup (Spec.zrange n).
Proof.
  unfold Spec.zrange. apply NoDup_map_injective; [|apply seq_NoDup].
  intros a b. apply Nat2Z.inj.
Qed.

Lemma flat_map_length_const {A B : Type} (g : A -> list B) (l : list A) (n : nat) :
  (forall x, List.length (g x) = n) ->
  List.length (flat_map g l) = (List.length l * n)%nat.
Proof.
  intros Hg. induction l as [|x l IH]; simpl; [reflexivity|].
  rewrite length_app, Hg, IH. reflexivity.
Qed.

Lemma flat_map_length_sum {A B : Type} (g : A -> list B) (l : list A) :
  List.length (flat_map g l) = list_sum (map (fun x => List.length (g x)) l).
Proof.
  induction l as [|x l IH]; simpl; [reflexivity|].
  now rewrite length_app, IH.
Qed.

Lemma map_flat_map_comm {A B C : Type} (f : B -> C) (g : A -> list B) (l : list A) :
  map f (flat_map g l) = flat_map (fun x => map f (g x)) l.
Proof.
  induction l as [|x l IH]; simpl; [reflexivity|].
  now rewrite map_app, IH.
Qed.

(** Lists built from distinct tags, each element carrying the tag of
    the piece it comes from, have no repetition. *)
Lemma NoDup_flat_map_tagged {A B T : Type} (tag : B -> T) (k : A -> T)
  (g : A -> list B) (l : list A) :
  NoDup (map k l) ->
  (forall x, In x l -> NoDup (g x)) ->
  (forall x b, In x l -> In b (g x) -> tag b = k x) ->
  NoDup (flat_map g l).
Proof.
  induction l as [|x l IH]; simpl; intros Hk Hg Htag; [constructor|].
  inversion Hk as [|? ? Hnot Hk']; subst.
  apply NoDup_app; [now apply Hg; left | apply IH; auto|].
  intros b Hb Hb'. apply in_flat_map in Hb'. destruct Hb' as [y [Hy Hby]].
  apply Hnot. rewrite <- (Htag x b (or_introl eq_refl) Hb).
  rewrite (Htag y b (or_intror Hy) Hby). now apply in_map.
Qed.

Lemma isoDay_dayAfter (j start : Z) :
  JsDate.isoDay (Spec.dayAfter j start) = JsDate.isoDay start + j.
Proof.
  unfold JsDate.isoDay, Spec.dayAfter, JsDate.msPerDay.
  now rewrite Z.div_add by lia.
Qed.

(** X9: on a server whose time zone keeps one offset, and for a range
    of dates within the range of time values, an allowed schedule request
    returns (days + 1) times the sum of the active medications'
    timesPerDay entries (none when days is negative or no medication is
    active, and a negative timesPerDay contributes none); when the
    medications have distinct ids the virtual ids of the entries are
    pairwise distinct. *)
Theorem generateSchedule_size_and_ids (zone : JsDate.Zone) (tz : Z) (user : User.t)
  (days : option (option Z)) (startDate : option JsDate.t)
  (patientId : option string) (now : Z) (db : DB) (n s : Z) :
  MedicationController.denied db user patientId = false ->
  NoDup (map Medication.id (medications db)) ->
  fixedZone zone tz ->
  Js.val_or days (Some 7) = Some n ->
  Js.val_or startDate (JsDate.TimeClip now) = Some s ->
  inRange s n ->
  let meds :=
    MedicationController.activeMedications db (Js.str_or patientId (User.id user)) in
  exists schedule,
    MedicationController.generateSchedule zone user days startDate patientId now db
    = mkResponse 200 true None (Some schedule)
    /\ List.length schedule
       = Nat.mul (Z.to_nat (n + 1))
           (list_sum (map (fun m => Z.to_nat (Spec.timesPerDay m)) meds))
    /\ NoDup (map MedicationController.ev_id schedule).
Proof.
  intros Hacc Hpk Hz Hn Hs Hr meds. eexists.
  split;
    [apply (generateSchedule_entries zone tz user days startDate patientId now db n s);
     assumption|].
  fold meds. split.
  - rewrite (flat_map_length_const _ _
               (list_sum (map (fun m => Z.to_nat (Spec.timesPerDay m)) meds))).
    + now rewrite zrange_length.
    + intros j. rewrite flat_map_length_sum. f_equal.
      apply map_ext. intros m. now rewrite length_map, zrange_length.
  - assert (Hmeds : NoDup (map Medication.id meds)).
    { unfold meds, MedicationController.activeMedications.
      clear -Hpk. induction (medications db) as [|m l IH]; simpl; [constructor|].
      inversion Hpk as [|? ? Hnot Hpk']; subst.
      match goal with |- context [if ?c then _ else _] => destruct c end;
        [|now apply IH].
      simpl. constructor; [|now apply IH].
      intro Hin. apply Hnot. apply in_map_iff in Hin.
      destruct Hin as [x [Hx Hin]]. apply filter_In in Hin.
      rewrite <- Hx. apply in_map. tauto. }
    rewrite map_flat_map_comm.
    apply (NoDup_flat_map_tagged (fun id => snd (fst id))
             (fun j => JsDate.isoDay s + j)).
    + apply NoDup_map_injective; [|apply zrange_NoDup].
      intros a b. lia.
    + intros j _. rewrite map_flat_map_comm.
      apply (NoDup_flat_map_tagged (fun id => fst (fst id)) Medication.id);
        [exact Hmeds| |].
      * intros m _. rewrite map_map. simpl.
        apply NoDup_map_injective; [|apply zrange_NoDup].
        intros a b H. now injection H.
      * intros m b _ Hb. rewrite map_map in Hb. apply in_map_iff in Hb.
        destruct Hb as [i [<- _]]. reflexivity.
    + intros j b _ Hb. rewrite map_flat_map_comm in Hb.
      apply in_flat_map in Hb. destruct Hb as [m [_ Hb]].
      rewrite map_map in Hb. apply in_map_iff in Hb.
      destruct Hb as [i [<- _]]. simpl. apply isoDay_dayAfter.
Qed.

Lemma generateSchedule_size_and_ids_witness :
  option_map (@List.length MedicationController.ScheduleEvent)
    (data (MedicationController.generateSchedule (JsDate.fixedOffset 0)
             Sample.patient_p1 (Some (Some 2)) (Some (Some 0)) None 0
             (Sample.db_two_meds 5)))
  = Some 6%nat.
Proof.
  assert (Hpk : NoDup (map Medication.id (medications (Sample.db_two_meds 5)))).
  { simpl. repeat constructor; simpl; intuition discriminate. }
  assert (Hz : fixedZone (JsDate.fixedOffset 0) 0).
  { intros x. split; reflexivity. }
  assert (Hr : inRange 0 2).
  { apply Z.leb_le. reflexivity. }
  destruct (generateSchedule_size_and_ids (JsDate.fixedOffset 0) 0 Sample.patient_p1
              (Some (Some 2)) (Some (Some 0)) None 0 (Sample.db_two_meds 5) 2 0
              eq_refl Hpk Hz eq_refl eq_refl Hr)
    as (schedule & Hresp & Hlen & _).
  rewrite Hresp. simpl. f_equal. exact Hlen.
Defined.

(** Where the offset of the zone changes, the loop steps through local
    days while the day in a virtual id is the UTC day: over the change of
    2024-03-31 the second and the third day of the range (start
    2024-03-30T00:30Z, two days on) carry the same day, and the virtual
    ids repeat. *)
Example generateSchedule_ids_repeat_where_offset_changes :
  option_map (map MedicationController.ev_id)
    (data (MedicationController.generateSchedule Sample.zone_dst Sample.patient_p1
             (Some (Some 2)) (Some (Some 1711758600000)) None 0 (Sample.db_stock 5)))
  = Some [("m1", 19812, 0); ("m1", 19812, 1);
          ("m1", 19813, 0); ("m1", 19813, 1);
          ("m1", 19813, 0); ("m1", 19813, 1)].
Proof. vm_compute. reflexivity. Qed.

(** ** Adherence statistics *)

Lemma filter_length_le {A : Type} (p : A -> bool) (l : list A) :
  (List.length (filter p l) <= List.length l)%nat.
Proof.
  induction l as [|x l IH]; simpl; [lia|]. destruct (p x); simpl; lia.
Qed.

Lemma three_counts {A : Type} (p1 p2 p3 : A -> bool) (l : list A) :
  (forall x, p1 x = true -> p2 x = false /\ p3 x = false) ->
  (forall x, p2 x = true -> p3 x = false) ->
  (List.length (filter p1 l) + List.length (filter p2 l) + List.length (filter p3 l)
   <= List.length l)%nat.
Proof.
  intros H1 H2. induction l as [|x l IH]; simpl; [lia|].
  destruct (p1 x) eqn:E1.
  - destruct (H1 x E1) as [-> ->]. simpl. lia.
  - destruct (p2 x) eqn:E2.
    + rewrite (H2 x E2). simpl. lia.
    + destruct (p3 x); simpl; lia.
Qed.

Lemma hasStatus_one (s t : string) (r : Adherence.t) :
  s <> t -> AdherenceController.hasStatus s r = true ->
  AdherenceController.hasStatus t r = false.
Proof.
  unfold AdherenceController.hasStatus. intros Hst.
  destruct (Adherence.status r) as [v|]; [|discriminate].
  rewrite String.eqb_eq. intros ->. now apply String.eqb_neq.
Qed.

(** X10: [getAdherenceStats] validates access on every request, also
    one for the requester's own data, and answers 403 without data when
    it fails.  Otherwise the counts satisfy taken + missed + skipped <=
    total (a record with another or no status is counted in the total
    only), the rate is 0 when no record falls in the window, whatever the
    rounding, and the period is the one asked for, "month" by default. *)
Theorem getAdherenceStats_counts (roundPercent : nat -> nat -> Z) (user : User.t)
  (startDate endDate : option Z) (period patientId : option string) (now : Z)
  (db : DB) :
  let target := Js.str_or patientId (User.id user) in
  let resp :=
    AdherenceController.getAdherenceStats roundPercent user startDate endDate
      period patientId now db in
  (AdherenceController._validateAccess db user target = false
   /\ resp = fail_with 403 "Access denied to patient data.")
  \/ (AdherenceController._validateAccess db user target = true
      /\ exists st,
           resp = mkResponse 200 true None (Some st)
           /\ (AdherenceController.st_taken st + AdherenceController.st_missed st
               + AdherenceController.st_skipped st
               <= AdherenceController.st_total st)%nat
           /\ (AdherenceController.st_total st = 0%nat ->
               AdherenceController.st_rate st = 0)
           /\ AdherenceController.st_period st = Js.val_or period "month").
Proof.
  intros target resp. unfold resp, AdherenceController.getAdherenceStats.
  fold target.
  destruct (AdherenceController._validateAccess db user target); simpl;
    [right|left; auto].
  split; [reflexivity|]. eexists. split; [reflexivity|]. simpl.
  split; [|split; [|reflexivity]].
  - apply three_counts.
    + intros r Hr. split; eapply hasStatus_one; try exact Hr; discriminate.
    + intros r Hr. eapply hasStatus_one; try exact Hr; discriminate.
  - intros H0. unfold AdherenceController.rateOf. now rewrite H0.
Qed.

(** X11: an intake a patient records without a takenAt, read at clock
    value t1, is counted by the patient's own default statistics at every
    later time up to 30 days after t1: the total grows by one, and so does
    the taken count exactly when the stored status is "taken". *)
Theorem recordAdherence_counted_in_stats (roundPercent : nat -> nat -> Z)
  (user : User.t) (body : AdherenceController.RecordBody) (newId : string)
  (t1 t2 now : Z) (period : option string) (db : DB) :
  AdherenceController.rb_takenAt body = None ->
  t1 <= now <= t1 + 30 * 24 * 60 * 60 * 1000 ->
  let db' := snd (AdherenceController.recordAdherence user body newId t1 t2 db) in
  let stats := fun d =>
    data (AdherenceController.getAdherenceStats roundPercent user None None
            period None now d) in
  exists st st',
    stats db = Some st /\ stats db' = Some st'
    /\ AdherenceController.st_total st' = S (AdherenceController.st_total st)
    /\ AdherenceController.st_taken st'
       = ((if (Js.str_or (AdherenceController.rb_status body) "taken" =? "taken")%string
           then 1 else 0)
          + AdherenceController.st_taken st)%nat.
Proof.
  intros Hta Hnow db' stats.
  destruct (recordAdherence_medications user body newId t1 t2 db)
    as (_ & Hc & _ & _). fold db' in Hc.
  assert (Hself : forall d, AdherenceController._validateAccess d user (User.id user) = true).
  { intros d. unfold AdherenceController._validateAccess. now rewrite String.eqb_refl. }
  unfold stats, AdherenceController.getAdherenceStats. simpl.
  rewrite !Hself. simpl. do 2 eexists. split; [reflexivity|]. split; [reflexivity|].
  simpl. unfold db'. rewrite recordAdherence_creates.
  rewrite !filter_app, !length_app. simpl. rewrite Hta. simpl.
  rewrite String.eqb_refl. simpl.
  assert (Hin : (now - 2592000000 <=? t1) && (t1 <=? now) = true).
  { apply andb_true_iff. rewrite !Z.leb_le. lia. }
  rewrite Hin. simpl. split; [lia|].
  unfold AdherenceController.hasStatus at 2. simpl.
  destruct (Js.str_or (AdherenceController.rb_status body) "taken" =? "taken")%string;
    simpl; lia.
Qed.

Lemma recordAdherence_counted_in_stats_witness :
  let stats := fun d =>
    option_map AdherenceController.st_total
      (data (AdherenceController.getAdherenceStats (fun _ _ => 0) Sample.patient_p1
               None None None None 2000 d)) in
  stats (Sample.db_stock 5) = Some 1%nat
  /\ stats (snd (AdherenceController.recordAdherence Sample.patient_p1
                   Sample.unspecified_m1 "a2" 1500 1500 (Sample.db_stock 5)))
     = Some 2%nat.
Proof.
  intros stats.
  assert (Hnow : 1500 <= 2000 <= 1500 + 30 * 24 * 60 * 60 * 1000) by lia.
  destruct (recordAdherence_counted_in_stats (fun _ _ => 0) Sample.patient_p1
              Sample.unspecified_m1 "a2" 1500 1500 2000 None (Sample.db_stock 5)
              eq_refl Hnow)
    as (st & st' & H & H' & Htot & _).
  assert (H1 : AdherenceController.st_total st = 1%nat).
  { injection H as <-. reflexivity. }
  unfold stats. rewrite H, H'. simpl. rewrite Htot, H1. split; reflexivity.
Defined.

(** ** Adherence trends *)

Section Touch.
Context (date : Z) (f : AdherenceController.Bucket -> AdherenceController.Bucket).
Hypothesis f_date : forall b, AdherenceController.b_date (f b) = AdherenceController.b_date b.

Lemma touch_dates (P : Z -> Prop) (acc : list AdherenceController.Bucket) :
  Forall P (map AdherenceController.b_date acc) -> P date ->
  Forall P (map AdherenceController.b_date (AdherenceController.touch date f acc)).
Proof.
  intros Hacc Hd. induction acc as [|b acc IH]; simpl.
  - constructor; [now rewrite f_date|constructor].
  - inversion Hacc; subst.
    destruct (AdherenceController.b_date b =? date); simpl; constructor; auto.
    now rewrite f_date.
Qed.

Lemma touch_sorted (acc : list AdherenceController.Bucket) :
  StronglySorted Z.lt (map AdherenceController.b_date acc) ->
  Forall (fun d => d <= date) (map AdherenceController.b_date acc) ->
  StronglySorted Z.lt
    (map AdherenceController.b_date (AdherenceController.touch date f acc)).
Proof.
  induction acc as [|b acc IH]; simpl; intros Hs Hle.
  - repeat constructor.
  - inversion Hs; subst. inversion Hle; subst.
    destruct (Z.eqb_spec (AdherenceController.b_date b) date); simpl.
    + rewrite f_date. now constructor.
    + constructor; [now apply IH|].
      apply touch_dates; [assumption|lia].
Qed.

Lemma touch_Forall (G : AdherenceController.Bucket -> Prop)
  (acc : list AdherenceController.Bucket) :
  Forall G acc -> (forall b, G b -> G (f b)) ->
  G (f (AdherenceController.mkBucket date 0 0 0)) ->
  Forall G (AdherenceController.touch date f acc).
Proof.
  intros Hacc Hf H0. induction acc as [|b acc IH]; simpl.
  - now repeat constructor.
  - inversion Hacc; subst.
    destruct (AdherenceController.b_date b =? date); constructor; auto.
Qed.

Lemma touch_total (acc : list AdherenceController.Bucket) :
  (forall b, AdherenceController.b_total (f b) = S (AdherenceController.b_total b)) ->
  list_sum (map AdherenceController.b_total (AdherenceController.touch date f acc))
  = S (list_sum (map AdherenceController.b_total acc)).
Proof.
  intros Hf. induction acc as [|b acc IH]; simpl.
  - now rewrite Hf.
  - destruct (AdherenceController.b_date b =? date); simpl.
    + now rewrite Hf.
    + rewrite IH. lia.
Qed.

End Touch.

Lemma dateOf_mono (r r' : Adherence.t) :
  Js.to_number (Adherence.takenAt r) <= Js.to_number (Adherence.takenAt r') ->
  AdherenceController.dateOf r <= AdherenceController.dateOf r'.
Proof.
  unfold AdherenceController.dateOf, JsDate.isoDay, JsDate.msPerDay. intros H.
  apply Z.div_le_mono; lia.
Qed.

Lemma reduce_countRecord (records : list Adherence.t) :
  forall acc,
    StronglySorted (key_le (fun r => Js.to_number (Adherence.takenAt r))) records ->
    StronglySorted Z.lt (map AdherenceController.b_date acc) ->
    (forall r, In r records ->
               Forall (fun d => d <= AdherenceController.dateOf r)
                 (map AdherenceController.b_date acc)) ->
    Forall bucket_ok acc ->
    let trends := fold_left AdherenceController.countRecord records acc in
    StronglySorted Z.lt (map AdherenceController.b_date trends)
    /\ Forall bucket_ok trends
    /\ list_sum (map AdherenceController.b_total trends)
       = (list_sum (map AdherenceController.b_total acc) + List.length records)%nat.
Proof.
  induction records as [|r records IH]; intros acc Hrec Hs Hle Hok; simpl.
  - repeat split; auto.
  - inversion Hrec as [|? ? Hrec' Hhd]; subst.
    unfold AdherenceController.countRecord at 2 4 6.
    set (f := fun b => AdherenceController.mkBucket _ _ _ _).
    assert (Hfd : forall b, AdherenceController.b_date (f b) = AdherenceController.b_date b)
      by reflexivity.
    destruct (IH (AdherenceController.touch (AdherenceController.dateOf r) f acc))
      as (H1 & H2 & H3); auto.
    + apply touch_sorted; auto. apply Hle. now left.
    + intros r' Hr'. apply touch_dates; auto.
      * apply Hle. now right.
      * apply dateOf_mono. rewrite Forall_forall in Hhd. now apply Hhd.
    + apply touch_Forall; auto.
      * intros b [Hb1 Hb2]. unfold bucket_ok, f. simpl.
        destruct (AdherenceController.hasStatus "taken" r) eqn:Et.
        -- rewrite (hasStatus_one "taken" "missed" r) by (auto; discriminate). lia.
        -- destruct (AdherenceController.hasStatus "missed" r); lia.
      * unfold bucket_ok, f. simpl.
        destruct (AdherenceController.hasStatus "taken" r) eqn:Et.
        -- rewrite (hasStatus_one "taken" "missed" r) by (auto; discriminate). lia.
        -- destruct (AdherenceController.hasStatus "missed" r); lia.
    + repeat split; auto. rewrite H3, touch_total by reflexivity. lia.
Qed.

(** X12: on a server whose time zone keeps one offset, and when now and
    now minus [days] days (30 by default) are within the range of time
    values, an allowed [getAdherenceTrends] request returns one entry per
    day on which the patient has a record in the window, in strictly
    ascending order of date (so no date twice and no empty day); every
    entry has total >= 1 and taken + missed <= total, and the totals add
    up to the number of the patient's records whose takenAt is not before
    now minus [days] days.  A request that fails the access gate gets 403
    without data. *)
Theorem getAdherenceTrends_buckets (roundPercent : nat -> nat -> Z)
  (zone : JsDate.Zone) (tz : Z) (user : User.t) (days : option (option Z))
  (patientId : option string) (now : Z) (db : DB) (n : Z) :
  fixedZone zone tz ->
  Js.val_or days (Some 30) = Some n ->
  Z.abs now <= JsDate.maxTime ->
  Z.abs (now - n * JsDate.msPerDay) <= JsDate.maxTime ->
  let target := Js.str_or patientId (User.id user) in
  let resp :=
    AdherenceController.getAdherenceTrends roundPercent zone user days patientId
      now db in
  (AdherenceController._validateAccess db user target = false
   /\ resp = Some (fail_with 403 "Access denied."))
  \/ (AdherenceController._validateAccess db user target = true
      /\ exists trends,
           resp = Some (mkResponse 200 true None (Some trends))
           /\ StronglySorted Z.lt (map AdherenceController.t_date trends)
           /\ Forall (fun t =>
                        (1 <= AdherenceController.t_total t)%nat
                        /\ (AdherenceController.t_taken t + AdherenceController.t_missed t
                            <= AdherenceController.t_total t)%nat)
                trends
           /\ list_sum (map AdherenceController.t_total trends)
              = List.length
                  (filter (fun r =>
                             (Adherence.userId r =? target)%string
                             && AdherenceController.since
                                  (now - n * JsDate.msPerDay)
                                  (Adherence.takenAt r))
                     (adherences db))).
Proof.
  intros Hz Hn Hnow Hstart target resp.
  unfold resp, AdherenceController.getAdherenceTrends.
  fold target. rewrite Hn.
  destruct (AdherenceController._validateAccess db user target); simpl negb; cbv iota;
    [right|left; auto].
  split; [reflexivity|].
  rewrite (TimeClip_valid now) by exact Hnow. cbn [option_map].
  rewrite (addDays_fixed zone tz) by exact Hz.
  replace (now + - n * JsDate.msPerDay) with (now - n * JsDate.msPerDay) by lia.
  rewrite TimeClip_valid by exact Hstart.
  eexists. split; [reflexivity|].
  set (stored := filter _ (adherences db)).
  set (key := fun r : Adherence.t => Js.to_number (Adherence.takenAt r)).
  destruct (reduce_countRecord (sort_by key stored) []) as (H1 & H2 & H3).
  - apply Sorted_StronglySorted; [|apply sort_by_sorted].
    intros a b c. unfold key_le. lia.
  - constructor.
  - intros r _. constructor.
  - constructor.
  - split; [|split].
    + rewrite map_map. exact H1.
    + apply Forall_map. exact H2.
    + rewrite map_map.
      change (list_sum (map AdherenceController.b_total
                          (fold_left AdherenceController.countRecord
                             (sort_by key stored) []))
              = List.length stored).
      rewrite H3. simpl.
      now rewrite (Permutation_length (sort_by_perm key stored)).
Qed.

Lemma getAdherenceTrends_buckets_witness :
  option_map
    (fun resp => option_map (map AdherenceController.t_total) (data resp))
    (AdherenceController.getAdherenceTrends (fun _ _ => 0) (JsDate.fixedOffset 3600000)
       Sample.caregiver_c1 None (Some "p1") 2000 (Sample.db_stock 5))
  = Some (Some [1%nat]).
Proof.
  assert (Hz : fixedZone (JsDate.fixedOffset 3600000) 3600000).
  { intros x. split; reflexivity. }
  assert (Hnow : Z.abs 2000 <= JsDate.maxTime).
  { apply Z.leb_le. reflexivity. }
  assert (Hstart : Z.abs (2000 - 30 * JsDate.msPerDay) <= JsDate.maxTime).
  { apply Z.leb_le. reflexivity. }
  destruct (getAdherenceTrends_buckets (fun _ _ => 0) (JsDate.fixedOffset 3600000)
              3600000 Sample.caregiver_c1 None (Some "p1") 2000 (Sample.db_stock 5) 30
              Hz eq_refl Hnow Hstart)
    as [[H _]|[_ _]]; [discriminate H|reflexivity].
Defined.

(** Where the offset of the zone changes the window does not start a
    multiple of 24 hours before now: one day back from 2024-03-31T12:00Z
    is 2024-03-30T13:00Z. *)
Example addDays_where_offset_changes :
  JsDate.addDays Sample.zone_dst (Some (-1)) (Some 1711886400000)
  = Some (1711886400000 - 23 * JsDate.msPerHour).
Proof. reflexivity. Qed.

(** ** Single adherence records *)

(** [getAdherenceRecord] looks the record up first and validates access
    to its owner afterwards. *)
Lemma getAdherenceRecord_gated (user : User.t) (id : string) (db : DB) :
  let resp := AdherenceController.getAdherenceRecord user id db in
  let byPk := fun r => (Adherence.id r =? id)%string in
  (find byPk (adherences db) = None
   /\ resp = fail_with 404 "Adherence record not found")
  \/ (exists record,
        find byPk (adherences db) = Some record
        /\ Adherence.id record = id
        /\ ((AdherenceController._validateAccess db user (Adherence.userId record) = false
             /\ resp = fail_with 403 "Access denied.")
            \/ (AdherenceController._validateAccess db user (Adherence.userId record) = true
                /\ resp = mkResponse 200 true None
                            (Some (record,
                                   AdherenceController.includeMedication record db))))).
Proof.
  intros resp byPk. unfold resp, AdherenceController.getAdherenceRecord.
  fold byPk. destruct (find byPk (adherences db)) as [record|] eqn:E; [right|left; auto].
  exists record. split; [reflexivity|]. split.
  - apply find_some in E. destruct E as [_ E]. now apply String.eqb_eq.
  - destruct (AdherenceController._validateAccess db user (Adherence.userId record));
      simpl; auto.
Qed.

(** X13: a record created by [recordAdherence] under a key no stored
    record has is read back by its author with [getAdherenceRecord]: the
    answer carries exactly the record the creation answered with, owned by
    the author, whatever the request body held; a requester who does not
    pass the access gate for the author is answered 403 for that id, and
    an id no record has is answered 404. *)
Theorem recordAdherence_round_trip (user : User.t)
  (body : AdherenceController.RecordBody) (newId : string) (now1 now2 : Z) (db : DB) :
  Forall (fun r => Adherence.id r <> newId) (adherences db) ->
  let out := AdherenceController.recordAdherence user body newId now1 now2 db in
  exists intake,
    data (fst out) = Some intake
    /\ Adherence.id intake = newId
    /\ Adherence.userId intake = User.id user
    /\ AdherenceController.getAdherenceRecord user newId (snd out)
       = mkResponse 200 true None
           (Some (intake, AdherenceController.includeMedication intake (snd out)))
    /\ (forall other,
          AdherenceController._validateAccess (snd out) other (User.id user) = false ->
          AdherenceController.getAdherenceRecord other newId (snd out)
          = fail_with 403 "Access denied.")
    /\ (forall other id,
          Forall (fun r => Adherence.id r <> id) (adherences (snd out)) ->
          AdherenceController.getAdherenceRecord other id (snd out)
          = fail_with 404 "Adherence record not found").
Proof.
  intros Hfresh out. eexists. split; [reflexivity|]. split; [reflexivity|].
  split; [reflexivity|].
  assert (Hfind : find (fun r => (Adherence.id r =? newId)%string) (adherences (snd out))
                  = Some (Adherence.mk newId (User.id user)
                            (AdherenceController.rb_medicationId body)
                            (Some (Js.str_or (AdherenceController.rb_status body) "taken"))
                            (Some (Js.val_or (AdherenceController.rb_takenAt body) now1))
                            (Some (Js.val_or (AdherenceController.rb_scheduledTime body)
                                     now2)))).
  { unfold out. rewrite recordAdherence_creates. apply find_app_fresh.
    - intros y Hy. rewrite Forall_forall in Hfresh.
      apply String.eqb_neq. now apply Hfresh.
    - simpl. apply String.eqb_refl. }
  split; [|split].
  - destruct (getAdherenceRecord_gated user newId (snd out))
      as [[Hnone _]|(record & Hrec & _ & [[Hden _]|[_ Hok]])].
    + rewrite Hfind in Hnone. discriminate.
    + assert (Hu : Adherence.userId record = User.id user).
      { rewrite Hfind in Hrec. now injection Hrec as <-. }
      rewrite Hu in Hden. unfold AdherenceController._validateAccess in Hden.
      rewrite String.eqb_refl in Hden. discriminate.
    + rewrite Hfind in Hrec. injection Hrec as <-. exact Hok.
  - intros other Hden.
    destruct (getAdherenceRecord_gated other newId (snd out))
      as [[Hnone _]|(record & Hrec & _ & [[_ H403]|[Hok _]])].
    + rewrite Hfind in Hnone. discriminate.
    + exact H403.
    + assert (Hu : Adherence.userId record = User.id user).
      { rewrite Hfind in Hrec. now injection Hrec as <-. }
      rewrite Hu in Hok. congruence.
  - intros other id Hid.
    destruct (getAdherenceRecord_gated other id (snd out))
      as [[_ H404]|(record & Hrec & Hrid & _)]; [exact H404|].
    apply find_some in Hrec. destruct Hrec as [Hin _].
    rewrite Forall_forall in Hid. now destruct (Hid record Hin).
Qed.

Lemma recordAdherence_round_trip_witness :
  let out := AdherenceController.recordAdherence Sample.patient_p1 Sample.taken_m1
               "a2" 7 8 (Sample.db_stock 5) in
  let intake :=
    Adherence.mk "a2" "p1" (Some "m1") (Some "taken") (Some 7) (Some 8) in
  AdherenceController.getAdherenceRecord Sample.patient_p1 "a2" (snd out)
  = mkResponse 200 true None
      (Some (intake, Some (AdherenceController.mkMedicationView "m1" "Aspirin" "100" "mg"))).
Proof.
  intros out intake.
  assert (Hfresh : Forall (fun r => Adherence.id r <> "a2")
                     (adherences (Sample.db_stock 5))).
  { repeat constructor. simpl. discriminate. }
  destruct (recordAdherence_round_trip Sample.patient_p1 Sample.taken_m1 "a2" 7 8
              (Sample.db_stock 5) Hfresh)
    as (i & Hi & _ & _ & Hget & _).
  injection Hi as <-. exact Hget.
Defined.

(** X14: [updateAdherenceRecord] applies whatever attributes the body
    holds, the owner included.  When the owner of a record sends an update
    naming another user as userId, the update succeeds, the record then
    belongs to that user, and every further update of the record by the
    former owner is refused with 403 and changes nothing. *)
Theorem updateAdherenceRecord_can_give_away (user : User.t) (id newOwner : string)
  (updates later : Adherence.patch) (db : DB) (record : Adherence.t) :
  find (fun r => (Adherence.id r =? id)%string) (adherences db) = Some record ->
  Adherence.userId record = User.id user ->
  Adherence.p_userId updates = Some newOwner ->
  newOwner <> User.id user ->
  let out := AdherenceController.updateAdherenceRecord user id updates db in
  status (fst out) = 200%nat
  /\ option_map Adherence.userId
       (find (fun r => (Adherence.id r =? id)%string) (adherences (snd out)))
     = Some newOwner
  /\ AdherenceController.updateAdherenceRecord user id later (snd out)
     = (fail_with 403 "Access denied", snd out).
Proof.
  intros Hfind Hown Hnew Hne out.
  assert (Hout : out = (mkResponse 200 true (Some "Adherence record updated")
                          (Some (Adherence.update updates record)),
                        set_adherences
                          (update_first (fun r => (Adherence.id r =? id)%string)
                             (Adherence.update updates) (adherences db)) db)).
  { unfold out, AdherenceController.updateAdherenceRecord. rewrite Hfind, Hown.
    now rewrite String.eqb_refl. }
  assert (Hf' : find (fun r => (Adherence.id r =? id)%string) (adherences (snd out))
                = Some (Adherence.update updates record)).
  { rewrite Hout. simpl. rewrite find_update_first by reflexivity. now rewrite Hfind. }
  split; [now rewrite Hout|]. split.
  - rewrite Hf'. simpl. now rewrite Hnew.
  - unfold AdherenceController.updateAdherenceRecord. rewrite Hf'. simpl.
    rewrite Hnew. simpl.
    apply String.eqb_neq in Hne. now rewrite Hne.
Qed.

Lemma updateAdherenceRecord_can_give_away_witness :
  let give := Adherence.mkPatch (Some "u1") None None None None in
  let fix_status := Adherence.mkPatch None None (Some "taken") None None in
  let out := AdherenceController.updateAdherenceRecord Sample.patient_p1 "a1" give
               (Sample.db_stock 5) in
  status (fst out) = 200%nat
  /\ AdherenceController.updateAdherenceRecord Sample.patient_p1 "a1" fix_status (snd out)
     = (fail_with 403 "Access denied", snd out).
Proof.
  intros give fix_status out.
  assert (Hne : "u1" <> User.id Sample.patient_p1) by discriminate.
  destruct (updateAdherenceRecord_can_give_away Sample.patient_p1 "a1" "u1" give
              fix_status (Sample.db_stock 5)
              (Adherence.mk "a1" "p1" (Some "m1") (Some "missed") (Some 1000) (Some 1000))
              eq_refl eq_refl eq_refl Hne)
    as (Hs & _ & Hlater).
  split; [exact Hs | exact Hlater].
Defined.

(** ** Which tables a request writes *)

Lemma validateAccess_tables (db db' : DB) (R : User.t) (T : string) :
  caregiverPatients db' = caregiverPatients db ->
  AdherenceController._validateAccess db' R T = AdherenceController._validateAccess db R T.
Proof.
  intros H. unfold AdherenceController._validateAccess. now rewrite H.
Qed.

Lemma medication_writes_tables (dflt : Medication.defaults) (user : User.t)
  (id newId : string) (patch : Medication.patch) (body : Medication.createBody)
  (quantity : Z) (db : DB) :
  Forall (fun db' =>
            users db' = users db
            /\ caregiverPatients db' = caregiverPatients db
            /\ adherences db' = adherences db
            /\ notifications db' = notifications db)
    [snd (MedicationController.createMedication dflt user body newId db);
     snd (MedicationController.updateMedication user id patch db);
     snd (MedicationController.deleteMedication user id db);
     snd (MedicationController.refillMedication user id quantity db)].
Proof.
  unfold MedicationController.updateMedication, MedicationController.deleteMedication,
    MedicationController.refillMedication.
  destruct (find _ (medications db)); repeat constructor.
Qed.

Lemma adherence_writes_tables (err : string) (user : User.t) (id newId : string)
  (body : AdherenceController.RecordBody)
  (records : option (list AdherenceController.BulkItem))
  (keys : nat -> string) (clock : nat -> Z) (updates : Adherence.patch)
  (now1 now2 : Z) (db : DB) :
  Forall (fun db' =>
            users db' = users db
            /\ caregiverPatients db' = caregiverPatients db
            /\ notifications db' = notifications db)
    [snd (AdherenceController.recordAdherence user body newId now1 now2 db);
     snd (AdherenceController.bulkRecordAdherence err user records keys clock db);
     snd (AdherenceController.updateAdherenceRecord user id updates db)].
Proof.
  constructor.
  { destruct (recordAdherence_medications user body newId now1 now2 db)
      as (H1 & H2 & H3 & _). auto. }
  constructor.
  { destruct records as [[|r rs]|]; [simpl; auto| |simpl; auto].
    rewrite bulkRecordAdherence_accepts. cbv zeta.
    destruct (AdherenceController.insertable _ _); simpl; auto. }
  constructor; [|constructor].
  unfold AdherenceController.updateAdherenceRecord.
  destruct (find _ (adherences db)) as [r|]; simpl; auto.
  destruct (negb _); simpl; auto.
Qed.

Lemma caregiver_request_tables (rq : CaregiverController.request) (db : DB) :
  users (CaregiverController.handle rq db) = users db
  /\ medications (CaregiverController.handle rq db) = medications db
  /\ adherences (CaregiverController.handle rq db) = adherences db.
Proof.
  destruct rq as [user body newId nid | user id | user id | user id]; simpl.
  - unfold CaregiverController.inviteCaregiver.
    destruct (find _ (users db)) as [cu|]; simpl; auto.
    destruct (User.id cu =? User.id user)%string; simpl; auto.
    destruct (find _ (caregiverPatients db)); simpl; auto.
  - unfold CaregiverController.acceptInvitation.
    destruct (find _ (caregiverPatients db)); simpl; auto.
  - unfold CaregiverController.declineInvitation.
    destruct (find _ (caregiverPatients db)); simpl; auto.
  - unfold CaregiverController.removeCaregiver.
    destruct (find _ (caregiverPatients db)); simpl; auto.
    destruct (find _ (caregiverPatients db)); simpl; auto.
Qed.

(** X15: who may read whose data is decided by the caregiver requests
    alone.  No write of the medication or adherence controller (create,
    update, delete, refill; record, bulk record, update record) changes
    the outcome of the access gate for any requester and target, and the
    bulk endpoint changes no medication row; no sequence of invite,
    accept, decline and remove requests changes a user, a medication or an
    adherence record. *)
Theorem writes_and_access (dflt : Medication.defaults) (user : User.t)
  (id newId : string) (patch : Medication.patch) (body : Medication.createBody)
  (quantity : Z) (intake : AdherenceController.RecordBody) (err : string)
  (records : option (list AdherenceController.BulkItem))
  (keys : nat -> string) (clock : nat -> Z) (updates : Adherence.patch)
  (now1 now2 : Z) (rqs : list CaregiverController.request) (db : DB)
  (R : User.t) (T : string) :
  Forall (fun db' =>
            AdherenceController._validateAccess db' R T
            = AdherenceController._validateAccess db R T)
    [snd (MedicationController.createMedication dflt user body newId db);
     snd (MedicationController.updateMedication user id patch db);
     snd (MedicationController.deleteMedication user id db);
     snd (MedicationController.refillMedication user id quantity db);
     snd (AdherenceController.recordAdherence user intake newId now1 now2 db);
     snd (AdherenceController.bulkRecordAdherence err user records keys clock db);
     snd (AdherenceController.updateAdherenceRecord user id updates db)]
  /\ medications
       (snd (AdherenceController.bulkRecordAdherence err user records keys clock db))
     = medications db
  /\ users (CaregiverController.serve rqs db) = users db
  /\ medications (CaregiverController.serve rqs db) = medications db
  /\ adherences (CaregiverController.serve rqs db) = adherences db.
Proof.
  split.
  - pose proof (medication_writes_tables dflt user id newId patch body quantity db) as Hm.
    pose proof (adherence_writes_tables err user id newId intake records keys clock
                  updates now1 now2 db) as Ha.
    repeat match goal with
           | H : Forall _ (_ :: _) |- _ => inversion H; clear H; subst
           end.
    repeat constructor; apply validateAccess_tables; tauto.
  - split.
    { destruct records as [[|r rs]|]; [reflexivity| |reflexivity].
      rewrite bulkRecordAdherence_accepts. cbv zeta.
      now destruct (AdherenceController.insertable _ _). }
    revert db. induction rqs as [|rq rqs IH]; intros db; simpl; [auto|].
    destruct (IH (CaregiverController.handle rq db)) as (H1 & H2 & H3).
    destruct (caregiver_request_tables rq db) as (G1 & G2 & G3).
    unfold CaregiverController.serve in *. simpl in *.
    rewrite H1, H2, H3. auto.
Qed.

(** ** Active relationships *)

Lemma activePairs_In (rows : list CaregiverPatient.t) (r : CaregiverPatient.t) :
  In r rows -> CaregiverPatient.isActive r = true -> In (pairOf r) (activePairs rows).
Proof.
  intros Hin Ha. unfold activePairs.
  apply (in_map pairOf). apply filter_In. auto.
Qed.

Lemma activePairs_cons (r : CaregiverPatient.t) (rows : list CaregiverPatient.t) :
  activePairs (r :: rows)
  = if CaregiverPatient.isActive r then pairOf r :: activePairs rows
    else activePairs rows.
Proof. unfold activePairs. simpl. now destruct (CaregiverPatient.isActive r). Qed.

Section ActivePairs.
Context (p : CaregiverPatient.t -> bool).

Lemma activePairs_verify (rows : list CaregiverPatient.t) :
  activePairs (update_first p (CaregiverPatient.set_isVerified true) rows)
  = activePairs rows.
Proof.
  induction rows as [|x rows IH]; [reflexivity|]. simpl.
  destruct (p x); rewrite !activePairs_cons; simpl; [reflexivity|].
  now rewrite IH.
Qed.

Lemma activePairs_close_incl (rows : list CaregiverPatient.t) (c : string * string) :
  In c (activePairs (update_first p (CaregiverPatient.set_isActive false) rows)) ->
  In c (activePairs rows).
Proof.
  induction rows as [|x rows IH]; [auto|]. simpl.
  destruct (p x); rewrite !activePairs_cons; simpl.
  - destruct (CaregiverPatient.isActive x); simpl; auto.
  - destruct (CaregiverPatient.isActive x); simpl; intuition.
Qed.

Lemma activePairs_close_NoDup (rows : list CaregiverPatient.t) :
  NoDup (activePairs rows) ->
  NoDup (activePairs (update_first p (CaregiverPatient.set_isActive false) rows)).
Proof.
  induction rows as [|x rows IH]; [auto|]. simpl.
  destruct (p x); rewrite !activePairs_cons; simpl.
  - destruct (CaregiverPatient.isActive x); [|auto].
    intros H. now inversion H.
  - destruct (CaregiverPatient.isActive x); [|auto].
    intros H. inversion H; subst. constructor; [|auto].
    intro Hin. apply activePairs_close_incl in Hin. contradiction.
Qed.

(** Closing the only active row of a pair leaves the pair without an
    active row. *)
Lemma activePairs_closed (rows : list CaregiverPatient.t) (r : CaregiverPatient.t) :
  NoDup (activePairs rows) ->
  find p rows = Some r ->
  CaregiverPatient.isActive r = true ->
  ~ In (pairOf r)
      (activePairs (update_first p (CaregiverPatient.set_isActive false) rows)).
Proof.
  induction rows as [|x rows IH]; simpl; [discriminate|].
  rewrite activePairs_cons.
  destruct (p x) eqn:Ep.
  - intros Hnd H Ha. injection H as ->. rewrite Ha in Hnd.
    rewrite activePairs_cons. simpl. now inversion Hnd.
  - intros Hnd H Ha. rewrite activePairs_cons.
    destruct (CaregiverPatient.isActive x) eqn:Ex.
    + inversion Hnd as [|? ? Hnot Hnd']; subst. intros [Heq|Hin].
      * apply Hnot. rewrite Heq. apply activePairs_In; [|exact Ha].
        apply find_some in H. tauto.
      * now apply (IH Hnd' H Ha).
    + now apply IH.
Qed.

End ActivePairs.

Lemma activePairs_app (l l' : list CaregiverPatient.t) :
  activePairs (l ++ l') = (activePairs l ++ activePairs l')%list.
Proof. unfold activePairs. now rewrite filter_app, map_app. Qed.

Lemma NoDup_snoc {A : Type} (l : list A) (x : A) :
  NoDup l -> ~ In x l -> NoDup (l ++ [x]).
Proof.
  intros Hl Hx. apply NoDup_app; [exact Hl|repeat constructor; auto|].
  intros y Hy [<-|[]]. contradiction.
Qed.

Lemma handle_keeps_one_active (rq : CaregiverController.request) (db : DB) :
  NoDup (activePairs (caregiverPatients db)) ->
  NoDup (activePairs (caregiverPatients (CaregiverController.handle rq db))).
Proof.
  intros Hnd.
  destruct rq as [user body newId nid | user id | user id | user id]; simpl.
  - unfold CaregiverController.inviteCaregiver.
    destruct (find _ (users db)) as [cu|]; simpl; [|exact Hnd].
    destruct (User.id cu =? User.id user)%string; simpl; [exact Hnd|].
    destruct (find _ (caregiverPatients db)) eqn:E; simpl; [exact Hnd|].
    rewrite activePairs_app. apply NoDup_snoc; [exact Hnd|].
    unfold activePairs at 1. simpl. intro Hin.
    apply in_map_iff in Hin. destruct Hin as [r [Hr Hin]].
    apply filter_In in Hin. destruct Hin as [Hin Ha].
    pose proof (find_none _ _ E r Hin) as Hn. simpl in Hn.
    injection Hr as H1 H2. rewrite H1, H2, Ha, !String.eqb_refl in Hn.
    discriminate.
  - unfold CaregiverController.acceptInvitation.
    destruct (find _ (caregiverPatients db)); simpl; [|exact Hnd].
    now rewrite activePairs_verify.
  - unfold CaregiverController.declineInvitation.
    destruct (find _ (caregiverPatients db)); simpl; [|exact Hnd].
    now apply activePairs_close_NoDup.
  - unfold CaregiverController.removeCaregiver.
    destruct (find _ (caregiverPatients db)); simpl.
    + now apply activePairs_close_NoDup.
    + destruct (find _ (caregiverPatients db)); simpl; [|exact Hnd].
      now apply activePairs_close_NoDup.
Qed.

(** X16: at most one active relationship per (caregiver, patient) pair
    is an invariant of the caregiver requests: when no pair has two active
    rows, no pair has two active rows after any sequence of invite,
    accept, decline and remove requests. *)
Theorem one_active_relationship_per_pair (rqs : list CaregiverController.request)
  (db : DB) :
  NoDup (activePairs (caregiverPatients db)) ->
  NoDup (activePairs (caregiverPatients (CaregiverController.serve rqs db))).
Proof.
  revert db. induction rqs as [|rq rqs IH]; intros db Hnd; simpl; [exact Hnd|].
  apply IH. now apply handle_keeps_one_active.
Qed.

Lemma one_active_relationship_per_pair_witness :
  let rqs :=
    [CaregiverController.Invite Sample.patient_p1 Sample.invite_c3 "r2" "n1";
     CaregiverController.Invite Sample.patient_p1 Sample.invite_c3 "r3" "n2";
     CaregiverController.Accept Sample.caregiver_c3 "r2";
     CaregiverController.Decline Sample.caregiver_c1 "r1"] in
  NoDup (activePairs (caregiverPatients Sample.db_invited))
  /\ NoDup (activePairs (caregiverPatients
                           (CaregiverController.serve rqs Sample.db_invited)))
  /\ activePairs (caregiverPatients (CaregiverController.serve rqs Sample.db_invited))
     = [("c3", "p1")].
Proof.
  intros rqs.
  assert (Hnd : NoDup (activePairs (caregiverPatients Sample.db_invited))).
  { repeat constructor. simpl. tauto. }
  split; [exact Hnd|].
  split; [exact (one_active_relationship_per_pair rqs Sample.db_invited Hnd)|].
  reflexivity.
Defined.

(** ** Lists of relationships *)

Lemma map_throwing_proj {A B : Type} (f : A -> option B) (proj : B -> A)
  (l : list A) (ys : list B) :
  (forall x y, f x = Some y -> proj y = x) ->
  CaregiverController.map_throwing f l = Some ys -> map proj ys = l.
Proof.
  intros Hf. revert ys. induction l as [|x l IH]; simpl; intros ys H.
  - now injection H as <-.
  - destruct (f x) as [y|] eqn:E; [|discriminate].
    destruct (CaregiverController.map_throwing f l) as [ys'|]; [|discriminate].
    injection H as <-. simpl. now rewrite (Hf x y E), (IH ys' eq_refl).
Qed.

Lemma map_throwing_Forall {A B : Type} (f : A -> option B) (P : B -> Prop)
  (l : list A) (ys : list B) :
  (forall x y, In x l -> f x = Some y -> P y) ->
  CaregiverController.map_throwing f l = Some ys -> Forall P ys.
Proof.
  revert ys. induction l as [|x l IH]; simpl; intros ys Hf H.
  - injection H as <-. constructor.
  - destruct (f x) as [y|] eqn:E; [|discriminate].
    destruct (CaregiverController.map_throwing f l) as [ys'|]; [|discriminate].
    injection H as <-. constructor.
    + apply (Hf x y); auto.
    + apply IH; [|reflexivity]. intros x' y' Hx'. apply Hf. now right.
Qed.

Lemma map_throwing_total {A B : Type} (f : A -> option B) (l : list A) :
  (forall x, In x l -> f x <> None) ->
  CaregiverController.map_throwing f l <> None.
Proof.
  induction l as [|x l IH]; simpl; intros Hf; [discriminate|].
  destruct (f x) as [y|] eqn:E.
  - destruct (CaregiverController.map_throwing f l) eqn:El; [discriminate|].
    exfalso. apply IH; auto.
  - exfalso. apply (Hf x); auto.
Qed.

Lemma pendingFor_pendingOf (id : string) (user : User.t) (r : CaregiverPatient.t) :
  CaregiverController.pendingFor id user r
  = (CaregiverPatient.id r =? id)%string && CaregiverController.pendingOf user r.
Proof.
  unfold CaregiverController.pendingFor, CaregiverController.pendingOf.
  now rewrite !andb_assoc.
Qed.

Lemma find_is_some {A : Type} (p : A -> bool) (l : list A) :
  (exists x, In x l /\ p x = true) <-> find p l <> None.
Proof.
  rewrite <- notnot_find. unfold Js.notnot.
  destruct (find p l); split; intros; congruence.
Qed.

(** X17: the invitations [getPendingInvitations] lists for a caregiver
    are exactly the relationship rows that caregiver can accept or
    decline: the listed rows are the caregiver's unverified active rows in
    storage order, [acceptInvitation] (and [declineInvitation]) answers
    200 for an id exactly when it is the id of a listed row; the listing
    does not throw when every relationship row points to a stored
    patient. *)
Theorem pending_list_is_what_can_be_accepted (phone : User.t -> option string)
  (user : User.t) (db : DB) :
  (forall rel, In rel (caregiverPatients db) ->
               CaregiverController.userByPk (CaregiverPatient.patientId rel) db <> None) ->
  exists invitations,
    CaregiverController.getPendingInvitations phone user db
    = Some (mkResponse 200 true None (Some invitations))
    /\ map CaregiverController.pi_relationship invitations
       = filter (CaregiverController.pendingOf user) (caregiverPatients db)
    /\ forall id,
         (status (fst (CaregiverController.acceptInvitation user id db)) = 200%nat
          <-> In id (map (fun i => CaregiverPatient.id
                                     (CaregiverController.pi_relationship i))
                       invitations))
         /\ (status (fst (CaregiverController.declineInvitation user id db)) = 200%nat
             <-> In id (map (fun i => CaregiverPatient.id
                                        (CaregiverController.pi_relationship i))
                          invitations)).
Proof.
  intros Hfk. unfold CaregiverController.getPendingInvitations.
  destruct (CaregiverController.map_throwing _ _) as [invitations|] eqn:E.
  - exists invitations. split; [reflexivity|].
    assert (Hrel : map CaregiverController.pi_relationship invitations
                   = filter (CaregiverController.pendingOf user) (caregiverPatients db)).
    { eapply map_throwing_proj; [|exact E].
      intros x y H. simpl in H.
      destruct (CaregiverController.userByPk _ db); [|discriminate].
      now injection H as <-. }
    split; [exact Hrel|].
    assert (Hiff : forall id,
               find (CaregiverController.pendingFor id user) (caregiverPatients db) <> None
               <-> In id (map (fun i => CaregiverPatient.id
                                          (CaregiverController.pi_relationship i))
                            invitations)).
    { intros id. rewrite <- find_is_some, <- (map_map _ CaregiverPatient.id), Hrel.
      rewrite in_map_iff. split.
      - intros [r [Hin Hp]]. rewrite pendingFor_pendingOf, andb_true_iff in Hp.
        exists r. rewrite String.eqb_eq in Hp. split; [tauto|].
        apply filter_In. tauto.
      - intros [r [Hid Hin]]. apply filter_In in Hin. exists r.
        split; [tauto|]. rewrite pendingFor_pendingOf, andb_true_iff, String.eqb_eq.
        tauto. }
    intros id. rewrite <- !Hiff.
    unfold CaregiverController.acceptInvitation, CaregiverController.declineInvitation.
    destruct (find _ (caregiverPatients db)); simpl;
      split; split; intros; congruence.
  - exfalso. revert E. apply map_throwing_total. intros rel Hin.
    apply filter_In in Hin. destruct Hin as [Hin _].
    specialize (Hfk rel Hin).
    destruct (CaregiverController.userByPk _ db); congruence.
Qed.

Lemma pending_list_is_what_can_be_accepted_witness :
  option_map (fun r => option_map (map (fun i => CaregiverPatient.id
                                          (CaregiverController.pi_relationship i)))
                         (data r))
    (CaregiverController.getPendingInvitations Sample.no_phone Sample.caregiver_c1
       Sample.db_invited)
  = Some (Some ["r1"])
  /\ status (fst (CaregiverController.acceptInvitation Sample.caregiver_c1 "r1"
                    Sample.db_invited)) = 200%nat.
Proof.
  assert (Hfk : forall rel, In rel (caregiverPatients Sample.db_invited) ->
                  CaregiverController.userByPk (CaregiverPatient.patientId rel)
                    Sample.db_invited <> None).
  { intros rel [<-|[<-|[]]]; discriminate. }
  destruct (pending_list_is_what_can_be_accepted Sample.no_phone Sample.caregiver_c1
              Sample.db_invited Hfk)
    as (invitations & Hresp & Hrel & Hiff).
  split; [reflexivity|]. apply (proj1 (Hiff "r1")).
  rewrite <- (map_map _ CaregiverPatient.id), Hrel. simpl. now left.
Defined.

(** ** From invitation to access *)

Lemma find_app_none {A : Type} (p : A -> bool) (l : list A) (x : A) :
  p x = false -> find p (l ++ [x])%list = find p l.
Proof.
  intros Hx. induction l as [|y l IH]; simpl; [now rewrite Hx|].
  destruct (p y); auto.
Qed.

(** What a sent invitation (201) has found and written. *)
Lemma inviteCaregiver_sent (user : User.t) (body : CaregiverController.InviteBody)
  (newId nid : string) (db : DB) :
  status (fst (CaregiverController.inviteCaregiver user body newId nid db)) = 201%nat ->
  exists cu,
    find (fun u => (User.email u =? CaregiverController.inv_email body)%string) (users db)
    = Some cu
    /\ User.id cu <> User.id user
    /\ find (fun r =>
               (CaregiverPatient.caregiverId r =? User.id cu)%string
               && (CaregiverPatient.patientId r =? User.id user)%string
               && Bool.eqb (CaregiverPatient.isActive r) true)
         (caregiverPatients db) = None
    /\ users (snd (CaregiverController.inviteCaregiver user body newId nid db)) = users db
    /\ caregiverPatients (snd (CaregiverController.inviteCaregiver user body newId nid db))
       = (caregiverPatients db ++
          [CaregiverPatient.mk newId (User.id cu) (User.id user)
             (Js.str_or (CaregiverController.inv_relationship body) "other")
             (Js.val_or (CaregiverController.inv_permissions body)
                [("viewMedications", true)])
             false true])%list.
Proof.
  unfold CaregiverController.inviteCaregiver.
  destruct (find _ (users db)) as [cu|]; simpl; [|discriminate].
  destruct (String.eqb_spec (User.id cu) (User.id user)); simpl; [discriminate|].
  destruct (find _ (caregiverPatients db)) eqn:E; simpl; [discriminate|].
  intros _. exists cu. auto.
Qed.

(** X18: from invitation to access.  After a patient's invitation is
    sent (201) under a fresh key, the invited user's access to the
    patient's data is what it was before: a pending invitation grants
    nothing.  The invited user can accept it (200), and if their role is
    caregiver they then pass the access gate for the patient; if they
    decline it instead (200), their access is again what it was before the
    invitation. *)
Theorem invitation_then_access (patient cu : User.t)
  (body : CaregiverController.InviteBody) (newId nid : string) (db : DB) :
  find (fun u => (User.email u =? CaregiverController.inv_email body)%string) (users db)
  = Some cu ->
  status (fst (CaregiverController.inviteCaregiver patient body newId nid db)) = 201%nat ->
  Forall (fun r => CaregiverPatient.id r <> newId) (caregiverPatients db) ->
  User.role cu = "caregiver" ->
  let db1 := snd (CaregiverController.inviteCaregiver patient body newId nid db) in
  let accepted := CaregiverController.acceptInvitation cu newId db1 in
  let declined := CaregiverController.declineInvitation cu newId db1 in
  AdherenceController._validateAccess db1 cu (User.id patient)
  = AdherenceController._validateAccess db cu (User.id patient)
  /\ status (fst accepted) = 200%nat
  /\ AdherenceController._validateAccess (snd accepted) cu (User.id patient) = true
  /\ status (fst declined) = 200%nat
  /\ AdherenceController._validateAccess (snd declined) cu (User.id patient)
     = AdherenceController._validateAccess db cu (User.id patient).
Proof.
  intros Hcu Hsent Hfresh Hrole db1 accepted declined.
  destruct (inviteCaregiver_sent patient body newId nid db Hsent)
    as (cu' & Hcu' & Hne & _ & _ & Hrows).
  rewrite Hcu in Hcu'. injection Hcu' as <-. fold db1 in Hrows.
  set (link := CaregiverPatient.mk newId (User.id cu) (User.id patient) _ _ false true)
    in Hrows.
  assert (Hpend : find (CaregiverController.pendingFor newId cu) (caregiverPatients db1)
                  = Some link).
  { rewrite Hrows. apply find_app_fresh.
    - intros y Hy. rewrite Forall_forall in Hfresh.
      rewrite pendingFor_pendingOf. apply andb_false_iff. left.
      apply String.eqb_neq. now apply Hfresh.
    - unfold CaregiverController.pendingFor. simpl. now rewrite !String.eqb_refl. }
  assert (Hclause : forall rows,
             find (fun r =>
                     (CaregiverPatient.caregiverId r =? User.id cu)%string
                     && (CaregiverPatient.patientId r =? User.id patient)%string
                     && Bool.eqb (CaregiverPatient.isActive r) true
                     && Bool.eqb (CaregiverPatient.isVerified r) true)
               (rows ++ [link])
             = find (fun r =>
                       (CaregiverPatient.caregiverId r =? User.id cu)%string
                       && (CaregiverPatient.patientId r =? User.id patient)%string
                       && Bool.eqb (CaregiverPatient.isActive r) true
                       && Bool.eqb (CaregiverPatient.isVerified r) true)
                 rows).
  { intros rows. apply find_app_none. simpl. now rewrite andb_false_r. }
  split; [|split; [|split; [|split]]].
  - unfold AdherenceController._validateAccess. now rewrite Hrows, Hclause.
  - unfold accepted, CaregiverController.acceptInvitation. now rewrite Hpend.
  - apply adherence_validateAccess_iff. right. right. right.
    split; [exact Hrole|].
    exists (CaregiverPatient.set_isVerified true link).
    split; [|simpl; auto].
    unfold accepted, CaregiverController.acceptInvitation. rewrite Hpend. simpl.
    now apply update_first_found.
  - unfold declined, CaregiverController.declineInvitation. now rewrite Hpend.
  - unfold declined, CaregiverController.declineInvitation. rewrite Hpend.
    unfold AdherenceController._validateAccess. simpl. rewrite Hrows.
    assert (Hnone : find (CaregiverController.pendingFor newId cu) (caregiverPatients db)
                    = None).
    { apply find_none_all. intros y Hy. rewrite Forall_forall in Hfresh.
      rewrite pendingFor_pendingOf. apply andb_false_iff. left.
      apply String.eqb_neq. now apply Hfresh. }
    assert (Hupd : update_first (CaregiverController.pendingFor newId cu)
                     (CaregiverPatient.set_isActive false)
                     (caregiverPatients db ++ [link])
                   = (caregiverPatients db ++ [CaregiverPatient.set_isActive false link])%list).
    { clear -Hnone. induction (caregiverPatients db) as [|y l IH]; simpl.
      - unfold CaregiverController.pendingFor. simpl. now rewrite !String.eqb_refl.
      - simpl in Hnone. destruct (CaregiverController.pendingFor newId cu y);
          [discriminate|]. now rewrite IH. }
    rewrite Hupd. rewrite find_app_none; [reflexivity|].
    simpl. now rewrite andb_false_r.
Qed.

Lemma invitation_then_access_witness :
  let db1 := snd (CaregiverController.inviteCaregiver Sample.patient_p1
                    Sample.invite_c3 "r2" "n1" Sample.db_invited) in
  AdherenceController._validateAccess Sample.db_invited Sample.caregiver_c3 "p1" = false
  /\ AdherenceController._validateAccess db1 Sample.caregiver_c3 "p1" = false
  /\ AdherenceController._validateAccess
       (snd (CaregiverController.acceptInvitation Sample.caregiver_c3 "r2" db1))
       Sample.caregiver_c3 "p1" = true.
Proof.
  intros db1.
  assert (Hfresh : Forall (fun r => CaregiverPatient.id r <> "r2")
                     (caregiverPatients Sample.db_invited)).
  { repeat constructor; simpl; discriminate. }
  destruct (invitation_then_access Sample.patient_p1 Sample.caregiver_c3
              Sample.invite_c3 "r2" "n1" Sample.db_invited
              eq_refl eq_refl Hfresh eq_refl)
    as (_ & _ & Hacc & _ & _).
  split; [reflexivity|]. split; [reflexivity|exact Hacc].
Defined.

Lemma map_throwing_map {A B C : Type} (f : A -> option B) (g : B -> C) (h : A -> C)
  (l : list A) (ys : list B) :
  (forall x y, f x = Some y -> g y = h x) ->
  CaregiverController.map_throwing f l = Some ys -> map g ys = map h l.
Proof.
  intros Hf. revert ys. induction l as [|x l IH]; simpl; intros ys H.
  - now injection H as <-.
  - destruct (f x) as [y|] eqn:E; [|discriminate].
    destruct (CaregiverController.map_throwing f l) as [ys'|]; [|discriminate].
    injection H as <-. simpl. now rewrite (Hf x y E), (IH ys' eq_refl).
Qed.

Lemma update_first_In {A : Type} (p : A -> bool) (f : A -> A) (l : list A) (y : A) :
  In y (update_first p f l) -> In y l \/ exists x, In x l /\ y = f x.
Proof.
  induction l as [|x l IH]; simpl; [tauto|].
  destruct (p x); simpl.
  - intros [<-|H]; [right; exists x; auto | auto].
  - intros [<-|H]; [auto|]. destruct (IH H) as [H'|[z [Hz ->]]]; [auto|].
    right. exists z. auto.
Qed.

(** X19: once a caregiver has accepted an invitation, [getPatients]
    lists that relationship for them, and every entry [getPatients]
    returns carries the status "Active" (its "Pending" label is never
    used); the listing does not throw when every relationship row points
    to a stored patient. *)
Theorem accepted_patient_is_listed (phone : User.t -> option string) (user : User.t)
  (id : string) (db : DB) (r : CaregiverPatient.t) :
  find (CaregiverController.pendingFor id user) (caregiverPatients db) = Some r ->
  (forall rel, In rel (caregiverPatients db) ->
               CaregiverController.userByPk (CaregiverPatient.patientId rel) db <> None) ->
  let db' := snd (CaregiverController.acceptInvitation user id db) in
  exists patients,
    CaregiverController.getPatients phone user db'
    = Some (mkResponse 200 true None (Some patients))
    /\ In id (map CaregiverController.pe_id patients)
    /\ Forall (fun e => CaregiverController.pe_status e = "Active") patients.
Proof.
  intros Hfind Hfk db'.
  assert (Hrows : caregiverPatients db'
                  = update_first (CaregiverController.pendingFor id user)
                      (CaregiverPatient.set_isVerified true) (caregiverPatients db)).
  { unfold db', CaregiverController.acceptInvitation. now rewrite Hfind. }
  assert (Husers : users db' = users db).
  { unfold db', CaregiverController.acceptInvitation. now rewrite Hfind. }
  pose proof (find_some _ _ Hfind) as [Hr Hp].
  apply pendingFor_inv in Hp. destruct Hp as (Hid & Hcg & Hv & Ha).
  unfold CaregiverController.getPatients.
  destruct (CaregiverController.map_throwing _ _) as [patients|] eqn:E.
  - exists patients. split; [reflexivity|]. split.
    + assert (Hids : map CaregiverController.pe_id patients
                     = map CaregiverPatient.id
                         (filter (CaregiverController.patientOf user)
                            (caregiverPatients db'))).
      { eapply map_throwing_map; [|exact E].
        intros x y H. simpl in H.
        destruct (CaregiverController.userByPk _ db'); [|discriminate].
        now injection H as <-. }
      rewrite Hids, <- Hid.
      apply (in_map CaregiverPatient.id _ (CaregiverPatient.set_isVerified true r)).
      apply filter_In. split.
      * rewrite Hrows. now apply update_first_found.
      * unfold CaregiverController.patientOf. simpl.
        now rewrite Hcg, Ha, String.eqb_refl.
    + eapply map_throwing_Forall; [|exact E].
      intros x y Hx Hy. apply filter_In in Hx. destruct Hx as [_ Hx].
      unfold CaregiverController.patientOf in Hx.
      rewrite !andb_true_iff, !Bool.eqb_true_iff in Hx.
      cbv beta in Hy.
      destruct (CaregiverController.userByPk (CaregiverPatient.patientId x) db');
        [|discriminate].
      injection Hy as <-. simpl. destruct Hx as [[_ ->] _]. reflexivity.
  - exfalso. revert E. apply map_throwing_total. intros rel Hin.
    apply filter_In in Hin. destruct Hin as [Hin _]. rewrite Hrows in Hin.
    assert (Hpat : CaregiverController.userByPk (CaregiverPatient.patientId rel) db
                   <> None).
    { apply update_first_In in Hin. destruct Hin as [Hin|[x [Hx ->]]]; auto.
      simpl. now apply Hfk. }
    unfold CaregiverController.userByPk in *. rewrite Husers.
    destruct (find _ (users db)); congruence.
Qed.

Lemma accepted_patient_is_listed_witness :
  option_map (fun resp => option_map (map CaregiverController.pe_id) (data resp))
    (CaregiverController.getPatients Sample.no_phone Sample.caregiver_c1
       (snd (CaregiverController.acceptInvitation Sample.caregiver_c1 "r1"
               Sample.db_invited)))
  = Some (Some ["r1"])
  /\ CaregiverController.getPatients Sample.no_phone Sample.caregiver_c1
       Sample.db_invited
     = Some (mkResponse 200 true None (Some [])).
Proof.
  assert (Hfk : forall rel, In rel (caregiverPatients Sample.db_invited) ->
                  CaregiverController.userByPk (CaregiverPatient.patientId rel)
                    Sample.db_invited <> None).
  { intros rel [<-|[<-|[]]]; discriminate. }
  destruct (accepted_patient_is_listed Sample.no_phone Sample.caregiver_c1 "r1"
              Sample.db_invited Sample.pending_r1 eq_refl Hfk)
    as (patients & Hresp & _ & _).
  split; reflexivity.
Defined.

(** ** Removing, repeating and renewing *)

(** X20: [removeCaregiver] closes the relationship stored under the
    given id for whoever calls it; the caller need not be the patient or
    the caregiver of that relationship.  Afterwards the row is inactive,
    nobody can accept or decline it (404), [getCaregivers] lists it for
    no patient, and removing it again changes nothing. *)
Theorem removeCaregiver_closes_for_anyone (caller other : User.t) (id : string)
  (db : DB) (r : CaregiverPatient.t) :
  NoDup (map CaregiverPatient.id (caregiverPatients db)) ->
  find (fun x => (CaregiverPatient.id x =? id)%string) (caregiverPatients db) = Some r ->
  let out := CaregiverController.removeCaregiver caller id db in
  status (fst out) = 200%nat
  /\ In (CaregiverPatient.set_isActive false r) (caregiverPatients (snd out))
  /\ CaregiverController.removeCaregiver other id (snd out) = out
  /\ CaregiverController.acceptInvitation other id (snd out)
     = (fail_with 404 "Invitation not found", snd out)
  /\ CaregiverController.declineInvitation other id (snd out)
     = (fail_with 404 "Invitation not found", snd out)
  /\ (forall phone picture patient l,
        CaregiverController.getCaregivers phone picture patient (snd out)
        = Some (mkResponse 200 true None (Some l)) ->
        ~ In id (map CaregiverController.ce_relationshipId l)).
Proof.
  intros Hnd Hfind out.
  set (byPk := fun x : CaregiverPatient.t => (CaregiverPatient.id x =? id)%string) in *.
  assert (Hout : out = (mkResponse 200 true (Some "Caregiver removed successfully") None,
                        set_caregiverPatients
                          (update_first byPk (CaregiverPatient.set_isActive false)
                             (caregiverPatients db)) db)).
  { unfold out, CaregiverController.removeCaregiver. fold byPk. now rewrite Hfind. }
  assert (Hf' : find byPk (caregiverPatients (snd out))
                = Some (CaregiverPatient.set_isActive false r)).
  { rewrite Hout. simpl. rewrite find_update_first by reflexivity. now rewrite Hfind. }
  assert (Honly : forall y, In y (caregiverPatients (snd out)) ->
                            CaregiverPatient.id y = id ->
                            y = CaregiverPatient.set_isActive false r).
  { intros y Hy Hid. rewrite Hout in Hy. simpl in Hy.
    eapply update_first_same_key with (key := CaregiverPatient.id); eauto.
    apply find_some in Hfind. destruct Hfind as [_ Hr]. unfold byPk in Hr.
    apply String.eqb_eq in Hr. congruence. }
  split; [now rewrite Hout|]. split.
  { rewrite Hout. simpl. now apply update_first_found. }
  split.
  { unfold CaregiverController.removeCaregiver. fold byPk. rewrite Hf'.
    rewrite (update_first_id byPk (CaregiverPatient.set_isActive false) _ _ Hf' eq_refl).
    rewrite Hout. reflexivity. }
  assert (H404 := no_pending_row_404 other id (snd out)).
  destruct H404 as [Hacc Hdec].
  { intros y Hy Hid. left. now rewrite (Honly y Hy Hid). }
  split; [exact Hacc|]. split; [exact Hdec|].
  intros phone picture patient l Hl Hin.
  unfold CaregiverController.getCaregivers in Hl.
  destruct (CaregiverController.map_throwing _ _) as [l'|] eqn:E; [|discriminate].
  injection Hl as <-.
  assert (Hids : map CaregiverController.ce_relationshipId l'
                 = map CaregiverPatient.id
                     (filter (fun x => (CaregiverPatient.patientId x =? User.id patient)%string
                                       && Bool.eqb (CaregiverPatient.isActive x) true)
                        (caregiverPatients (snd out)))).
  { eapply map_throwing_map; [|exact E].
    intros x y H. cbv beta in H.
    destruct (CaregiverController.userByPk (CaregiverPatient.caregiverId x) (snd out));
      [|discriminate].
    now injection H as <-. }
  rewrite Hids in Hin. apply in_map_iff in Hin. destruct Hin as [y [Hid Hy]].
  apply filter_In in Hy. destruct Hy as [Hy Hact].
  rewrite (Honly y Hy Hid) in Hact. simpl in Hact.
  rewrite andb_false_r in Hact. discriminate.
Qed.

Lemma removeCaregiver_closes_for_anyone_witness :
  let out := CaregiverController.removeCaregiver Sample.caregiver_c3 "r1"
               Sample.db_invited in
  status (fst out) = 200%nat
  /\ CaregiverController.acceptInvitation Sample.caregiver_c1 "r1" (snd out)
     = (fail_with 404 "Invitation not found", snd out).
Proof.
  intros out.
  assert (Hnd : NoDup (map CaregiverPatient.id (caregiverPatients Sample.db_invited))).
  { simpl. repeat constructor; simpl; intuition discriminate. }
  destruct (removeCaregiver_closes_for_anyone Sample.caregiver_c3 Sample.caregiver_c1
              "r1" Sample.db_invited Sample.pending_r1 Hnd eq_refl)
    as (Hs & _ & _ & Hacc & _).
  split; [exact Hs | exact Hacc].
Defined.

(** X21: an invitation that was sent cannot be sent twice: after a 201
    the same patient inviting the same address again, under any keys, is
    answered 409 and the store is left as it is. *)
Theorem second_invitation_conflicts (user : User.t)
  (body : CaregiverController.InviteBody) (newId nid newId' nid' : string) (db : DB) :
  status (fst (CaregiverController.inviteCaregiver user body newId nid db)) = 201%nat ->
  let db1 := snd (CaregiverController.inviteCaregiver user body newId nid db) in
  CaregiverController.inviteCaregiver user body newId' nid' db1
  = (fail_with 409 "Caregiver already connected.", db1).
Proof.
  intros Hsent db1.
  destruct (inviteCaregiver_sent user body newId nid db Hsent)
    as (cu & Hcu & Hne & Hnone & Husers & Hrows).
  fold db1 in Husers, Hrows.
  unfold CaregiverController.inviteCaregiver at 1. rewrite Husers, Hcu.
  apply String.eqb_neq in Hne. rewrite Hne, Hrows.
  rewrite find_app_fresh; [reflexivity| |].
  - intros y Hy. exact (find_none _ _ Hnone y Hy).
  - simpl. now rewrite !String.eqb_refl.
Qed.

Lemma second_invitation_conflicts_witness :
  let db1 := snd (CaregiverController.inviteCaregiver Sample.patient_p1
                    Sample.invite_c3 "r2" "n1" Sample.db_invited) in
  CaregiverController.inviteCaregiver Sample.patient_p1 Sample.invite_c3 "r3" "n2" db1
  = (fail_with 409 "Caregiver already connected.", db1).
Proof.
  exact (second_invitation_conflicts Sample.patient_p1 Sample.invite_c3
           "r2" "n1" "r3" "n2" Sample.db_invited eq_refl).
Defined.

(** X22: a declined invitation can be renewed.  When no pair has two
    active rows and a caregiver has a pending invitation from a patient,
    the patient inviting that caregiver again is answered 409; once the
    caregiver has declined, the same invitation is sent (201) and adds a
    new row, the declined row staying closed. *)
Theorem declined_can_be_reinvited (patient cg : User.t) (id : string)
  (body : CaregiverController.InviteBody) (newId nid : string) (db : DB)
  (r : CaregiverPatient.t) :
  NoDup (activePairs (caregiverPatients db)) ->
  find (CaregiverController.pendingFor id cg) (caregiverPatients db) = Some r ->
  find (fun u => (User.email u =? CaregiverController.inv_email body)%string) (users db)
  = Some cg ->
  CaregiverPatient.patientId r = User.id patient ->
  User.id cg <> User.id patient ->
  let db1 := snd (CaregiverController.declineInvitation cg id db) in
  let again := CaregiverController.inviteCaregiver patient body newId nid db1 in
  status (fst (CaregiverController.inviteCaregiver patient body newId nid db)) = 409%nat
  /\ status (fst again) = 201%nat
  /\ In (CaregiverPatient.set_isActive false r) (caregiverPatients (snd again))
  /\ List.length (caregiverPatients (snd again))
     = S (List.length (caregiverPatients db)).
Proof.
  intros Hnd Hfind Hcg Hpat Hne db1 again.
  pose proof (find_some _ _ Hfind) as [Hr Hp].
  apply pendingFor_inv in Hp. destruct Hp as (Hid & Hcgid & Hv & Ha).
  apply String.eqb_neq in Hne.
  set (clause := fun x : CaregiverPatient.t =>
                   (CaregiverPatient.caregiverId x =? User.id cg)%string
                   && (CaregiverPatient.patientId x =? User.id patient)%string
                   && Bool.eqb (CaregiverPatient.isActive x) true).
  assert (Hrows : caregiverPatients db1
                  = update_first (CaregiverController.pendingFor id cg)
                      (CaregiverPatient.set_isActive false) (caregiverPatients db)).
  { unfold db1, CaregiverController.declineInvitation. now rewrite Hfind. }
  assert (Husers : users db1 = users db).
  { unfold db1, CaregiverController.declineInvitation. now rewrite Hfind. }
  assert (Hnone : find clause (caregiverPatients db1) = None).
  { apply find_none_all. intros y Hy.
    destruct (clause y) eqn:Ec; [|reflexivity]. exfalso.
    unfold clause in Ec.
    rewrite !andb_true_iff, !String.eqb_eq, Bool.eqb_true_iff in Ec.
    destruct Ec as [[Hc Hpt] Hact].
    apply (activePairs_closed (CaregiverController.pendingFor id cg)
             (caregiverPatients db) r Hnd Hfind Ha).
    rewrite <- Hrows.
    replace (pairOf r) with (pairOf y)
      by (unfold pairOf; congruence).
    now apply activePairs_In. }
  split.
  { unfold CaregiverController.inviteCaregiver. rewrite Hcg, Hne.
    fold clause.
    destruct (find clause (caregiverPatients db)) eqn:E; [reflexivity|].
    pose proof (find_none _ _ E r Hr) as Hn. unfold clause in Hn.
    rewrite Hcgid, Hpat, Ha, !String.eqb_refl in Hn. discriminate. }
  assert (Hagain : again
                   = CaregiverController.inviteCaregiver patient body newId nid db1)
    by reflexivity.
  unfold CaregiverController.inviteCaregiver in Hagain.
  rewrite Husers, Hcg, Hne in Hagain. fold clause in Hagain.
  rewrite Hnone in Hagain. rewrite Hagain. simpl.
  split; [reflexivity|]. split.
  - apply in_or_app. left. rewrite Hrows. now apply update_first_found.
  - rewrite length_app, Hrows, update_first_length. simpl. lia.
Qed.

Lemma declined_can_be_reinvited_witness :
  let invite_c1 := CaregiverController.mkInviteBody "c1@example.org" None None in
  let db1 := snd (CaregiverController.declineInvitation Sample.caregiver_c1 "r1"
                    Sample.db_invited) in
  status (fst (CaregiverController.inviteCaregiver Sample.patient_p1 invite_c1
                 "r2" "n1" Sample.db_invited)) = 409%nat
  /\ status (fst (CaregiverController.inviteCaregiver Sample.patient_p1 invite_c1
                    "r2" "n1" db1)) = 201%nat.
Proof.
  intros invite_c1 db1.
  assert (Hnd : NoDup (activePairs (caregiverPatients Sample.db_invited))).
  { repeat constructor. simpl. tauto. }
  assert (Hne : User.id Sample.caregiver_c1 <> User.id Sample.patient_p1)
    by discriminate.
  destruct (declined_can_be_reinvited Sample.patient_p1 Sample.caregiver_c1 "r1"
              invite_c1 "r2" "n1" Sample.db_invited Sample.pending_r1
              Hnd eq_refl eq_refl eq_refl Hne)
    as (H409 & H201 & _).
  split; [exact H409 | exact H201].
Defined.

(** ** Pages *)

Lemma chunks_concat {A : Type} (k n : nat) :
  forall l : list A,
    (List.length l <= n * k)%nat ->
    List.concat (map (fun i => firstn k (skipn (i * k) l)) (seq 0 n)) = l.
Proof.
  induction n as [|n IH]; intros l Hl; simpl.
  - destruct l; [reflexivity|simpl in Hl; lia].
  - rewrite <- seq_shift, map_map.
    rewrite (map_ext (fun i => firstn k (skipn (S i * k) l))
               (fun i => firstn k (skipn (i * k) (skipn k l)))).
    + rewrite IH; [apply firstn_skipn|]. rewrite length_skipn. lia.
    + intros i. rewrite skipn_skipn. f_equal. f_equal. lia.
Qed.

Lemma pages_bound (count limit : Z) :
  0 <= count -> 0 < limit ->
  let T := Qceiling (inject_Z count / inject_Z limit) in
  count <= T * limit < count + limit.
Proof.
  intros Hc Hl T.
  assert (Hpos : (0 < inject_Z limit)%Q).
  { change 0%Q with (inject_Z 0). now rewrite <- Zlt_Qlt. }
  pose proof (Qle_ceiling (inject_Z count / inject_Z limit)) as Hup. fold T in Hup.
  pose proof (Qceiling_lt (inject_Z count / inject_Z limit)) as Hlo. fold T in Hlo.
  assert (Hne : ~ (inject_Z limit == 0)%Q).
  { intro H. unfold Qeq in H. simpl in H. lia. }
  assert (Hq : (inject_Z count == inject_Z count / inject_Z limit * inject_Z limit)%Q)
    by (now field).
  assert (Hup' : (inject_Z count <= inject_Z T * inject_Z limit)%Q).
  { rewrite Hq. apply Qmult_le_compat_r; [exact Hup|]. now apply Qlt_le_weak. }
  assert (Hlo' : (inject_Z (T - 1) * inject_Z limit < inject_Z count)%Q).
  { apply Qlt_le_trans
      with (y := (inject_Z count / inject_Z limit * inject_Z limit)%Q);
      [now apply Qmult_lt_compat_r | rewrite <- Hq; apply Qle_refl]. }
  rewrite <- inject_Z_mult, <- Zle_Qle in Hup'.
  rewrite <- inject_Z_mult, <- Zlt_Qlt in Hlo'. lia.
Qed.

Lemma map_related {A B C D : Type} (g : A -> C) (h : B -> C) (F : A -> D)
  (G : B -> D) (l : list A) :
  forall l' : list B,
    map g l = map h l' ->
    (forall a b, In b l' -> g a = h b -> F a = G b) ->
    map F l = map G l'.
Proof.
  induction l as [|a l IH]; intros [|b l'] Hmap HFG; simpl in *;
    try discriminate; [reflexivity|].
  injection Hmap as Hab Hrest. f_equal.
  - apply HFG; [now left | exact Hab].
  - apply IH; [exact Hrest|]. intros a' b' Hb'. apply HFG. now right.
Qed.

(** X23: the pages of [getAdherenceRecords] partition the result, for a
    limit and page numbers written as decimal integers.  For an allowed
    request whose limit is absent or a string of digits denoting a value
    from 1 on, every page whose number is a string of digits denoting a
    value from 1 on (the product with the limit below 2^53) has at most
    [limit] rows and reports the number of matching records as
    totalItems; the rows of pages 1 to n, one after the other, are exactly
    the matching records in the store's order as soon as n pages of that
    size can hold them, so no record is skipped and none is shown twice;
    and totalPages is the least such n. *)
Theorem getAdherenceRecords_pages (order : list Adherence.t -> list Adherence.t)
  (user : User.t) (limit : option string) (startDate endDate : option Z)
  (medicationId patientId : option string) (db : DB) (size : Z) :
  (forall l, Permutation (order l) l) ->
  AdherenceController._validateAccess db user (Js.str_or patientId (User.id user)) = true ->
  Js.queryInteger limit 20 = Some size ->
  1 <= size ->
  let matching :=
    filter (AdherenceController.recordsClause (Js.str_or patientId (User.id user))
              startDate endDate medicationId)
      (adherences db) in
  let page := fun s =>
    AdherenceController.getAdherenceRecords order user (Some s) limit startDate endDate
      medicationId patientId db in
  let rowsOf := fun s =>
    match page s with
    | Some resp =>
        match data resp with
        | Some (rows, _) => rows
        | None => []
        end
    | None => []
    end in
  (forall s p,
     Js.decimal s = Some p -> 1 <= p -> p * size < 2 ^ 53 ->
     exists rows pages,
       page s
       = Some (mkResponse 200 true None
                 (Some (rows,
                        AdherenceController.mkPagination p pages
                          (List.length matching) size)))
       /\ Z.of_nat (List.length rows) <= size
       /\ Z.of_nat (List.length matching) <= pages * size
          < Z.of_nat (List.length matching) + size)
  /\ (forall n ss,
        map Js.decimal ss = map (fun i => Some (Z.of_nat i + 1)) (seq 0 n) ->
        Z.of_nat n * size < 2 ^ 53 ->
        (List.length matching <= n * Z.to_nat size)%nat ->
        List.concat (map rowsOf ss)
        = map (fun r => (r, AdherenceController.includeMedication r db))
            (order matching)).
Proof.
  intros Hperm Hacc Hlimit Hsize matching page rowsOf.
  set (pages := Qceiling (inject_Z (Z.of_nat (List.length matching)) / inject_Z size)).
  assert (Hb : Z.of_nat (List.length matching) <= pages * size
               < Z.of_nat (List.length matching) + size).
  { apply pages_bound; lia. }
  assert (Hpage : forall s p,
             Js.decimal s = Some p -> 1 <= p -> p * size < 2 ^ 53 ->
             page s
             = Some (mkResponse 200 true None
                       (Some (map (fun r => (r, AdherenceController.includeMedication r db))
                                (firstn (Z.to_nat size)
                                   (skipn (Z.to_nat ((p - 1) * size)) (order matching))),
                              AdherenceController.mkPagination p pages
                                (List.length matching) size)))).
  { intros s p Hs Hp Hprod.
    unfold page, AdherenceController.getAdherenceRecords.
    rewrite Hacc, Hlimit. cbn [negb Js.queryInteger]. rewrite Hs.
    assert (Hp53 : (p <? 2 ^ 53) = true) by (apply Z.ltb_lt; nia).
    rewrite Hp53.
    assert (Hok : (1 <=? p) && (1 <=? size) && (p * size <? 2 ^ 53) = true).
    { rewrite !andb_true_iff, !Z.leb_le, Z.ltb_lt. auto. }
    rewrite Hok. reflexivity. }
  split.
  - intros s p Hs Hp Hprod. do 2 eexists. rewrite (Hpage s p Hs Hp Hprod).
    split; [reflexivity|].
    split; [|exact Hb]. rewrite length_map, length_firstn. lia.
  - intros n ss Hss Hn Hlen.
    rewrite (map_related Js.decimal (fun i => Some (Z.of_nat i + 1)) rowsOf
               (fun i => map (fun r => (r, AdherenceController.includeMedication r db))
                           (firstn (Z.to_nat size)
                              (skipn (i * Z.to_nat size) (order matching))))
               ss (seq 0 n) Hss).
    + rewrite <- (map_map (fun i => firstn (Z.to_nat size)
                                      (skipn (i * Z.to_nat size) (order matching)))
                    (map (fun r => (r, AdherenceController.includeMedication r db)))).
      rewrite <- concat_map. f_equal. apply chunks_concat.
      now rewrite (Permutation_length (Hperm matching)).
    + intros s i Hi Hs. apply in_seq in Hi. unfold rowsOf.
      rewrite (Hpage s (Z.of_nat i + 1) Hs) by nia.
      cbn [data]. do 3 f_equal.
      replace (Z.of_nat i + 1 - 1) with (Z.of_nat i) by lia.
      rewrite Z2Nat.inj_mul, Nat2Z.id; lia.
Qed.

Lemma getAdherenceRecords_pages_witness :
  let page := fun s =>
    option_map
      (fun resp =>
         option_map (fun d => map (fun x => Adherence.id (fst x)) (fst d)) (data resp))
      (AdherenceController.getAdherenceRecords (fun l => rev l)
         Sample.caregiver_c1 (Some s) (Some "1") None None None (Some "p1")
         (snd (AdherenceController.recordAdherence Sample.patient_p1
                 Sample.taken_m1 "a2" 7 8 (Sample.db_stock 5)))) in
  page "1" = Some (Some ["a2"]) /\ page "2" = Some (Some ["a1"])
  /\ page "3" = Some (Some []) /\ page "2.5" = None.
Proof.
  intros page.
  assert (Hsize : 1 <= 1) by lia.
  destruct (getAdherenceRecords_pages (fun l => rev l) Sample.caregiver_c1 (Some "1")
              None None None (Some "p1")
              (snd (AdherenceController.recordAdherence Sample.patient_p1
                      Sample.taken_m1 "a2" 7 8 (Sample.db_stock 5)))
              1 (fun l => Permutation_sym (Permutation_rev l)) eq_refl eq_refl Hsize)
    as (Hone & _).
  assert (Hprod : 2 * 1 < 2 ^ 53) by (apply Z.ltb_lt; reflexivity).
  destruct (Hone "2" 2 eq_refl ltac:(lia) Hprod) as (rows & pages & Hresp & _).
  repeat split; reflexivity.
Defined.

(** X24: an allowed [getMedicationAdherence] request returns only
    records of the target patient for the medication asked for, its total
    is the number of records returned, its taken count is at most the
    total, and its rate is 0 when there is no record; a requester who
    fails the access gate gets 403 without data. *)
Theorem getMedicationAdherence_scoped (roundPercent : nat -> nat -> Z)
  (order : list Adherence.t -> list Adherence.t) (user : User.t)
  (medicationId : string) (startDate endDate : option Z)
  (patientId : option string) (db : DB) :
  (forall l, Permutation (order l) l) ->
  let target := Js.str_or patientId (User.id user) in
  let resp :=
    AdherenceController.getMedicationAdherence roundPercent order user medicationId
      startDate endDate patientId db in
  (AdherenceController._validateAccess db user target = false
   /\ resp = fail_with 403 "Access denied.")
  \/ (AdherenceController._validateAccess db user target = true
      /\ exists ma,
           resp = mkResponse 200 true None (Some ma)
           /\ Forall (fun x =>
                        In (fst x) (adherences db)
                        /\ Adherence.userId (fst x) = target
                        /\ Adherence.medicationId (fst x) = Some medicationId)
                (AdherenceController.ma_records ma)
           /\ AdherenceController.ma_total ma
              = List.length (AdherenceController.ma_records ma)
           /\ (AdherenceController.ma_taken ma <= AdherenceController.ma_total ma)%nat
           /\ (AdherenceController.ma_total ma = 0%nat ->
               AdherenceController.ma_rate ma = 0)).
Proof.
  intros Hperm target resp. unfold resp, AdherenceController.getMedicationAdherence.
  fold target.
  destruct (AdherenceController._validateAccess db user target); simpl;
    [right|left; auto].
  split; [reflexivity|]. eexists. split; [reflexivity|]. simpl.
  split; [|split; [|split]].
  - apply Forall_map. simpl. apply Forall_forall. intros r Hr.
    apply (Permutation_in _ (Hperm _)) in Hr. apply filter_In in Hr.
    destruct Hr as [Hin Hc].
    rewrite !andb_true_iff, String.eqb_eq in Hc. destruct Hc as [[Hu Hm] _].
    split; [exact Hin|]. split; [exact Hu|].
    destruct (Adherence.medicationId r) as [k|]; [|discriminate].
    apply String.eqb_eq in Hm. now subst.
  - now rewrite length_map.
  - apply filter_length_le.
  - intros H0. unfold AdherenceController.rateOf. now rewrite H0.
Qed.

Lemma getMedicationAdherence_scoped_witness :
  option_map (fun ma => (AdherenceController.ma_total ma, AdherenceController.ma_taken ma))
    (data (AdherenceController.getMedicationAdherence (fun _ _ => 0) (fun l => rev l)
             Sample.caregiver_c1 "m1" None None (Some "p1") (Sample.db_stock 5)))
  = Some (1%nat, 0%nat).
Proof.
  destruct (getMedicationAdherence_scoped (fun _ _ => 0) (fun l => rev l)
              Sample.caregiver_c1 "m1" None None (Some "p1") (Sample.db_stock 5)
              (fun l => Permutation_sym (Permutation_rev l)))
    as [[H _]|[_ _]]; [discriminate H|reflexivity].
Defined.
